(** * Sadeem chatbot: the emotion-aware response pipeline

    A shallow embedding of
      - [backend/emotion_detector.py]          (class [EmotionDetector]),
      - [backend/app.py]                       (the reply parser inside
                                                [ResponseGenerator.generate]),
      - [backend/emotion_response_adapter.py]  (class [EmotionResponseAdapter]),
    followed by the properties proved about them.

    Conventions of the embedding.
      - A Python [str] is a list of Unicode code points ([list N]); this keeps
        [len], [strip] and the Arabic literals of [app.py] exact.
      - In the detector, the reply parsers and the adapter a Python [float]
        is idealised as a rational ([Q]): no rounding, no [inf], no [nan].
        What is proved there does not depend on rounding.  The local
        classifier is embedded a second time in binary64 arithmetic
        ([PyFloat], [EmotionDetector64]) for the claim about its numerical
        result.
      - The builtins [float(...)] and [str.lower()] depend on Unicode tables;
        they are fields of the class [Builtins], and every general theorem
        holds for all instances of it.
      - A raised exception is the [Raise] case of [outcome]; Python's [None]
        is the [None] of [option].
      - The Hugging Face pipeline and the Gemini model are external objects:
        they are functions stored in the detector and the adapter records. *)

From Stdlib Require Import List NArith ZArith QArith Qround Qpower SpecFloat.
From Stdlib Require Import Lqa Ascii String Bool Lia.
From stdpp Require Import gmap.
Import ListNotations.

Set Default Proof Using "Type".

(* ===================================================================== *)
(** * Python values *)
(* ===================================================================== *)

(** Exceptions that the modelled code can raise. *)
Inductive exn : Type :=
| IndexError
| KeyError
| ValueError
| ZeroDivisionError
| ExternalError.   (* anything raised inside a library or a remote call *)

Inductive outcome (A : Type) : Type :=
| Ret (a : A)
| Raise (e : exn).
Arguments Ret {A} a.
Arguments Raise {A} e.

Definition obind {A B} (m : outcome A) (k : A -> outcome B) : outcome B :=
  match m with
  | Ret a => k a
  | Raise e => Raise e
  end.

(** [outcome] is a monad; stdpp's [x ← m; k] notation sequences statements
    and stops at the first [Raise]. *)
#[global] Instance outcome_ret : MRet outcome := @Ret.
#[global] Instance outcome_bind : MBind outcome := fun A B k m => obind m k.

(** [try: body / except: handler] for a body that produces a value. *)
Definition try_except {A} (body : outcome A) (handler : A) : A :=
  match body with
  | Ret a => a
  | Raise _ => handler
  end.

(** Monadic left fold: a [for] loop whose body may raise. *)
Fixpoint for_each {A S} (body : S -> A -> outcome S) (xs : list A) (s : S)
  : outcome S :=
  match xs with
  | [] => Ret s
  | x :: xs' => obind (body s x) (for_each body xs')
  end.

(* --------------------------------------------------------------------- *)
(** ** Strings *)
(* --------------------------------------------------------------------- *)

Module PyStr.

(** A string is the list of its code points. *)
Definition str : Type := list N.

(** An ASCII literal. *)
Definition lit (s : string) : str :=
  List.map N_of_ascii (list_ascii_of_string s).

Definition nl : N := 10%N.
Definition colon : N := 58%N.
Definition dquote : N := 34%N.

Definition eqb (a b : str) : bool := bool_decide (a = b).

(** [str.isspace] on one character: the code points CPython treats as
    whitespace. *)
Definition isspace (c : N) : bool :=
  ((9 <=? c) && (c <=? 13) || (28 <=? c) && (c <=? 32)
   || (c =? 133) || (c =? 160) || (c =? 5760)
   || (8192 <=? c) && (c <=? 8202)
   || (c =? 8232) || (c =? 8233) || (c =? 8239) || (c =? 8287)
   || (c =? 12288))%N.

Fixpoint lstrip (s : str) : str :=
  match s with
  | [] => []
  | c :: s' => if isspace c then lstrip s' else s
  end.

Definition rstrip (s : str) : str := rev (lstrip (rev s)).

(** [s.strip()] *)
Definition strip (s : str) : str := rstrip (lstrip s).

(** [s.startswith(p)] *)
Fixpoint startswith (p s : str) : bool :=
  match p, s with
  | [], _ => true
  | _ :: _, [] => false
  | a :: p', b :: s' => (a =? b)%N && startswith p' s'
  end.

(** [sub in s] *)
Fixpoint contains (sub s : str) : bool :=
  startswith sub s ||
  match s with
  | [] => false
  | _ :: s' => contains sub s'
  end.

(** [s.split(sep)] for a one-character separator; never empty. *)
Fixpoint split (sep : N) (s : str) : list str :=
  match s with
  | [] => [[]]
  | c :: s' =>
      if (c =? sep)%N then [] :: split sep s'
      else match split sep s' with
           | [] => [[c]]
           | w :: ws => (c :: w) :: ws
           end
  end.

(** [s.split(sep, 1)]: at most one cut, at the first separator. *)
Fixpoint split1 (sep : N) (s : str) : list str :=
  match s with
  | [] => [[]]
  | c :: s' =>
      if (c =? sep)%N then [[]; s']
      else match split1 sep s' with
           | w :: ws => (c :: w) :: ws
           | [] => [[c]]
           end
  end.

(** [xs[i]] on a list. *)
Definition index {A} (xs : list A) (i : nat) : outcome A :=
  match nth_error xs i with
  | Some x => Ret x
  | None => Raise IndexError
  end.

(** [len(s.split())]: the number of maximal runs of non-whitespace.
    [inword] tells whether the previous character belonged to a word. *)
Fixpoint count_words_from (inword : bool) (s : str) : nat :=
  match s with
  | [] => 0
  | c :: s' =>
      if isspace c then count_words_from false s'
      else (if inword then 0 else 1) + count_words_from true s'
  end.

Definition count_words (s : str) : nat := count_words_from false s.

(** ["\n".join(lines)], used to write test inputs. *)
Fixpoint unlines (ls : list str) : str :=
  match ls with
  | [] => []
  | [l] => l
  | l :: ls' => l ++ nl :: unlines ls'
  end.

End PyStr.
Import PyStr.

Arguments lit _%_string.

(** The builtins whose behaviour rests on Unicode tables. *)
Class Builtins : Type := {
  (** [float(s)]: the value read, or [None] for [ValueError]. *)
  py_float : str -> option Q;
  (** [s.lower()] *)
  py_lower : str -> str
}.

Definition float_of `{Builtins} (s : str) : outcome Q :=
  match py_float s with
  | Some q => Ret q
  | None => Raise ValueError
  end.

(* --------------------------------------------------------------------- *)
(** ** Dictionaries in insertion order *)
(* --------------------------------------------------------------------- *)

Module PyDict.

Definition dict (V : Type) : Type := list (str * V).

(** [d.get(k)] *)
Fixpoint get {V} (k : str) (d : dict V) : option V :=
  match d with
  | [] => None
  | (k', v) :: d' => if PyStr.eqb k k' then Some v else get k d'
  end.

(** [d.get(k, dflt)] *)
Definition get_default {V} (k : str) (dflt : V) (d : dict V) : V :=
  match get k d with
  | Some v => v
  | None => dflt
  end.

(** [d[k]] *)
Definition getitem {V} (k : str) (d : dict V) : outcome V :=
  match get k d with
  | Some v => Ret v
  | None => Raise KeyError
  end.

(** [d[k] = v]: an existing key keeps its place, a new key goes last. *)
Fixpoint set {V} (k : str) (v : V) (d : dict V) : dict V :=
  match d with
  | [] => [(k, v)]
  | (k', v') :: d' =>
      if PyStr.eqb k k' then (k', v) :: d' else (k', v') :: set k v d'
  end.

Definition keys {V} (d : dict V) : list str := List.map fst d.
Definition values {V} (d : dict V) : list V := List.map snd d.

End PyDict.

(** [sum(xs)] on floats. *)
Definition py_sum (xs : list Q) : Q := fold_left Qplus xs 0%Q.

Definition Qltb (x y : Q) : bool := negb (Qle_bool y x).

(** [max(items, key=lambda x: x[1])]: the first item whose value is not
    exceeded; [ValueError] on an empty sequence. *)
Fixpoint max_from {K} (best : K * Q) (xs : list (K * Q)) : K * Q :=
  match xs with
  | [] => best
  | x :: xs' => max_from (if Qltb (snd best) (snd x) then x else best) xs'
  end.

Definition py_max_by_value {K} (xs : list (K * Q)) : outcome (K * Q) :=
  match xs with
  | [] => Raise ValueError
  | x :: xs' => Ret (max_from x xs')
  end.

(* --------------------------------------------------------------------- *)
(** ** Floats in binary64 *)
(* --------------------------------------------------------------------- *)

Module PyFloat.

#[local] Open Scope Q_scope.

(** A Python [float] is an IEEE 754 binary64 value.  A finite value is
    held as the rational it denotes, in lowest terms; [Finite 0] is [0.0]
    and the negative zero is a value of its own. *)
Inductive float : Type :=
| Finite (q : Q)
| NegZero
| PosInf
| NegInf
| NaN.

Definition pow2 (k : Z) : Q := 2 ^ k.

(** [floor(log2(x))] of a positive rational. *)
Definition ilog2 (x : Q) : Z :=
  let k := (Z.log2 (Qnum x) - Z.log2 (Zpos (Qden x)))%Z in
  if Qle_bool (pow2 k) x then k else (k - 1)%Z.

(** The nearest integer, a tie going to the even one. *)
Definition rne (s : Q) : Z :=
  let f := Qfloor s in
  match Qcompare (s - inject_Z f) (1 # 2) with
  | Lt => f
  | Gt => (f + 1)%Z
  | Eq => if Z.even f then f else (f + 1)%Z
  end.

(** The exponent of the last place of a positive [x]: 53 significant bits,
    and not below that of the subnormal numbers. *)
Definition exponent (x : Q) : Z := Z.max (ilog2 x - 52) (-1074).

(** A positive rational rounded to the nearest multiple of
    [2 ^ exponent x], ties to even; the exponent is not yet bounded
    above. *)
Definition round_pos (x : Q) : Q :=
  Qred (inject_Z (rne (x / pow2 (exponent x))) * pow2 (exponent x)).

(** A rounded magnitude of [2 ^ 1024] or more overflows. *)
Definition huge : Q := pow2 1024.

(** The binary64 value of a rational: round to nearest, ties to even.
    This is the value of a literal and of [int / int]; every operation of
    IEEE 754 is the exact result rounded this way. *)
Definition of_Q (x : Q) : float :=
  match Qcompare x 0 with
  | Eq => Finite 0
  | Gt => let r := round_pos x in
          if Qle_bool huge r then PosInf else Finite r
  | Lt => let r := round_pos (- x) in
          if Qle_bool huge r then NegInf
          else if Qeq_bool r 0 then NegZero else Finite (- r)
  end.

(** [x + y].  An exact sum of zero is [0.0], except [-0.0 + -0.0]. *)
Definition add (x y : float) : float :=
  match x, y with
  | NaN, _ | _, NaN => NaN
  | PosInf, NegInf | NegInf, PosInf => NaN
  | PosInf, _ | _, PosInf => PosInf
  | NegInf, _ | _, NegInf => NegInf
  | NegZero, NegZero => NegZero
  | NegZero, Finite b => Finite b
  | Finite a, NegZero => Finite a
  | Finite a, Finite b =>
      if Qeq_bool (a + b) 0 then Finite 0 else of_Q (a + b)
  end.

Definition is_zero (x : float) : bool :=
  match x with
  | Finite q => Qeq_bool q 0
  | NegZero => true
  | _ => false
  end.

(** The sign bit is set. *)
Definition negative (x : float) : bool :=
  match x with
  | Finite q => Qltb q 0
  | NegZero | NegInf => true
  | _ => false
  end.

Definition signed_zero (neg : bool) : float :=
  if neg then NegZero else Finite 0.

Definition signed_inf (neg : bool) : float :=
  if neg then NegInf else PosInf.

(** [x / y]; [None] is Python's [ZeroDivisionError], raised for a divisor
    of either zero. *)
Definition div (x y : float) : option float :=
  if is_zero y then None
  else Some
    match x, y with
    | NaN, _ | _, NaN => NaN
    | (PosInf | NegInf), (PosInf | NegInf) => NaN
    | (PosInf | NegInf), _ => signed_inf (xorb (negative x) (negative y))
    | _, (PosInf | NegInf) => signed_zero (xorb (negative x) (negative y))
    | Finite a, Finite b =>
        if Qeq_bool a 0 then signed_zero (negative y) else of_Q (a / b)
    | NegZero, _ => signed_zero (negb (negative y))
    | _, NegZero => NaN
    end.

(** [x < y]; [x > y] is [ltb y x].  Every comparison with [nan] is
    false. *)
Definition ltb (x y : float) : bool :=
  match x, y with
  | NaN, _ | _, NaN => false
  | PosInf, _ | _, NegInf => false
  | NegInf, _ | _, PosInf => true
  | Finite a, Finite b => Qltb a b
  | Finite a, NegZero => Qltb a 0
  | NegZero, Finite b => Qltb 0 b
  | NegZero, NegZero => false
  end.

(** The value the Standard Library's [spec_float] denotes. *)
Definition of_spec (x : spec_float) : float :=
  match x with
  | S754_zero false => Finite 0
  | S754_zero true => NegZero
  | S754_infinity false => PosInf
  | S754_infinity true => NegInf
  | S754_nan => NaN
  | S754_finite s m e =>
      Finite (Qred ((if s then -1 else 1) * inject_Z (Zpos m) * pow2 e))
  end.

End PyFloat.

(* --------------------------------------------------------------------- *)
(** ** An instance of the builtins, for evaluating examples *)
(* --------------------------------------------------------------------- *)

Module AsciiBuiltins.

Definition digit (c : N) : option N :=
  if ((48 <=? c) && (c <=? 57))%N then Some (c - 48)%N else None.

(** The value of a run of decimal digits, most significant first. *)
Fixpoint digits_from (acc : N) (s : str) : option N :=
  match s with
  | [] => Some acc
  | c :: s' =>
      match digit c with
      | Some d => digits_from (10 * acc + d)%N s'
      | None => None
      end
  end.

Definition unsigned_decimal (s : str) : option Q :=
  match split1 46%N s with
  | [ip] =>
      match ip, digits_from 0 ip with
      | _ :: _, Some n => Some (inject_Z (Z.of_N n))
      | _, _ => None
      end
  | [ip; fp] =>
      match ip ++ fp, digits_from 0 (ip ++ fp) with
      | _ :: _, Some n =>
          Some (Qred (Z.of_N n # Pos.of_nat (10 ^ length fp)))
      | _, _ => None
      end
  | _ => None
  end.

(** [float(s)] on a plain decimal literal: optional sign, digits, optional
    fraction. *)
Definition decimal_float (s : str) : option Q :=
  match strip s with
  | 45%N :: s' => option_map Qopp (unsigned_decimal s')
  | 43%N :: s' => unsigned_decimal s'
  | s' => unsigned_decimal s'
  end.

(** [s.lower()] on ASCII letters. *)
Definition ascii_lower (s : str) : str :=
  List.map (fun c => if ((65 <=? c) && (c <=? 90))%N then (c + 32)%N else c) s.

End AsciiBuiltins.

Definition ascii_builtins : Builtins :=
  {| py_float := AsciiBuiltins.decimal_float;
     py_lower := AsciiBuiltins.ascii_lower |}.

(* ===================================================================== *)
(** * [emotion_detector.py] *)
(* ===================================================================== *)

Module EmotionDetector.

#[local] Open Scope Q_scope.

(** One entry of the pipeline's output: [{'label': ..., 'score': ...}]. *)
Record prediction : Type := {
  pred_label : str;
  pred_score : Q
}.

(** The dictionary returned by the detector. *)
Record EmotionResult : Type := {
  label : str;
  confidence : Q;
  scores : PyDict.dict Q
}.

(** A call made to one of the two models. *)
Inductive call : Type :=
| PipelineCall (text : str)
| GenerateCall (prompt : str).

(** The attributes of an [EmotionDetector] object. [emotion_pipeline text]
    is the value of [self.emotion_pipeline(text)]; [gemini_model prompt] is
    the value of [self.gemini_model.generate_content(prompt).text]. *)
Record t : Type := {
  confidence_threshold : Q;
  use_gemini_fallback : bool;
  emotion_pipeline : option (str -> outcome (list (list prediction)));
  gemini_model : option (str -> outcome str)
}.

Definition EMOTION_MAPPING : PyDict.dict str :=
  [ (lit "joy", lit "Happy");
    (lit "neutral", lit "Neutral");
    (lit "surprise", lit "Confused");
    (lit "anger", lit "Frustrated");
    (lit "sadness", lit "Sad");
    (lit "fear", lit "Confused");
    (lit "disgust", lit "Frustrated") ].

Definition TARGET_EMOTIONS : list str :=
  [lit "Happy"; lit "Neutral"; lit "Confused"; lit "Frustrated"; lit "Sad"].

(** [x in TARGET_EMOTIONS] *)
Definition is_target (x : str) : bool :=
  existsb (PyStr.eqb x) TARGET_EMOTIONS.

(** [__init__]: either model may fail to load; the Gemini model is only
    created when the fallback is enabled. *)
Definition init (use_fallback : bool) (threshold : Q)
    (load_pipeline : outcome (str -> outcome (list (list prediction))))
    (load_gemini : outcome (str -> outcome str)) : t :=
  {| confidence_threshold := threshold;
     use_gemini_fallback := use_fallback;
     emotion_pipeline := try_except (p ← load_pipeline; Ret (Some p)) None;
     gemini_model :=
       if use_fallback then try_except (g ← load_gemini; Ret (Some g)) None
       else None |}.

Definition _default_emotion : EmotionResult :=
  {| label := lit "Neutral";
     confidence := 1.0;
     scores := [ (lit "Happy", 0.0); (lit "Neutral", 1.0);
                 (lit "Confused", 0.0); (lit "Frustrated", 0.0);
                 (lit "Sad", 0.0) ] |}.

(** The body of the [for pred in predictions] loop. *)
Definition accumulate (emotion_scores : PyDict.dict Q) (pred : prediction)
  : outcome (PyDict.dict Q) :=
  let original_label := pred_label pred in
  let score := pred_score pred in
  let target_emotion :=
    PyDict.get_default original_label (lit "Neutral") EMOTION_MAPPING in
  old ← PyDict.getitem target_emotion emotion_scores;
  Ret (PyDict.set target_emotion (old + score) emotion_scores).

(** The part of [_detect_with_hf_model] after the pipeline has answered. *)
Definition remap_and_normalize (predictions : list prediction)
  : outcome EmotionResult :=
  let emotion_scores := List.map (fun e => (e, 0.0)) TARGET_EMOTIONS in
  emotion_scores ← for_each accumulate predictions emotion_scores;
  let total := py_sum (PyDict.values emotion_scores) in
  let emotion_scores :=
    if Qltb 0 total
    then List.map (fun kv => (fst kv, snd kv / total)) emotion_scores
    else emotion_scores in
  dominant_emotion ← py_max_by_value emotion_scores;
  Ret {| label := fst dominant_emotion;
         confidence := snd dominant_emotion;
         scores := emotion_scores |}.

Definition _detect_with_hf_model
    (pipeline : str -> outcome (list (list prediction))) (text : str)
  : outcome EmotionResult * list call :=
  (predictions ← (out ← pipeline text; index out 0%nat);
   remap_and_normalize predictions,
   [PipelineCall text]).

Definition gemini_prompt (text : str) : str :=
  unlines
    [ lit "Analyze the emotion in this message and classify it into exactly ONE of these 5 categories:";
      lit "- Happy (positive, joyful, satisfied, grateful)";
      lit "- Neutral (calm, informational, matter-of-fact)";
      lit "- Confused (uncertain, puzzled, seeking clarification)";
      lit "- Frustrated (angry, annoyed, impatient, irritated)";
      lit "- Sad (disappointed, upset, discouraged, unhappy)";
      [];
      lit "Message: " ++ dquote :: text ++ [dquote];
      [];
      lit "Respond with ONLY the emotion label and a confidence score (0.0-1.0) in this exact format:";
      lit "EMOTION: [label]";
      lit "CONFIDENCE: [score]";
      [];
      lit "Example:";
      lit "EMOTION: Frustrated";
      lit "CONFIDENCE: 0.85" ].

(** The body of the [for line in result_text.split('\n')] loop; the state
    is [(emotion_label, confidence)]. *)
Definition parse_line `{Builtins} (st : str * Q) (line : str)
  : outcome (str * Q) :=
  let '(emotion_label, confidence) := st in
  if startswith (lit "EMOTION:") line then
    field ← index (split1 colon line) 1%nat;
    Ret (strip field, confidence)
  else if startswith (lit "CONFIDENCE:") line then
    Ret (emotion_label,
         try_except (field ← index (split1 colon line) 1%nat;
                     float_of (strip field))
                    0.5)
  else Ret (emotion_label, confidence).

(** The parse of the reply, from [result_text = response.text.strip()] to
    the returned dictionary. *)
Definition parse_gemini_reply `{Builtins} (response_text : str)
  : outcome EmotionResult :=
  let result_text := strip response_text in
  '(emotion_label, confidence) ←
    for_each parse_line (split nl result_text) (lit "Neutral", 0.5);
  let emotion_label :=
    if is_target emotion_label then emotion_label else lit "Neutral" in
  let scores :=
    List.map (fun e => (e, (1 - confidence) / 4)) TARGET_EMOTIONS in
  let scores := PyDict.set emotion_label confidence scores in
  Ret {| label := emotion_label;
         confidence := confidence;
         scores := scores |}.

(** [_detect_with_gemini]: [None] when no model is configured or when
    anything inside the [try] raises. *)
Definition _detect_with_gemini `{Builtins} (self : t) (text : str)
  : option EmotionResult * list call :=
  match gemini_model self with
  | None => (None, [])
  | Some generate =>
      let prompt := gemini_prompt text in
      (try_except (response_text ← generate prompt;
                   r ← parse_gemini_reply response_text;
                   Ret (Some r))
                  None,
       [GenerateCall prompt])
  end.

(** [detect_emotion].  The result is what the method returns ([None] is
    Python's [None]) together with the model calls it made, in order.
    [_detect_with_gemini] catches its own exceptions, so the [try] around
    the second call to it never reaches its [except]. *)
Definition detect_emotion `{Builtins} (self : t) (user_message : str)
  : option EmotionResult * list call :=
  if PyStr.eqb user_message [] || PyStr.eqb (strip user_message) [] then
    (Some _default_emotion, [])
  else
    let gemini_only (log : list call) :=
      if use_gemini_fallback self && bool_decide (is_Some (gemini_model self))
      then
        let '(r, log') := _detect_with_gemini self user_message in
        (r, log ++ log')
      else (Some _default_emotion, log) in
    match emotion_pipeline self with
    | Some pipeline =>
        match _detect_with_hf_model pipeline user_message with
        | (Ret result, log) =>
            if Qltb (confidence result) (confidence_threshold self)
               && use_gemini_fallback self
            then
              let '(gemini_result, log') :=
                _detect_with_gemini self user_message in
              match gemini_result with
              | Some r => (Some r, log ++ log')
              | None => (Some result, log ++ log')
              end
            else (Some result, log)
        | (Raise _, log) => gemini_only log
        end
    | None => gemini_only []
    end.

End EmotionDetector.

(* ===================================================================== *)
(** * [emotion_detector.py]: the local classifier in binary64 *)
(* ===================================================================== *)

(** [_detect_with_hf_model] once more, with the scores as binary64 values
    and every addition, division and comparison as Python makes it. *)
Module EmotionDetector64.

Import PyFloat.

(** One entry of the pipeline's output: [{'label': ..., 'score': ...}]. *)
Record prediction : Type := {
  pred_label : str;
  pred_score : float
}.

(** The dictionary returned by the classifier. *)
Record EmotionResult : Type := {
  label : str;
  confidence : float;
  scores : PyDict.dict float
}.

(** [sum(xs)] on floats: the additions are made from left to right,
    starting from the integer 0 (CPython up to 3.11; from 3.12 on [sum]
    compensates the rounding errors). *)
Definition py_sum (xs : list float) : float := fold_left add xs (Finite 0).

(** [x / y] on floats. *)
Definition truediv (x y : float) : outcome float :=
  match div x y with
  | Some q => Ret q
  | None => Raise ZeroDivisionError
  end.

(** [max(items, key=lambda x: x[1])]: the current best is replaced by an
    item whose value is greater. *)
Fixpoint max_from {K} (best : K * float) (xs : list (K * float)) : K * float :=
  match xs with
  | [] => best
  | x :: xs' => max_from (if ltb (snd best) (snd x) then x else best) xs'
  end.

Definition py_max_by_value {K} (xs : list (K * float)) : outcome (K * float) :=
  match xs with
  | [] => Raise ValueError
  | x :: xs' => Ret (max_from x xs')
  end.

(** The body of the [for pred in predictions] loop. *)
Definition accumulate (emotion_scores : PyDict.dict float) (pred : prediction)
  : outcome (PyDict.dict float) :=
  let original_label := pred_label pred in
  let score := pred_score pred in
  let target_emotion :=
    PyDict.get_default original_label (lit "Neutral")
                       EmotionDetector.EMOTION_MAPPING in
  old ← PyDict.getitem target_emotion emotion_scores;
  Ret (PyDict.set target_emotion (add old score) emotion_scores).

(** One step of [{k: v/total for k, v in emotion_scores.items()}]. *)
Definition normalize_entry (total : float) (normalized : PyDict.dict float)
    (kv : str * float) : outcome (PyDict.dict float) :=
  q ← truediv (snd kv) total;
  Ret (PyDict.set (fst kv) q normalized).

(** The part of [_detect_with_hf_model] after the pipeline has answered. *)
Definition remap_and_normalize (predictions : list prediction)
  : outcome EmotionResult :=
  let emotion_scores :=
    List.map (fun e => (e, Finite 0)) EmotionDetector.TARGET_EMOTIONS in
  emotion_scores ← for_each accumulate predictions emotion_scores;
  let total := py_sum (PyDict.values emotion_scores) in
  emotion_scores ←
    (if ltb (Finite 0) total
     then for_each (normalize_entry total) emotion_scores []
     else Ret emotion_scores);
  dominant_emotion ← py_max_by_value emotion_scores;
  Ret {| label := fst dominant_emotion;
         confidence := snd dominant_emotion;
         scores := emotion_scores |}.

(** [_detect_with_hf_model]: the result and the call made to the
    pipeline. *)
Definition _detect_with_hf_model
    (pipeline : str -> outcome (list (list prediction))) (text : str)
  : outcome EmotionResult * list EmotionDetector.call :=
  (predictions ← (out ← pipeline text; index out 0%nat);
   remap_and_normalize predictions,
   [EmotionDetector.PipelineCall text]).

End EmotionDetector64.

(* ===================================================================== *)
(** * [app.py]: the reply parser of [ResponseGenerator.generate] *)
(* ===================================================================== *)

Module ResponseGenerator.

#[local] Open Scope Q_scope.

(** The Arabic names of the five emotions, as code points. *)
Definition emotion_map : PyDict.dict str :=
  [ ([1587; 1593; 1610; 1583]%N, lit "Happy");
    ([1605; 1581; 1575; 1610; 1583]%N, lit "Neutral");
    ([1605; 1585; 1578; 1576; 1603]%N, lit "Confused");
    ([1605; 1581; 1576; 1591]%N, lit "Frustrated");
    ([1581; 1586; 1610; 1606]%N, lit "Sad") ].

(** The two rating requests appended to a closing message. *)
Definition rating_request_ar : str :=
  [10; 10; 1604; 1608; 32; 1593; 1606; 1583; 1603; 32; 1583; 1602; 1610;
   1602; 1577; 1548; 32; 1602; 1610; 1617; 1605; 32; 1578; 1580; 1585;
   1576; 1578; 1603; 32; 1605; 1593; 1610; 33; 32; 11088]%N.

Definition rating_request_en : str :=
  nl :: nl ::
  lit "If you have a moment, please rate your experience with me below! "
  ++ [11088%N].

(** The state of the parsing loop. *)
Record parse_state : Type := {
  emotion_label : str;
  emotion_confidence : Q;
  response_text : str
}.

(** The values the three variables hold when the loop starts
    ([emotion_label = "Neutral"], [emotion_confidence = 0.0], and an
    empty [response_text]). *)
Definition initial_state : parse_state :=
  {| emotion_label := lit "Neutral";
     emotion_confidence := 0.0;
     response_text := [] |}.

(** The body of [for line in result_text.split('\n')]. *)
Definition parse_line `{Builtins} (st : parse_state) (line : str)
  : outcome parse_state :=
  if startswith (lit "EMOTION:") line then
    field ← index (split1 colon line) 1%nat;
    let emotion_label := strip field in
    let emotion_label :=
      PyDict.get_default emotion_label emotion_label emotion_map in
    Ret {| emotion_label := emotion_label;
           emotion_confidence := emotion_confidence st;
           response_text := response_text st |}
  else if startswith (lit "CONFIDENCE:") line then
    Ret {| emotion_label := emotion_label st;
           emotion_confidence :=
             try_except (field ← index (split1 colon line) 1%nat;
                         float_of (strip field))
                        0.5;
           response_text := response_text st |}
  else if startswith (lit "RESPONSE:") line then
    field ← index (split1 colon line) 1%nat;
    Ret {| emotion_label := emotion_label st;
           emotion_confidence := emotion_confidence st;
           response_text := strip field |}
  else if negb (PyStr.eqb (response_text st) []) then
    Ret {| emotion_label := emotion_label st;
           emotion_confidence := emotion_confidence st;
           response_text := response_text st ++ nl :: line |}
  else Ret st.

(** From [result_text = response.text.strip()] to the [return] of the
    Gemini branch: the reply [text] of the model is parsed into
    [(response_text, emotion_label, emotion_confidence,
      should_request_rating)]. *)
Definition parse_reply `{Builtins} (language : str)
    (should_request_rating : bool) (text : str)
  : outcome (str * str * Q * bool) :=
  let result_text := strip text in
  st ← for_each parse_line (split nl result_text) initial_state;
  let response_text := response_text st in
  let response_text :=
    if PyStr.eqb response_text [] then result_text else response_text in
  let response_text :=
    if should_request_rating then
      if PyStr.eqb language (lit "ar")
      then response_text ++ rating_request_ar
      else response_text ++ rating_request_en
    else response_text in
  Ret (strip response_text, emotion_label st, emotion_confidence st,
       should_request_rating).

End ResponseGenerator.

(* ===================================================================== *)
(** * [emotion_response_adapter.py] *)
(* ===================================================================== *)

Module EmotionResponseAdapter.

(** The attributes of an [EmotionResponseAdapter] object;
    [gemini_model prompt] is the value of
    [self.gemini_model.generate_content(prompt).text]. *)
Record t : Type := {
  gemini_model : option (str -> outcome str);
  frustration_tracker : gmap str Z
}.

(** [conversation_context]: [None] or a dictionary (string entries). *)
Definition context : Type := option (PyDict.dict str).

(** [__init__] *)
Definition init (gemini_model : option (str -> outcome str)) : t :=
  {| gemini_model := gemini_model; frustration_tracker := ∅ |}.

(** Truth value of a context: neither [None] nor an empty dictionary. *)
Definition truthy (ctx : context) : bool :=
  match ctx with
  | Some (_ :: _) => true
  | _ => false
  end.

(** [context.get('session_id')] when it is a non-empty string. *)
Definition session_of (ctx : context) : option str :=
  match ctx with
  | Some d =>
      match PyDict.get (lit "session_id") d with
      | Some (c :: s) => Some (c :: s)
      | _ => None
      end
  | None => None
  end.

Definition prompt_Happy : str :=
  unlines
    [ lit "You are Sadeem, a friendly Fuel Card assistant. The user is in a HAPPY/POSITIVE mood.";
      [];
      lit "Guidelines:";
      lit "- Match their positive energy with an upbeat, friendly tone";
      lit "- Keep responses concise and efficient (they're satisfied, don't over-explain)";
      lit "- Use positive language and affirmations";
      lit "- Be warm but professional";
      lit "- 2-3 sentences maximum" ].

Definition prompt_Neutral : str :=
  unlines
    [ lit "You are Sadeem, a professional Fuel Card assistant. The user is in a NEUTRAL/CALM mood.";
      [];
      lit "Guidelines:";
      lit "- Use clear, professional, factual tone";
      lit "- Be direct and informative";
      lit "- Focus on accuracy and completeness";
      lit "- Avoid unnecessary emotion or flair";
      lit "- 2-4 sentences, well-structured" ].

Definition prompt_Confused : str :=
  unlines
    [ lit "You are Sadeem, a patient and helpful Fuel Card assistant. The user is CONFUSED/UNCERTAIN.";
      [];
      lit "Guidelines:";
      lit "- Break down information into simple, clear steps";
      lit "- Use numbered lists or bullet points when helpful";
      lit "- Provide concrete examples";
      lit "- Ask a clarifying question at the end to ensure understanding";
      lit "- Be patient and reassuring";
      lit "- Avoid jargon, explain technical terms";
      lit "- 3-5 sentences with clear structure" ].

Definition prompt_Frustrated : str :=
  unlines
    [ lit "You are Sadeem, an empathetic and solution-focused Fuel Card assistant. The user is FRUSTRATED/ANGRY.";
      [];
      lit "Guidelines:";
      lit "- START with acknowledgment of their frustration (e.g., " ++ dquote :: lit "I understand this is frustrating..." ++ dquote :: lit ")";
      lit "- Be direct and solution-oriented - get to the point quickly";
      lit "- Offer specific, actionable steps";
      lit "- Show empathy but don't over-apologize";
      lit "- If this seems like a recurring issue, suggest escalation or alternative solutions";
      lit "- 2-4 sentences, focused on resolution" ].

Definition prompt_Sad : str :=
  unlines
    [ lit "You are Sadeem, a supportive and encouraging Fuel Card assistant. The user is SAD/DISAPPOINTED.";
      [];
      lit "Guidelines:";
      lit "- Use a gentle, supportive tone";
      lit "- Acknowledge their feelings briefly";
      lit "- Provide reassurance while still being helpful";
      lit "- Be encouraging and positive about finding a solution";
      lit "- Avoid being overly cheerful (be genuine)";
      lit "- 3-4 sentences, warm and understanding" ].

Definition escalation_directive : str :=
  nl :: nl ::
  lit "IMPORTANT: This user has been frustrated multiple times. Offer to escalate to a human representative or provide alternative contact methods.".

Definition prompts : PyDict.dict str :=
  [ (lit "Happy", prompt_Happy);
    (lit "Neutral", prompt_Neutral);
    (lit "Confused", prompt_Confused);
    (lit "Frustrated", prompt_Frustrated);
    (lit "Sad", prompt_Sad) ].

(** [_get_emotion_prompt]: the prompt (or the exception) and the tracker
    as the call leaves it. *)
Definition _get_emotion_prompt (tracker : gmap str Z) (emotion : str)
    (ctx : context) : outcome str * gmap str Z :=
  let '(prompts, tracker) :=
    if PyStr.eqb emotion (lit "Frustrated") && truthy ctx then
      match session_of ctx with
      | Some session_id =>
          let frustration_count :=
            (default 0 (tracker !! session_id) + 1)%Z in
          let tracker := <[session_id := frustration_count]> tracker in
          (if (2 <=? frustration_count)%Z then
             old ← PyDict.getitem (lit "Frustrated") prompts;
             Ret (PyDict.set (lit "Frustrated")
                             (old ++ escalation_directive) prompts)
           else Ret prompts,
           tracker)
      | None => (Ret prompts, tracker)
      end
    else (Ret prompts, tracker) in
  (prompts ← prompts;
   dflt ← PyDict.getitem (lit "Neutral") prompts;
   Ret (PyDict.get_default emotion dflt prompts),
   tracker).

Definition clarifying_questions : list str :=
  [ nl :: nl :: lit "Does this help clarify things, or would you like me to explain any specific part in more detail?";
    nl :: nl :: lit "Is there a specific aspect you'd like me to break down further?";
    nl :: nl :: lit "Do you have any questions about these steps?" ].

Definition escalation_offer : str :=
  nl :: nl :: lit "If you'd prefer, I can provide contact information for our customer service team who can assist you directly.".

Definition encouragement : str :=
  lit " I'm here to help make this easier for you.".

(** [_add_emotion_enhancements] *)
Definition _add_emotion_enhancements `{Builtins} (tracker : gmap str Z)
    (answer emotion user_message : str) (ctx : context) : outcome str :=
  answer ←
    (if PyStr.eqb emotion (lit "Confused")
        && negb (contains (lit "?") answer)
     then
       let question_idx :=
         (length user_message mod length clarifying_questions)%nat in
       q ← index clarifying_questions question_idx;
       Ret (answer ++ q)
     else Ret answer);
  let answer :=
    if PyStr.eqb emotion (lit "Frustrated") && truthy ctx then
      match session_of ctx with
      | Some session_id =>
          if (2 <=? default 0 (tracker !! session_id))%Z then
            if negb (contains (lit "contact") (py_lower answer))
               && negb (contains (lit "representative") (py_lower answer))
            then answer ++ escalation_offer
            else answer
          else answer
      | None => answer
      end
    else answer in
  let answer :=
    if PyStr.eqb emotion (lit "Sad") && (20 <? count_words answer)%nat then
      if negb (existsb (fun word => contains word (py_lower answer))
                       [lit "help"; lit "here"; lit "support"])
      then answer ++ encouragement
      else answer
    else answer in
  Ret answer.

(** [_simple_emotion_prefix] *)
Definition _simple_emotion_prefix (emotion : str) : str :=
  PyDict.get_default emotion []
    [ (lit "Happy", lit "Great to hear from you! ");
      (lit "Neutral", []);
      (lit "Confused", lit "Let me help clarify that. ");
      (lit "Frustrated", lit "I understand this is frustrating. ");
      (lit "Sad", lit "I'm sorry you're experiencing this. ") ].

(** The f-string sent to the model. *)
Definition full_prompt (system_prompt user_message emotion_label
                        base_answer : str) : str :=
  unlines
    [ system_prompt;
      [];
      lit "User's Message: " ++ dquote :: user_message ++ [dquote];
      lit "Detected Emotion: " ++ emotion_label;
      [];
      lit "Base Answer (from knowledge base):";
      base_answer;
      [];
      lit "Your Task:";
      lit "Rewrite the base answer to match the user's emotional state. Keep the factual information but adjust the tone, structure, and approach based on the emotion guidelines above.";
      [];
      lit "Adjusted Response:" ].

(** [adjust_response_based_on_emotion]: the returned text and the object
    after the call. *)
Definition adjust_response_based_on_emotion `{Builtins} (self : t)
    (emotion_label base_answer user_message : str) (ctx : context)
  : str * t :=
  match gemini_model self with
  | None => (base_answer, self)
  | Some generate =>
      let '(system_prompt, tracker) :=
        _get_emotion_prompt (frustration_tracker self) emotion_label ctx in
      (try_except
         (system_prompt ← system_prompt;
          response_text ←
            generate (full_prompt system_prompt user_message emotion_label
                                  base_answer);
          let adapted_answer := strip response_text in
          _add_emotion_enhancements tracker adapted_answer emotion_label
                                    user_message ctx)
         (_simple_emotion_prefix emotion_label ++ base_answer),
       {| gemini_model := gemini_model self;
          frustration_tracker := tracker |})
  end.

(** [reset_frustration_tracker] *)
Definition reset_frustration_tracker (self : t) (session_id : str) : t :=
  {| gemini_model := gemini_model self;
     frustration_tracker := delete session_id (frustration_tracker self) |}.

(** [get_frustration_level] *)
Definition get_frustration_level (self : t) (session_id : str) : Z :=
  default 0%Z (frustration_tracker self !! session_id).

End EmotionResponseAdapter.

(* ===================================================================== *)
(** * [app.py]: the rest of [ResponseGenerator] *)
(* ===================================================================== *)

(** [str.isupper], another builtin that rests on Unicode tables. *)
Class CaseTables : Type := {
  py_isupper : str -> bool
}.

(** An instance for ASCII text, for evaluating examples. *)
Definition ascii_case_tables : CaseTables :=
  {| py_isupper := fun s =>
       existsb (fun c => (65 <=? c) && (c <=? 90))%N s
       && negb (existsb (fun c => (97 <=? c) && (c <=? 122))%N s) |}.

Module Generate.

#[local] Open Scope Q_scope.

(** The keywords of [_is_sadeem_question] (English, then Arabic as code points). *)
Definition sadeem_keywords : list str :=
  [ lit "sadeem";
    lit "fuel";
    lit "card";
    lit "fee";
    lit "feature";
    lit "benefitpay";
    lit "benefit pay";
    lit "restriction";
    lit "format";
    lit "prepaid";
    lit "credit";
    lit "apply";
    lit "how much";
    lit "cost";
    lit "charge";
    lit "what";
    lit "how";
    lit "use";
    lit "get";
    lit "student";
    lit "young";
    lit "vehicle";
    lit "limit";
    lit "bapco";
    lit "good";
    lit "best";
    lit "work";
    lit "available";
    lit "app";
    lit "mobile";
    lit "download";
    lit "iphone";
    lit "android";
    lit "apple";
    [1587; 1583; 1610; 1605]%N;
    [1608; 1602; 1608; 1583]%N;
    [1576; 1578; 1585; 1608; 1604]%N;
    [1603; 1585; 1578]%N;
    [1576; 1591; 1575; 1602; 1577]%N;
    [1585; 1587; 1608; 1605]%N;
    [1605; 1610; 1586; 1577]%N;
    [1605; 1605; 1610; 1586; 1575; 1578]%N;
    [1576; 1606; 1601; 1578]%N;
    [1578; 1591; 1576; 1610; 1602]%N;
    [1602; 1610; 1608; 1583]%N;
    [1581; 1583; 1608; 1583]%N;
    [1605; 1587; 1576; 1602]%N;
    [1575; 1574; 1578; 1605; 1575; 1606]%N;
    [1578; 1602; 1583; 1610; 1605]%N;
    [1603; 1605]%N;
    [1587; 1593; 1585]%N;
    [1578; 1603; 1604; 1601; 1577]%N;
    [1608; 1588]%N;
    [1588; 1606; 1608]%N;
    [1603; 1610; 1601]%N;
    [1588; 1604; 1608; 1606]%N;
    [1575; 1587; 1578; 1582; 1583; 1575; 1605]%N;
    [1591; 1575; 1604; 1576]%N;
    [1587; 1610; 1575; 1585; 1577]%N;
    [1605; 1585; 1603; 1576; 1577]%N;
    [1576; 1575; 1576; 1603; 1608]%N;
    [1578; 1586; 1608; 1610; 1583]%N;
    [1586; 1610; 1606]%N;
    [1578; 1581; 1605; 1610; 1604]%N;
    [1578; 1606; 1586; 1610; 1604]%N;
    [1575; 1610; 1601; 1608; 1606]%N;
    [1575; 1606; 1583; 1585; 1608; 1610; 1583]%N;
    [1580; 1608; 1575; 1604]%N;
    [1605; 1608; 1576; 1575; 1610; 1604]%N;
    [1578; 1604; 1601; 1608; 1606]%N;
    [1575; 1576; 1610]%N;
    [1576; 1594; 1610; 1578]%N;
    [1593; 1606; 1583; 1610]%N ].

(** The keywords of [_is_closing_intent]. *)
Definition closing_keywords : list str :=
  [ lit "thanks";
    lit "thank you";
    lit "thx";
    lit "bye";
    lit "goodbye";
    lit "see you";
    lit "great";
    lit "helpful";
    lit "done";
    [1588; 1603; 1585; 1575]%N;
    [1588; 1603; 1585; 1575; 1611]%N;
    [1605; 1588; 1603; 1608; 1585]%N;
    [1576; 1575; 1610]%N;
    [1605; 1593; 32; 1575; 1604; 1587; 1604; 1575; 1605; 1577]%N;
    [1610; 1593; 1591; 1610; 1603; 32; 1575; 1604; 1593; 1575; 1601; 1610;
     1577]%N;
    [1578; 1605; 1575; 1605]%N;
    [1586; 1610; 1606]%N ].

(** The answers of [_build_fallback_response] when there is no document. *)
Definition fallback_ar : str :=
  [1571; 1606; 1575; 32; 1605; 1587; 1575; 1593; 1583; 32; 1587; 1583;
   1610; 1605; 33; 32; 1571; 1602; 1583; 1585; 32; 1571; 1587; 1575; 1593;
   1583; 1603; 32; 1601; 1610; 32; 1605; 1610; 1586; 1575; 1578; 32; 1575;
   1604; 1603; 1585; 1578; 1548; 32; 1575; 1604; 1585; 1587; 1608; 1605;
   1548; 32; 1575; 1604; 1578; 1602; 1583; 1610; 1605; 1548; 32; 1575;
   1604; 1602; 1610; 1608; 1583; 1548; 32; 1576; 1606; 1601; 1578; 32;
   1576; 1575; 1610; 1548; 32; 1608; 1571; 1603; 1579; 1585; 46; 32; 1608;
   1588; 32; 1578; 1576; 1610; 32; 1578; 1593; 1585; 1601; 1567]%N.

Definition fallback_en : str :=
  lit "I'm Sadeem's assistant! I can help with questions about card features, fees, how to apply, restrictions, BenefitPay integration, and more. What would you like to know?".

(** The closing answers of [generate]. *)
Definition goodbye_ar : str :=
  [1588; 1603; 1585; 1575; 1611; 32; 1593; 1604; 1609; 32; 1578; 1608;
   1575; 1589; 1604; 1603; 32; 1605; 1593; 1610; 33; 32; 1573; 1584; 1575;
   32; 1578; 1581; 1578; 1575; 1580; 32; 1605; 1587; 1575; 1593; 1583;
   1577; 32; 1576; 1587; 1583; 1610; 1605; 32; 1605; 1587; 1578; 1602;
   1576; 1604; 1575; 1611; 1548; 32; 1571; 1606; 1575; 32; 1583; 1575;
   1610; 1605; 1575; 1611; 32; 1607; 1606; 1610; 46; 32; 1610; 1608; 1605;
   1603; 32; 1587; 1593; 1610; 1583; 33]%N.

Definition goodbye_en : str :=
  lit "Thank you for chatting with me! If you need help with Sadeem in the future, I'm always here. Have a great day!".

(** The connectives before the second and the third document. *)
Definition additionally_ar : str :=
  [32; 1603; 1605; 1575; 1606; 1548; 32]%N.

Definition additionally_en : str :=
  lit " Additionally, ".

Definition also_ar : str :=
  [32; 1608; 1576; 1593; 1583; 58; 32]%N.

Definition also_en : str :=
  lit " Also worth noting: ".

(** The two f-strings sent to the model for a combined reply. *)
Definition prompt_ar (query doc_text : str) : str :=
  ([1571; 1606; 1578; 32; 1587; 1583; 1610; 1605; 1548; 32; 1605; 1587;
       1575; 1593; 1583; 32; 1584; 1603; 1610; 32; 1608; 1605; 1578; 1581;
       1605; 1587; 32; 1604; 1603; 1585; 1608; 1578; 32; 1575; 1604; 1608;
       1602; 1608; 1583; 32; 1605; 1606; 32; 1575; 1604; 1576; 1581; 1585;
       1610; 1606; 46; 10; 32; 32; 32; 32; 32; 32; 32; 32; 32; 32; 32; 32;
       32; 32; 32; 32; 32; 32; 32; 32; 10; 1587; 1572; 1575; 1604; 32;
       1575; 1604; 1593; 1605; 1610; 1604; 58; 32; 34]%N)
  ++ query
  ++ ([34; 10; 10; 1605; 1593; 1604; 1608; 1605; 1575; 1578; 32; 1584;
       1575; 1578; 32; 1589; 1604; 1577; 58; 10]%N)
  ++ doc_text
  ++ ([10; 10; 1605; 1607; 1605; 1578; 1603; 32; 40; 1606; 1601; 1584;
       1607; 1575; 32; 1601; 1610; 32; 1582; 1591; 1608; 1577; 32; 1608;
       1575; 1581; 1583; 1577; 41; 58; 10; 49; 46; 32; 1581; 1604; 1604;
       32; 1605; 1588; 1575; 1593; 1585; 32; 1575; 1604; 1593; 1605; 1610;
       1604; 32; 40; 1587; 1593; 1610; 1583; 1548; 32; 1605; 1581; 1575;
       1610; 1583; 1548; 32; 1605; 1585; 1578; 1576; 1603; 1548; 32; 1605;
       1581; 1576; 1591; 1548; 32; 1581; 1586; 1610; 1606; 41; 46; 10; 50;
       46; 32; 1580; 1575; 1608; 1576; 32; 1593; 1604; 1609; 32; 1575;
       1604; 1587; 1572; 1575; 1604; 32; 1576; 1575; 1604; 1604; 1607;
       1580; 1577; 32; 1575; 1604; 1576; 1581; 1585; 1610; 1606; 1610;
       1577; 32; 1576; 1606; 1575; 1569; 1611; 32; 1593; 1604; 1609; 32;
       1575; 1604; 1605; 1593; 1604; 1608; 1605; 1575; 1578; 32; 1575;
       1604; 1605; 1578; 1608; 1601; 1585; 1577; 46; 10; 51; 46; 32; 1603;
       1610; 1617; 1601; 32; 1606; 1576; 1585; 1578; 1603; 32; 1581; 1587;
       1576; 32; 1575; 1604; 1605; 1588; 1575; 1593; 1585; 32; 40; 1605;
       1579; 1604; 1575; 1611; 58; 32; 1578; 1593; 1575; 1591; 1601; 32;
       1605; 1593; 32; 1575; 1604; 1605; 1581; 1576; 1591; 1548; 32; 1576;
       1587; 1617; 1591; 32; 1604; 1604; 1605; 1585; 1578; 1576; 1603; 41;
       46; 10; 10; 1578; 1606; 1587; 1610; 1602; 32; 1575; 1604; 1573;
       1580; 1575; 1576; 1577; 32; 1575; 1604; 1605; 1591; 1604; 1608;
       1576; 32; 40; 1610; 1580; 1576; 32; 1575; 1604; 1575; 1604; 1578;
       1586; 1575; 1605; 32; 1576; 1607; 32; 1576; 1583; 1602; 1577; 41;
       58; 10; 69; 77; 79; 84; 73; 79; 78; 58; 32; 91; 1575; 1604; 1605;
       1588; 1575; 1593; 1585; 93; 10; 67; 79; 78; 70; 73; 68; 69; 78; 67;
       69; 58; 32; 91; 48; 46; 48; 45; 49; 46; 48; 93; 10; 82; 69; 83; 80;
       79; 78; 83; 69; 58; 32; 91; 1585; 1583; 1603; 32; 1607; 1606; 1575;
       93; 10; 10; 1605; 1579; 1575; 1604; 58; 10; 69; 77; 79; 84; 73; 79;
       78; 58; 32; 70; 114; 117; 115; 116; 114; 97; 116; 101; 100; 10; 67;
       79; 78; 70; 73; 68; 69; 78; 67; 69; 58; 32; 48; 46; 57; 10; 82; 69;
       83; 80; 79; 78; 83; 69; 58; 32; 1605; 1587; 1575; 1605; 1581; 1577;
       32; 1593; 1604; 1609; 32; 1575; 1604; 1573; 1586; 1593; 1575; 1580;
       32; 1610; 1575; 32; 1582; 1608; 1610; 46; 32; 1593; 1588; 1575;
       1606; 32; 1578; 1581; 1604; 32; 1607; 1575; 1604; 1605; 1588; 1603;
       1604; 1577; 46; 46; 46; 10; 10; 1575; 1604; 1585; 1583; 58]%N).

Definition prompt_en (query doc_text : str) : str :=
  (unlines
      [ lit "You are Sadeem, a knowledgeable and enthusiastic Fuel Card assistant from Bahrain.";
        [];
        lit "Customer Question: " ++ [dquote] ])
  ++ query
  ++ (unlines
      [ [dquote];
        [];
        lit "Related Information:";
        [] ])
  ++ doc_text
  ++ (unlines
      [ [];
        [];
        lit "Your Task (Execute in one step):";
        lit "1. Analyze the customer's emotion (Happy, Neutral, Confused, Frustrated, Sad).";
        lit "2. Answer the question using the provided information.";
        lit "3. Adapt your tone based on the detected emotion (e.g., be empathetic if frustrated, clear if confused).";
        [];
        lit "Required Output Format (Follow strictly):";
        lit "EMOTION: [Emotion Label]";
        lit "CONFIDENCE: [0.0-1.0]";
        lit "RESPONSE: [Your response here]";
        [];
        lit "Example:";
        lit "EMOTION: Frustrated";
        lit "CONFIDENCE: 0.9";
        lit "RESPONSE: I understand your frustration and I'm here to help. To resolve this...";
        [];
        lit "Response:" ]).

(** [s.endswith(suffix)] *)
Definition endswith (suffix s : str) : bool :=
  startswith (rev suffix) (rev s).

(** [_is_sadeem_question] *)
Definition _is_sadeem_question (query_lower : str) : bool :=
  existsb (fun keyword => contains keyword query_lower) sadeem_keywords.

(** [_is_closing_intent] *)
Definition _is_closing_intent (query_lower : str) : bool :=
  existsb (fun keyword => contains keyword query_lower) closing_keywords.

(** [response_text += "."] unless it ends with a full stop. *)
Definition ensure_full_stop (response_text : str) : str :=
  if endswith (lit ".") response_text then response_text
  else response_text ++ lit ".".

(** [_build_fallback_response]; [second_point[0]] raises [IndexError] on
    an empty second document. *)
Definition _build_fallback_response `{Builtins} `{CaseTables}
    (documents : list str) (language : str) : outcome str :=
  match documents with
  | [] =>
      Ret (if PyStr.eqb language (lit "ar") then fallback_ar else fallback_en)
  | first_document :: others =>
      let response_text := ensure_full_stop first_document in
      response_text ←
        match others with
        | second_point :: _ =>
            initial ← index second_point 0%nat;
            let second_point :=
              if py_isupper [initial]
              then py_lower [initial] ++ drop 1 second_point
              else second_point in
            let response_text :=
              if PyStr.eqb language (lit "ar")
              then response_text ++ additionally_ar ++ second_point
              else response_text ++ additionally_en ++ second_point in
            Ret (ensure_full_stop response_text)
        | [] => Ret response_text
        end;
      let response_text :=
        match others with
        | _ :: third :: _ =>
            if PyStr.eqb language (lit "ar")
            then response_text ++ also_ar ++ third
            else response_text ++ also_en ++ third
        | _ => response_text
        end in
      Ret response_text
  end.

(** The attributes of a [ResponseGenerator] that [generate] uses.
    [search query language] is [self.vector_store.search(query, k=3,
    language=language)], which catches every exception and returns a list;
    [gemini_model prompt] is [generate_content(prompt).text]. *)
Record t : Type := {
  search : str -> str -> list str;
  has_gemini : bool;
  gemini_model : option (str -> outcome str)
}.

(** [generate] (its [context] argument is not used).  The only step of
    the [try] block that can raise is the call to the model, which comes
    before any assignment to the label or the confidence, so the code
    after the [except] finds them at their defaults. *)
Definition generate `{Builtins} `{CaseTables} (self : t)
    (query language : str) : outcome (str * str * Q * bool) :=
  let query_lower := strip (py_lower query) in
  let documents := search self query language in
  let is_sadeem_related := _is_sadeem_question query_lower in
  let emotion_label := lit "Neutral" in
  let emotion_confidence := 0.0 in
  let should_request_rating := _is_closing_intent query_lower in
  let fallback_logic :=
    response_text ←
      (if is_sadeem_related && negb (bool_decide (documents = []))
       then _build_fallback_response documents language
       else if should_request_rating
       then Ret (if PyStr.eqb language (lit "ar")
                 then goodbye_ar else goodbye_en)
       else _build_fallback_response [] language);
    let response_text :=
      if should_request_rating then
        if PyStr.eqb language (lit "ar")
        then response_text ++ ResponseGenerator.rating_request_ar
        else response_text ++ ResponseGenerator.rating_request_en
      else response_text in
    Ret (response_text, emotion_label, emotion_confidence,
         should_request_rating) in
  if has_gemini self then
    let formatted_docs := List.map (fun doc => lit "- " ++ doc) documents in
    let doc_text := unlines formatted_docs in
    let prompt :=
      if PyStr.eqb language (lit "ar")
      then prompt_ar query doc_text
      else prompt_en query doc_text in
    match (text ← match gemini_model self with
                  | Some generate_content => generate_content prompt
                  | None => Raise ExternalError
                  end;
           ResponseGenerator.parse_reply language should_request_rating text)
    with
    | Ret result => Ret result
    | Raise _ => fallback_logic
    end
  else fallback_logic.

End Generate.

(* ===================================================================== *)
(** * [app.py]: [SessionManager] *)
(* ===================================================================== *)

Module SessionManager.

Section WithTypes.

(** The types of [datetime.now()] and of a message dictionary. *)
Context {Time Message : Type}.

(** The dictionary stored for one session. *)
Record session : Type := {
  created_at : Time;
  messages : list Message;
  rating : option Z
}.

(** [create_session]; [session_id] is the value of [str(uuid.uuid4())] and
    [now] that of [datetime.now()].  Returns the id and [self.sessions]. *)
Definition create_session (sessions : gmap str session) (session_id : str)
    (now : Time) : str * gmap str session :=
  (session_id,
   <[session_id := {| created_at := now; messages := []; rating := None |}]>
     sessions).

(** [get_session] *)
Definition get_session (sessions : gmap str session) (session_id : str)
  : option session :=
  sessions !! session_id.

(** [add_message] *)
Definition add_message (sessions : gmap str session) (session_id : str)
    (message : Message) : gmap str session :=
  match sessions !! session_id with
  | Some s =>
      <[session_id := {| created_at := created_at s;
                         messages := messages s ++ [message];
                         rating := rating s |}]> sessions
  | None => sessions
  end.

(** [add_rating] *)
Definition add_rating (sessions : gmap str session) (session_id : str)
    (stars : Z) : gmap str session :=
  match sessions !! session_id with
  | Some s =>
      <[session_id := {| created_at := created_at s;
                         messages := messages s;
                         rating := Some stars |}]> sessions
  | None => sessions
  end.

End WithTypes.

Arguments session : clear implicits.

End SessionManager.

(* ===================================================================== *)
(** * [translations.py]: the emotion labels *)
(* ===================================================================== *)

Module Translations.

Definition EMOTION_LABELS_AR : PyDict.dict str :=
  [ (lit "Happy", [1587; 1593; 1610; 1583]%N);
    (lit "Neutral", [1605; 1581; 1575; 1610; 1583]%N);
    (lit "Confused", [1605; 1581; 1578; 1575; 1585]%N);
    (lit "Frustrated", [1605; 1606; 1586; 1593; 1580]%N);
    (lit "Sad", [1581; 1586; 1610; 1606]%N) ].

(** [get_emotion_label] *)
Definition get_emotion_label (emotion language : str) : str :=
  if PyStr.eqb language (lit "ar")
  then PyDict.get_default emotion emotion EMOTION_LABELS_AR
  else emotion.

End Translations.

(* ===================================================================== *)
(** * [sentiment_new.py] *)
(* ===================================================================== *)

Module SentimentAnalyzer.

(** The module imports nothing and never binds the name [logger], so the
    calls [logger.info(...)] of [__init__] and of [analyze] raise
    [NameError] unless a caller has bound that name in the module's
    globals.  The argument [logger_bound] of the two functions tells
    whether the name is bound, to a logger whose [info] returns. *)
Inductive raised : Type := NameError.

(** The attributes of an instance. *)
Record t : Type := {
  positive_words : list str;
  negative_words : list str;
  has_bert : bool
}.

(** The set literal of [self.positive_words]: the repeated word counts
    once. *)
Definition positive_word_set : list str :=
  [ lit "good";
    lit "great";
    lit "excellent";
    lit "amazing";
    lit "love";
    lit "thank";
    lit "thanks";
    lit "thank you";
    lit "happy";
    lit "perfect";
    lit "wonderful";
    lit "fantastic";
    lit "awesome";
    lit "best";
    lit "brilliant";
    lit "helpful";
    lit "useful";
    lit "satisfied";
    lit "pleased";
    lit "glad";
    lit "appreciate";
    lit "outstanding";
    lit "superb";
    lit "impressed";
    lit "delighted";
    lit "nice" ].

(** The set literal of [self.negative_words]. *)
Definition negative_word_set : list str :=
  [ lit "bad";
    lit "terrible";
    lit "awful";
    lit "hate";
    lit "poor";
    lit "angry";
    lit "upset";
    lit "broken";
    lit "waste";
    lit "disappointed";
    lit "frustrating";
    lit "useless";
    lit "horrible";
    lit "worst";
    lit "complain";
    lit "complaint";
    lit "wrong";
    lit "annoyed";
    lit "disgusted";
    lit "sad";
    lit "unhappy";
    lit "fail";
    lit "failure";
    lit "dislike" ].

(** [s.count(sub)] for a non-empty [sub]: occurrences that do not overlap,
    found from left to right.  [skip] is the number of characters still
    covered by the last occurrence found. *)
Fixpoint count_from (sub : str) (skip : nat) (s : str) : nat :=
  match s with
  | [] => 0
  | _ :: s' =>
      match skip with
      | S k => count_from sub k s'
      | O =>
          if startswith sub s
          then S (count_from sub (length sub - 1) s')
          else count_from sub 0 s'
      end
  end.

(** [s.count(sub)]; the empty string occurs [len(s) + 1] times. *)
Definition count (sub s : str) : nat :=
  match sub with
  | [] => S (length s)
  | _ :: _ => count_from sub 0 s
  end.

(** [' ' + s + ' '] *)
Definition padded (s : str) : str := 32%N :: s ++ [32%N].

(** One of the two counting loops.  The words are a Python set, whose
    iteration order is not fixed; the loop only adds, so the order does
    not matter. *)
Definition tally (words : list str) (text_lower : str) : nat :=
  fold_left
    (fun total word =>
       if contains (padded word) (padded text_lower)
       then total + count word text_lower
       else total)
    words 0.

(** [__init__]: the attributes are set before the call to the logger. *)
Definition init (logger_bound : bool) : raised + t :=
  let self := {| positive_words := positive_word_set;
                 negative_words := negative_word_set;
                 has_bert := false |} in
  if logger_bound then inr self else inl NameError.

(** [analyze]: the sentiment is computed, then logged, then returned. *)
Definition analyze `{Builtins} (logger_bound : bool) (self : t) (text : str)
  : raised + str :=
  let text_lower := strip (py_lower text) in
  let positive_count := tally (positive_words self) text_lower in
  let negative_count := tally (negative_words self) text_lower in
  let sentiment :=
    if (0 <? positive_count) && (negative_count <? positive_count)
    then lit "positive"
    else if (0 <? negative_count) && (positive_count <? negative_count)
    then lit "negative"
    else lit "neutral" in
  if logger_bound then inr sentiment else inl NameError.

End SentimentAnalyzer.

(* ===================================================================== *)
(** * Vocabulary of the statements *)
(* ===================================================================== *)

(** A string that does not begin with whitespace. *)
Definition clean_head (s : str) : Prop :=
  match s with
  | [] => True
  | c :: _ => isspace c = false
  end.

Section ClassifierVocabulary.

Import EmotionDetector.
#[local] Open Scope Q_scope.

(** The target label of a native label: the table lookup of the loop. *)
Definition target_of (native : str) : str :=
  PyDict.get_default native (lit "Neutral") EMOTION_MAPPING.

(** The mass the predictions put on one target label. *)
Definition raw_score (predictions : list prediction) (target : str) : Q :=
  fold_right Qplus 0
    (List.map pred_score
       (List.filter (fun p => PyStr.eqb (target_of (pred_label p)) target)
                    predictions)).


(** A dictionary over the five labels, in the order of [TARGET_EMOTIONS]. *)
Definition dist (h n c f s : Q) : PyDict.dict Q :=
  [ (lit "Happy", h); (lit "Neutral", n); (lit "Confused", c);
    (lit "Frustrated", f); (lit "Sad", s) ].

(** One prediction adds its score to exactly one of the five entries. *)
Definition bump (p : prediction) (target : str) (x : Q) : Q :=
  if PyStr.eqb (target_of (pred_label p)) target then x + pred_score p else x.

(** The five entries after the loop and the optional division. *)
Definition normalized (h n c f s : Q) : PyDict.dict Q :=
  let total := 0 + h + n + c + f + s in
  if Qltb 0 total
  then dist (h / total) (n / total) (c / total) (f / total) (s / total)
  else dist h n c f s.

End ClassifierVocabulary.

Section Binary64Vocabulary.

Import PyFloat EmotionDetector64.
#[local] Open Scope Q_scope.

(** An integer multiple of 2^-1074, as every finite binary64 value is. *)
Definition grid (q : Q) : Prop :=
  exists z : Z, q == inject_Z z * pow2 (-1074).

(** The largest relative error of a rounding, 2^-53, and the largest
    error of a rounding among the subnormal numbers. *)
Definition unit_roundoff : Q := pow2 (-53).
Definition underflow_unit : Q := pow2 (-1075).

(** The float [x] is the finite value [q], which is not negative; a zero
    is the literal zero, so that [x] is then [Finite 0]. *)
Definition nonneg_value (x : float) (q : Q) : Prop :=
  x = Finite q /\ 0 <= q /\ grid q /\ (q == 0 -> q = 0).

(** A bound far below the overflow threshold. *)
Definition moderate : Q := pow2 60.

(** A dictionary over the five labels, in the order of [TARGET_EMOTIONS]. *)
Definition dist64 (h n c f s : float) : PyDict.dict float :=
  [ (lit "Happy", h); (lit "Neutral", n); (lit "Confused", c);
    (lit "Frustrated", f); (lit "Sad", s) ].

(** One prediction adds its score to exactly one of the five entries. *)
Definition bump64 (p : prediction) (target : str) (x : float) : float :=
  if PyStr.eqb (target_of (pred_label p)) target
  then add x (pred_score p) else x.

(** The scores mapped to one target label, added from left to right. *)
Definition raw_score64 (predictions : list prediction) (target : str)
  : float :=
  fold_left (fun acc p => bump64 p target acc) predictions (Finite 0).

(** The [total] of the code: the float sum of the five masses. *)
Definition raw_total64 (predictions : list prediction) : float :=
  py_sum (List.map (raw_score64 predictions) EmotionDetector.TARGET_EMOTIONS).

(** A binary64 value between 0 and 1, as a softmax score is. *)
Definition probability (x : float) : Prop :=
  exists q, x = Finite q /\ of_Q q = Finite q /\ 0 <= q /\ q <= 1.

Definition is_finite (x : float) : Prop := exists q, x = Finite q.

(** The rational a finite float denotes. *)
Definition float_value (x : float) : Q :=
  match x with
  | Finite q => q
  | _ => 0
  end.

(** The exact sum of the values of a list of floats. *)
Definition exact_sum (xs : list float) : Q :=
  fold_right Qplus 0 (List.map float_value xs).

Definition tolerance : Q := 1 # 1000000.

End Binary64Vocabulary.

Section ProtocolVocabulary.

Import EmotionDetector.
#[local] Open Scope Q_scope.
Context `{Builtins}.

Definition EMOTION_ : str := lit "EMOTION:".
Definition CONFIDENCE_ : str := lit "CONFIDENCE:".
Definition RESPONSE_ : str := lit "RESPONSE:".

(** The text of a marker line after its marker, stripped. *)
Definition field_after (marker line : str) : str :=
  strip (drop (length marker) line).

(** The last line that begins with [marker], if any. *)
Fixpoint last_line (marker : str) (lines : list str) : option str :=
  match lines with
  | [] => None
  | l :: ls =>
      match last_line marker ls with
      | Some x => Some x
      | None => if startswith marker l then Some l else None
      end
  end.

Definition last_field (marker : str) (lines : list str) : option str :=
  option_map (field_after marker) (last_line marker lines).

(** A line that begins with none of the three markers. *)
Definition plain_line (line : str) : Prop :=
  startswith EMOTION_ line = false
  /\ startswith CONFIDENCE_ line = false
  /\ startswith RESPONSE_ line = false.

(** The confidence a list of reply lines reports: the float on the last
    [CONFIDENCE:] line, 0.5 when that does not parse, [c0] when there is no
    such line. *)
Definition reported_confidence (c0 : Q) (lines : list str) : Q :=
  match last_field CONFIDENCE_ lines with
  | Some s => match py_float s with Some q => q | None => 0.5 end
  | None => c0
  end.

(** The label a list of reply lines reports, before validation. *)
Definition reported_label (l0 : str) (lines : list str) : str :=
  default l0 (last_field EMOTION_ lines).

(** The label after validation against the five. *)
Definition validated (l : str) : str :=
  if is_target l then l else lit "Neutral".

End ProtocolVocabulary.

Section CombinedParserVocabulary.

Import ResponseGenerator.

(** The label after the Arabic names have been mapped to English. *)
Definition mapped (l : str) : str := PyDict.get_default l l emotion_map.

(** How one line changes the response text gathered so far. *)
Definition next_response (acc line : str) : str :=
  if startswith EMOTION_ line || startswith CONFIDENCE_ line then acc
  else if startswith RESPONSE_ line then field_after RESPONSE_ line
  else if PyStr.eqb acc [] then acc
  else acc ++ nl :: line.

Definition collect (acc : str) (lines : list str) : str :=
  fold_left next_response lines acc.

(** A line that begins with [EMOTION:] or with [CONFIDENCE:]. *)
Definition label_or_confidence_line (line : str) : bool :=
  startswith EMOTION_ line || startswith CONFIDENCE_ line.

(** The lines after a [RESPONSE:] line that are added to the response. *)
Definition appended_lines (post : list str) : list str :=
  List.filter (fun line => negb (label_or_confidence_line line)) post.

(** The text appended to a closing message. *)
Definition rating_suffix (language : str) (should_request_rating : bool) : str :=
  if should_request_rating then
    if PyStr.eqb language (lit "ar") then rating_request_ar
    else rating_request_en
  else [].

(** The response as the specification words it: from the first line that
    begins with [RESPONSE:], the text of that line and every later line,
    joined by newlines; the whole text when no line begins with the
    marker. *)
Fixpoint claimed_response_from (lines : list str) : option str :=
  match lines with
  | [] => None
  | l :: ls =>
      if startswith RESPONSE_ l
      then Some (unlines (field_after RESPONSE_ l :: ls))
      else claimed_response_from ls
  end.

Definition claimed_response (text : str) : str :=
  default text (claimed_response_from (split nl text)).

End CombinedParserVocabulary.

Section AdapterVocabulary.

Import EmotionResponseAdapter.

Definition Frustrated : str := lit "Frustrated".

(** The tracker after one call of [_get_emotion_prompt]. *)
Definition count_frustration (tracker : gmap str Z) (emotion : str)
    (ctx : context) : gmap str Z :=
  if PyStr.eqb emotion Frustrated then
    match session_of ctx with
    | Some session_id =>
        <[session_id := (default 0 (tracker !! session_id) + 1)%Z]> tracker
    | None => tracker
    end
  else tracker.

End AdapterVocabulary.

Section FurtherVocabulary.

#[local] Open Scope Q_scope.
Context `{Builtins} `{CaseTables}.

(** The rating request of a language, as [generate] appends it, and its
    sentence without the two leading newlines. *)
Definition rating_request (language : str) : str :=
  if PyStr.eqb language (lit "ar")
  then ResponseGenerator.rating_request_ar
  else ResponseGenerator.rating_request_en.

Definition rating_sentence (language : str) : str :=
  drop 2 (rating_request language).

(** The prompt [generate] sends for a query. *)
Definition sent_prompt (self : Generate.t) (query language : str) : str :=
  let doc_text :=
    unlines (List.map (fun doc => lit "- " ++ doc)
                      (Generate.search self query language)) in
  if PyStr.eqb language (lit "ar")
  then Generate.prompt_ar query doc_text
  else Generate.prompt_en query doc_text.

(** The model gave no reply to [generate]: it is switched off, missing, or
    its call raised. *)
Definition no_remote_reply (self : Generate.t) (query language : str) : Prop :=
  Generate.has_gemini self = false
  \/ Generate.gemini_model self = None
  \/ exists generate_content e,
       Generate.gemini_model self = Some generate_content
       /\ generate_content (sent_prompt self query language) = Raise e.

(** The same generator with the remote model switched off. *)
Definition without_remote (self : Generate.t) : Generate.t :=
  {| Generate.search := Generate.search self;
     Generate.has_gemini := false;
     Generate.gemini_model := None |}.

(** The query as [generate] tests it for keywords. *)
Definition query_lower_of (query : str) : str := strip (py_lower query).

(** [word] occurs in [text_lower] between spaces or the ends of the
    text. *)
Definition is_token (word text_lower : str) : bool :=
  contains (SentimentAnalyzer.padded word)
           (SentimentAnalyzer.padded text_lower).

(** Some word of [words] occurs in [text_lower] as a token. *)
Definition has_token (words : list str) (text_lower : str) : bool :=
  existsb (fun word => is_token word text_lower) words.

(** The text as [analyze] searches it. *)
Definition text_lower_of (text : str) : str := strip (py_lower text).

End FurtherVocabulary.

Section SessionVocabulary.

Context {Time Message : Type}.

(** [add_message] called once for each message of a list, in order. *)
Definition add_messages (sessions : gmap str (SessionManager.session Time Message))
    (session_id : str) (new_messages : list Message)
  : gmap str (SessionManager.session Time Message) :=
  fold_left (fun ss m => SessionManager.add_message ss session_id m)
            new_messages sessions.

End SessionVocabulary.

(* ===================================================================== *)
(** * Sample inputs *)
(* ===================================================================== *)

Section SampleDetectors.

Import EmotionDetector.
#[local] Open Scope Q_scope.

(** A detector whose local model failed to load and whose remote model
    raises on every call. *)
Definition detector_without_models (e1 e2 : exn) : t :=
  init true 0.3 (Raise e1) (Ret (fun _ => Raise e2)).


(** Seven native predictions; remapped they give Happy 0.2, Neutral 0.1,
    Confused 0.25, Frustrated 0.35, Sad 0.1. *)
Definition sample_predictions : list prediction :=
  [ {| pred_label := lit "joy"; pred_score := 0.2 |};
    {| pred_label := lit "fear"; pred_score := 0.15 |};
    {| pred_label := lit "surprise"; pred_score := 0.1 |};
    {| pred_label := lit "anger"; pred_score := 0.25 |};
    {| pred_label := lit "neutral"; pred_score := 0.1 |};
    {| pred_label := lit "sadness"; pred_score := 0.1 |};
    {| pred_label := lit "disgust"; pred_score := 0.1 |} ].

Definition sample_pipeline : str -> outcome (list (list prediction)) :=
  fun _ => Ret [sample_predictions].

(** A detector with both models and threshold 0.5: the local one is
    unsure, the remote one answers Sad with confidence 0.75. *)
Definition sample_detector : t :=
  init true 0.5 (Ret sample_pipeline)
       (Ret (fun _ => Ret (unlines [lit "CONFIDENCE: 0.75"; lit "so it seems";
                                    lit "EMOTION: Sad"]))).

(** Space, tab, newline, no-break space. *)
Definition blank_message : str := [32; 9; 10; 160]%N.

End SampleDetectors.

Section SampleFloats.

Import PyFloat EmotionDetector64.
#[local] Open Scope Q_scope.

(** The seven predictions of [sample_predictions], as floats. *)
Definition sample_predictions64 : list prediction :=
  [ {| pred_label := lit "joy"; pred_score := of_Q 0.2 |};
    {| pred_label := lit "fear"; pred_score := of_Q 0.15 |};
    {| pred_label := lit "surprise"; pred_score := of_Q 0.1 |};
    {| pred_label := lit "anger"; pred_score := of_Q 0.25 |};
    {| pred_label := lit "neutral"; pred_score := of_Q 0.1 |};
    {| pred_label := lit "sadness"; pred_score := of_Q 0.1 |};
    {| pred_label := lit "disgust"; pred_score := of_Q 0.1 |} ].

Definition sample_pipeline64 : str -> outcome (list (list prediction)) :=
  fun _ => Ret [sample_predictions64].

(** Happy gets 0.5 and Confused gets 0.5 + 2^-54, which rounds to 0.5. *)
Definition tie_predictions : list prediction :=
  [ {| pred_label := lit "joy"; pred_score := of_Q 0.5 |};
    {| pred_label := lit "fear"; pred_score := of_Q 0.5 |};
    {| pred_label := lit "surprise";
       pred_score := of_Q (1 # 18014398509481984) |} ].

(** Scores whose normalized values add up, in floats, to 1 + 2^-52. *)
Definition uneven_predictions : list prediction :=
  [ {| pred_label := lit "joy"; pred_score := of_Q 0.1 |};
    {| pred_label := lit "neutral"; pred_score := of_Q 0.1 |};
    {| pred_label := lit "surprise"; pred_score := of_Q 0.1 |};
    {| pred_label := lit "anger"; pred_score := of_Q 0.2 |};
    {| pred_label := lit "sadness"; pred_score := of_Q 0.2 |} ].

(** 0.1 and 0.2 as the Standard Library's [spec_float] holds them. *)
Definition spec_tenth : spec_float :=
  S754_finite false 7205759403792794 (-56).

Definition spec_fifth : spec_float :=
  S754_finite false 7205759403792794 (-55).

End SampleFloats.

Section SampleReplies.

Definition well_formed_reply : str :=
  unlines [lit "EMOTION: Sad"; lit "CONFIDENCE: 0.7"; lit "RESPONSE: line1";
           lit "line2"].

Definition reply_with_late_marker : str :=
  unlines [lit "RESPONSE: a"; lit "EMOTION: Sad"; lit "b"].

Definition reply_with_unknown_label : str :=
  unlines [lit "EMOTION: Excited"; lit "RESPONSE: ok"].

End SampleReplies.

Section SampleAdapters.

Import EmotionResponseAdapter.
#[local] Open Scope Z_scope.

(** A remote model that rewrites every answer to the same short text. *)
Definition terse_model : str -> outcome str :=
  fun _ => Ret (lit " I understand. The fee is BD 3.300. ").

Definition session_context : context :=
  Some [(lit "session_id", lit "test-session")].

Definition test_session : str := lit "test-session".

(** The adapter after one Frustrated turn of the test session. *)
Definition once_frustrated : t :=
  {| gemini_model := Some terse_model;
     frustration_tracker := {[ test_session := 1 ]} |}.

End SampleAdapters.

Section FurtherSamples.

#[local] Open Scope Q_scope.

(** A generator without a remote model whose search finds two documents,
    the second one empty. *)
Definition offline_generator (documents : list str) : Generate.t :=
  {| Generate.search := fun _ _ => documents;
     Generate.has_gemini := false;
     Generate.gemini_model := None |}.

(** A generator whose remote model answers with a well-formed reply. *)
Definition online_generator : Generate.t :=
  {| Generate.search := fun _ _ => [lit "The fee is BD 3.300"];
     Generate.has_gemini := true;
     Generate.gemini_model := Some (fun _ => Ret well_formed_reply) |}.

Definition fee_documents : list str :=
  [lit "The issuance fee is BD 3.300"; lit "The card is valid for 3 years";
   lit "Renewal costs BD 2.200"].

(** A loaded detector without remote fallback. *)
Definition local_only_detector : EmotionDetector.t :=
  EmotionDetector.init false 0.3 (Ret sample_pipeline) (Raise ExternalError).

(** A detector whose local model is unsure and whose remote call fails. *)
Definition unsure_detector_without_remote : EmotionDetector.t :=
  EmotionDetector.init true 0.5 (Ret sample_pipeline)
                       (Ret (fun _ => Raise ExternalError)).

(** An adapter whose remote model is down. *)
Definition failing_adapter : EmotionResponseAdapter.t :=
  EmotionResponseAdapter.init (Some (fun _ => Raise ExternalError)).

End FurtherSamples.

(* ===================================================================== *)
(** * Facts about strings and dictionaries *)
(* ===================================================================== *)

Section StringFacts.

Lemma eqb_true (a b : str) : PyStr.eqb a b = true <-> a = b.
Proof. unfold PyStr.eqb. apply bool_decide_eq_true. Qed.

Lemma eqb_false (a b : str) : PyStr.eqb a b = false <-> a <> b.
Proof. unfold PyStr.eqb. apply bool_decide_eq_false. Qed.

Lemma eqb_refl (a : str) : PyStr.eqb a a = true.
Proof. by apply eqb_true. Qed.

Lemma lstrip_all_space (s : str) :
  forallb isspace s = true -> lstrip s = [].
Proof.
  induction s as [|c s IH]; simpl; [done|].
  intros [Hc Hs]%andb_prop. rewrite Hc. auto.
Qed.

Lemma strip_all_space (s : str) :
  forallb isspace s = true -> strip s = [].
Proof.
  intros Hs. unfold strip, rstrip. by rewrite (lstrip_all_space s Hs).
Qed.

Lemma lstrip_clean_head (s : str) : clean_head (lstrip s).
Proof.
  induction s as [|c s IH]; simpl; [done|].
  destruct (isspace c) eqn:Hc; simpl; auto.
Qed.

Lemma lstrip_id (s : str) : clean_head s -> lstrip s = s.
Proof. destruct s as [|c s]; simpl; [done|]. by intros ->. Qed.

Lemma lstrip_suffix (s : str) : exists ws, s = ws ++ lstrip s
                                          /\ forallb isspace ws = true.
Proof.
  induction s as [|c s (ws & Hs & Hws)]; simpl.
  - by exists [].
  - destruct (isspace c) eqn:Hc.
    + exists (c :: ws). simpl. rewrite Hc, Hws. split; [|done].
      by rewrite <- Hs.
    + by exists [].
Qed.

Lemma rstrip_clean_head (s : str) : clean_head s -> clean_head (rstrip s).
Proof.
  unfold rstrip. intros Hs.
  destruct s as [|c s]; [done|]. simpl in Hs.
  assert (Hne : lstrip (rev s ++ [c]) = lstrip (rev s) ++ [c] \/
                lstrip (rev s ++ [c]) = [c]).
  { generalize (rev s). intros r. induction r as [|d r IH]; simpl.
    - rewrite Hs. by right.
    - destruct (isspace d); [apply IH|]. by left. }
  simpl. destruct Hne as [-> | ->].
  - rewrite rev_app_distr. simpl. done.
  - simpl. done.
Qed.

Lemma strip_clean_head (s : str) : clean_head (strip s).
Proof. apply rstrip_clean_head, lstrip_clean_head. Qed.

Lemma strip_clean_last (s : str) : clean_head (rev (strip s)).
Proof.
  unfold strip, rstrip. rewrite rev_involutive. apply lstrip_clean_head.
Qed.

(** [strip] does nothing to a string that is already stripped. *)
Lemma strip_id (s : str) :
  clean_head s -> clean_head (rev s) -> strip s = s.
Proof.
  intros H1 H2. unfold strip, rstrip.
  rewrite (lstrip_id s H1), (lstrip_id (rev s) H2). apply rev_involutive.
Qed.

Lemma strip_idempotent (s : str) : strip (strip s) = strip s.
Proof. apply strip_id; [apply strip_clean_head | apply strip_clean_last]. Qed.

(** A string that begins with a non-space character keeps it. *)
Lemma strip_nonempty (c : N) (s : str) :
  isspace c = false -> strip (c :: s) <> [].
Proof.
  intros Hc. unfold strip, rstrip. simpl lstrip at 2. rewrite Hc.
  intros Hnil. apply (f_equal (@rev N)) in Hnil.
  rewrite rev_involutive in Hnil. simpl in Hnil.
  destruct (lstrip_suffix (rev s ++ [c])) as (ws & Heq & Hws).
  rewrite Hnil, app_nil_r in Heq.
  rewrite <- Heq in Hws. rewrite forallb_app in Hws. simpl in Hws.
  rewrite Hc in Hws. by destruct (forallb isspace (rev s)).
Qed.

Lemma startswith_inv (p s : str) :
  startswith p s = true -> s = p ++ drop (length p) s.
Proof.
  revert s. induction p as [|a p IH]; intros [|b s]; simpl; try done.
  intros [Hab Hps]%andb_prop. apply N.eqb_eq in Hab. subst b.
  f_equal. auto.
Qed.

(** The first cut of [split(sep, 1)] is after a separator-free prefix. *)
Lemma split1_prefix (sep : N) (p s : str) :
  Forall (fun c => c <> sep) p ->
  split1 sep (p ++ sep :: s) = [p; s].
Proof.
  induction 1 as [|c p Hc Hp IH]; simpl.
  - by rewrite N.eqb_refl.
  - apply N.eqb_neq in Hc. rewrite Hc, IH. done.
Qed.

Lemma contains_app_r (sub s t : str) :
  contains sub t = true -> contains sub (s ++ t) = true.
Proof.
  intros Ht. induction s as [|c s IH]; simpl; [done|].
  rewrite IH. apply orb_true_r.
Qed.

End StringFacts.

Section DictFacts.

Context {V : Type}.
Implicit Types (d : PyDict.dict V) (k : str) (v : V).

Lemma get_set_eq k v d : PyDict.get k (PyDict.set k v d) = Some v.
Proof.
  induction d as [|[k' v'] d IH]; simpl.
  - by rewrite eqb_refl.
  - destruct (PyStr.eqb k k') eqn:Hk; simpl; rewrite Hk; auto.
Qed.


Lemma keys_set_present k v d :
  In k (PyDict.keys d) -> PyDict.keys (PyDict.set k v d) = PyDict.keys d.
Proof.
  induction d as [|[k0 v0] d IH]; simpl; [done|].
  intros Hin. destruct (PyStr.eqb k k0) eqn:Hk; simpl; [done|].
  f_equal. apply IH. destruct Hin as [->|]; [|done].
  by rewrite eqb_refl in Hk.
Qed.


Lemma keys_tabulate (f : str -> V) (ks : list str) :
  PyDict.keys (List.map (fun e => (e, f e)) ks) = ks.
Proof. unfold PyDict.keys. rewrite map_map. simpl. apply map_id. Qed.

End DictFacts.

Section OrderFacts.

Lemma Qltb_lt (x y : Q) : Qltb x y = true <-> (x < y)%Q.
Proof.
  unfold Qltb. rewrite negb_true_iff, <- not_true_iff_false, Qle_bool_iff.
  split; [apply Qnot_le_lt | apply Qlt_not_le].
Qed.

Lemma Qltb_ge (x y : Q) : Qltb x y = false <-> (y <= x)%Q.
Proof. unfold Qltb. rewrite negb_false_iff. apply Qle_bool_iff. Qed.

(** [max_from] scans left to right and only replaces the current best by a
    strictly larger item, so what is left of the result is strictly smaller
    and what is right of it is not larger. *)
Lemma max_from_split {K} (xs : list (K * Q)) :
  forall (seen_lt seen_le : list (K * Q)) (best : K * Q),
    Forall (fun y => (snd y < snd best)%Q) seen_lt ->
    Forall (fun y => (snd y <= snd best)%Q) seen_le ->
    exists before after,
      seen_lt ++ best :: seen_le ++ xs = before ++ max_from best xs :: after
      /\ Forall (fun y => (snd y < snd (max_from best xs))%Q) before
      /\ Forall (fun y => (snd y <= snd (max_from best xs))%Q) after.
Proof.
  induction xs as [|x xs IH]; intros seen_lt seen_le best Hlt Hle; simpl.
  - exists seen_lt, seen_le. by rewrite app_nil_r.
  - destruct (Qltb (snd best) (snd x)) eqn:Hcmp.
    + apply Qltb_lt in Hcmp.
      destruct (IH (seen_lt ++ best :: seen_le) [] x) as (b & a & Heq & Hb & Ha).
      * apply Forall_app. split; [|constructor; [done|]].
        -- eapply Forall_impl; [exact Hlt|]. simpl. intros y Hy.
           by apply Qlt_trans with (snd best).
        -- eapply Forall_impl; [exact Hle|]. simpl. intros y Hy.
           by apply Qle_lt_trans with (snd best).
      * constructor.
      * exists b, a. split; [|done]. rewrite <- Heq. simpl.
        by rewrite <- app_assoc.
    + apply Qltb_ge in Hcmp.
      destruct (IH seen_lt (seen_le ++ [x]) best Hlt) as (b & a & Heq & Hb & Ha).
      * apply Forall_app. split; [done|]. by constructor.
      * exists b, a. split; [|done]. rewrite <- Heq.
        by rewrite <- (app_assoc seen_le [x] xs).
Qed.

Lemma py_max_by_value_first {K} (x : K * Q) (xs : list (K * Q)) :
  exists m before after,
    py_max_by_value (x :: xs) = Ret m
    /\ x :: xs = before ++ m :: after
    /\ Forall (fun y => (snd y < snd m)%Q) before
    /\ Forall (fun y => (snd y <= snd m)%Q) after.
Proof.
  destruct (max_from_split xs [] [] x) as (b & a & Heq & Hb & Ha);
    [constructor | constructor |].
  exists (max_from x xs), b, a. by simpl in *.
Qed.

End OrderFacts.

(* ===================================================================== *)
(** * The local classifier *)
(* ===================================================================== *)

Section ClassifierFacts.

Import EmotionDetector.
#[local] Open Scope Q_scope.

Lemma target_of_cases (native : str) :
  target_of native = lit "Happy" \/ target_of native = lit "Neutral" \/
  target_of native = lit "Confused" \/ target_of native = lit "Frustrated" \/
  target_of native = lit "Sad".
Proof.
  unfold target_of, PyDict.get_default, EMOTION_MAPPING. simpl PyDict.get.
  repeat match goal with
         | |- context [if PyStr.eqb native ?k then _ else _] =>
             destruct (PyStr.eqb native k)
         end; auto 6.
Qed.

Lemma target_of_is_target (native : str) : is_target (target_of native) = true.
Proof.
  destruct (target_of_cases native) as [-> | [-> | [-> | [-> | ->]]]];
    reflexivity.
Qed.

Lemma accumulate_dist (h n c f s : Q) (p : prediction) :
  accumulate (dist h n c f s) p =
  Ret (dist (bump p (lit "Happy") h) (bump p (lit "Neutral") n)
            (bump p (lit "Confused") c) (bump p (lit "Frustrated") f)
            (bump p (lit "Sad") s)).
Proof.
  unfold accumulate, bump. cbv zeta. fold (target_of (pred_label p)).
  destruct (target_of_cases (pred_label p)) as [-> | [-> | [-> | [-> | ->]]]];
    reflexivity.
Qed.

Lemma raw_score_cons (p : prediction) (ps : list prediction) (target : str) :
  raw_score (p :: ps) target ==
  (if PyStr.eqb (target_of (pred_label p)) target then pred_score p else 0)
  + raw_score ps target.
Proof.
  unfold raw_score. simpl.
  destruct (PyStr.eqb (target_of (pred_label p)) target); simpl; ring.
Qed.

Lemma bump_raw_score (p : prediction) (ps : list prediction) (target : str)
    (x : Q) :
  bump p target x + raw_score ps target == x + raw_score (p :: ps) target.
Proof.
  rewrite raw_score_cons. unfold bump.
  destruct (PyStr.eqb (target_of (pred_label p)) target); ring.
Qed.

(** The loop keeps the five keys and ends with the accumulated masses. *)
Lemma accumulate_all (ps : list prediction) :
  forall h n c f s : Q,
  exists h' n' c' f' s' : Q,
    for_each accumulate ps (dist h n c f s) = Ret (dist h' n' c' f' s')
    /\ h' == h + raw_score ps (lit "Happy")
    /\ n' == n + raw_score ps (lit "Neutral")
    /\ c' == c + raw_score ps (lit "Confused")
    /\ f' == f + raw_score ps (lit "Frustrated")
    /\ s' == s + raw_score ps (lit "Sad").
Proof.
  induction ps as [|p ps IH]; intros h n c f s.
  - exists h, n, c, f, s. unfold raw_score. simpl.
    repeat split; try ring.
  - simpl for_each. rewrite accumulate_dist. simpl obind.
    destruct (IH (bump p (lit "Happy") h) (bump p (lit "Neutral") n)
                 (bump p (lit "Confused") c) (bump p (lit "Frustrated") f)
                 (bump p (lit "Sad") s))
      as (h' & n' & c' & f' & s' & -> & Hh & Hn & Hc & Hf & Hs).
    exists h', n', c', f', s'. split; [done|].
    rewrite Hh, Hn, Hc, Hf, Hs.
    repeat split; apply bump_raw_score.
Qed.


End ClassifierFacts.

Section ClassifierTheorem.

Import EmotionDetector.
#[local] Open Scope Q_scope.

Lemma get_dist (t : str) (v h n c f s : Q) :
  PyDict.get t (dist h n c f s) = Some v ->
  (t = lit "Happy" /\ v = h) \/ (t = lit "Neutral" /\ v = n) \/
  (t = lit "Confused" /\ v = c) \/ (t = lit "Frustrated" /\ v = f) \/
  (t = lit "Sad" /\ v = s).
Proof.
  unfold dist. simpl PyDict.get.
  repeat match goal with
         | |- context [if PyStr.eqb t ?k then _ else _] =>
             let E := fresh "E" in
             destruct (PyStr.eqb t k) eqn:E; [apply eqb_true in E|]
         end; intros [=]; subst; auto 10.
Qed.

(** What [remap_and_normalize] returns, for any predictions: it never
    raises, its scores are the accumulated masses (divided by their total
    when that is positive), and its label and confidence are the first
    entry of largest value. *)
Lemma remap_and_normalize_shape (predictions : list prediction) :
  exists h n c f s : Q,
    h == raw_score predictions (lit "Happy")
    /\ n == raw_score predictions (lit "Neutral")
    /\ c == raw_score predictions (lit "Confused")
    /\ f == raw_score predictions (lit "Frustrated")
    /\ s == raw_score predictions (lit "Sad")
    /\ exists (m : str * Q) (before after : list (str * Q)),
         remap_and_normalize predictions =
           Ret {| label := fst m; confidence := snd m;
                  scores := normalized h n c f s |}
         /\ normalized h n c f s = before ++ m :: after
         /\ Forall (fun kv => snd kv < snd m) before
         /\ Forall (fun kv => snd kv <= snd m) after.
Proof.
  unfold remap_and_normalize.
  change (List.map (fun e : str => (e, 0.0)) TARGET_EMOTIONS)
    with (dist 0.0 0.0 0.0 0.0 0.0).
  destruct (accumulate_all predictions 0.0 0.0 0.0 0.0 0.0)
    as (h & n & c & f & s & Hloop & Hh & Hn & Hc & Hf & Hs).
  rewrite Hloop.
  exists h, n, c, f, s.
  repeat (split; [lra|]).
  change (Ret (dist h n c f s) ≫= ?k) with (k (dist h n c f s)). cbv beta.
  change (py_sum (PyDict.values (dist h n c f s))) with (0 + h + n + c + f + s).
  assert (Hshape : exists x xs, normalized h n c f s = x :: xs).
  { unfold normalized. cbv zeta. destruct (Qltb _ _); by eexists _, _. }
  destruct Hshape as (x & xs & Hshape).
  destruct (py_max_by_value_first x xs) as (m & before & after & Hm & Hsplit & Hb & Ha).
  exists m, before, after.
  assert (Hd : (if Qltb 0 (0 + h + n + c + f + s)
                then List.map (fun kv : str * Q =>
                                 (kv.1, kv.2 / (0 + h + n + c + f + s)))
                              (dist h n c f s)
                else dist h n c f s) = normalized h n c f s).
  { unfold normalized. cbv zeta. by destruct (Qltb _ _). }
  rewrite Hd, Hshape, Hm. done.
Qed.

Lemma In_dist (k : str) (v h n c f s : Q) :
  In (k, v) (dist h n c f s) ->
  (k = lit "Happy" /\ v = h) \/ (k = lit "Neutral" /\ v = n) \/
  (k = lit "Confused" /\ v = c) \/ (k = lit "Frustrated" /\ v = f) \/
  (k = lit "Sad" /\ v = s).
Proof.
  unfold dist. simpl.
  intros [[=] | [[=] | [[=] | [[=] | [[=] | []]]]]]; subst; auto 10.
Qed.

Lemma keys_normalized (h n c f s : Q) :
  PyDict.keys (normalized h n c f s) = TARGET_EMOTIONS.
Proof. unfold normalized. cbv zeta. by destruct (Qltb _ _). Qed.

(** The label of the local classifier is always one of the five. *)
Lemma remap_and_normalize_target (predictions : list prediction) :
  exists r, remap_and_normalize predictions = Ret r
            /\ is_target (label r) = true.
Proof.
  destruct (remap_and_normalize_shape predictions)
    as (h & n & c & f & s & _ & _ & _ & _ & _ & [l q] & before & after
        & Hr & Hsplit & _ & _).
  eexists. split; [exact Hr|]. simpl.
  assert (Hin : In l (PyDict.keys (normalized h n c f s))).
  { rewrite Hsplit. unfold PyDict.keys. rewrite map_app. simpl.
    apply in_or_app. right. by left. }
  rewrite keys_normalized in Hin. simpl in Hin.
  destruct Hin as [<- | [<- | [<- | [<- | [<- | []]]]]]; reflexivity.
Qed.

End ClassifierTheorem.

(* ===================================================================== *)
(** * Rounding to binary64 *)
(* ===================================================================== *)

Section RoundingFacts.
Import PyFloat.
#[local] Open Scope Q_scope.

Lemma pow2_pos (k : Z) : 0 < pow2 k.
Proof. apply Qpower_0_lt. reflexivity. Qed.

Lemma pow2_plus (a b : Z) : pow2 (a + b) == pow2 a * pow2 b.
Proof. apply Qpower_plus. discriminate. Qed.

Lemma pow2_succ (a : Z) : pow2 (a + 1) == 2 * pow2 a.
Proof. rewrite pow2_plus. change (pow2 1) with 2. ring. Qed.

Lemma pow2_pred (a : Z) : 2 * pow2 (a - 1) == pow2 a.
Proof.
  rewrite <- pow2_succ. by replace (a - 1 + 1)%Z with a by lia.
Qed.

Lemma pow2_le (a b : Z) : (a <= b)%Z -> pow2 a <= pow2 b.
Proof. intros H. apply Qpower_le_compat_l; [done|]. discriminate. Qed.

Lemma pow2_lt (a b : Z) : (a < b)%Z -> pow2 a < pow2 b.
Proof. intros H. apply Qpower_lt_compat_l; [done|]. reflexivity. Qed.

Lemma pow2_lt_inv (a b : Z) : pow2 a < pow2 b -> (a < b)%Z.
Proof. intros H. eapply Qpower_lt_compat_l_inv; [exact H|]. reflexivity. Qed.

Lemma pow2_Z (k : Z) : (0 <= k)%Z -> pow2 k == inject_Z (2 ^ k).
Proof. intros H. unfold pow2. by rewrite Zpower_Qpower. Qed.

Lemma Qpos_of_mul (a b : Q) : 0 < b -> 0 < a * b -> 0 < a.
Proof.
  intros Hb Hab. destruct (Qlt_le_dec 0 a) as [|Ha]; [done|].
  assert (a * b <= 0 * b) by (apply Qmult_le_compat_r; lra). lra.
Qed.

Lemma div_bounds (N D A B x p : Q) :
  0 < D -> 0 < B -> x * D == N -> p * B == A ->
  A <= N -> N < 2 * A -> B <= D -> D < 2 * B ->
  p < 2 * x /\ x < 2 * p.
Proof.
  intros HD HB Hx Hp H1 H2 H3 H4.
  assert (Hp0 : 0 < p).
  { apply (Qpos_of_mul p B HB). rewrite Hp. lra. }
  assert (HA : 0 < A) by (rewrite <- Hp; by apply Qmult_lt_0_compat).
  assert (Hx0 : 0 < x) by (apply (Qpos_of_mul x D HD); lra).
  split.
  - assert (Hlt : p * B < (2 * x) * B).
    { assert (x * D < x * (2 * B)) by (apply Qmult_lt_l; done). lra. }
    apply Qmult_lt_r in Hlt; [lra|done].
  - assert (Hlt : x * B < (2 * p) * B).
    { assert (x * B <= x * D) by (apply Qmult_le_l; done). lra. }
    apply Qmult_lt_r in Hlt; [lra|done].
Qed.

Lemma ilog2_spec (x : Q) :
  0 < x -> pow2 (ilog2 x) <= x /\ x < pow2 (ilog2 x + 1).
Proof.
  intros Hx. destruct x as [n d].
  assert (Hn : (0 < n)%Z).
  { unfold Qlt in Hx. cbn in Hx. lia. }
  unfold ilog2. cbn [Qnum Qden].
  set (ln := Z.log2 n). set (ld := Z.log2 (Z.pos d)).
  destruct (Z.log2_spec n Hn) as [Hn1 Hn2]. fold ln in Hn1, Hn2.
  destruct (Z.log2_spec (Z.pos d) eq_refl) as [Hd1 Hd2]. fold ld in Hd1, Hd2.
  assert (Hln : (0 <= ln)%Z) by apply Z.log2_nonneg.
  assert (Hld : (0 <= ld)%Z) by apply Z.log2_nonneg.
  assert (HA1 : pow2 ln <= inject_Z n).
  { rewrite pow2_Z by done. by rewrite <- Zle_Qle. }
  assert (HA2 : inject_Z n < 2 * pow2 ln).
  { rewrite <- pow2_succ, pow2_Z by lia. by rewrite <- Zlt_Qlt. }
  assert (HB1 : pow2 ld <= inject_Z (Z.pos d)).
  { rewrite pow2_Z by done. by rewrite <- Zle_Qle. }
  assert (HB2 : inject_Z (Z.pos d) < 2 * pow2 ld).
  { rewrite <- pow2_succ, pow2_Z by lia. by rewrite <- Zlt_Qlt. }
  assert (Hq : (n # d) * inject_Z (Z.pos d) == inject_Z n).
  { rewrite Qmake_Qdiv. field. discriminate. }
  assert (Hp : pow2 (ln - ld) * pow2 ld == pow2 ln).
  { rewrite <- pow2_plus. by replace (ln - ld + ld)%Z with ln by lia. }
  pose proof (pow2_pos ld) as Hpos.
  assert (HD : 0 < inject_Z (Z.pos d)) by reflexivity.
  destruct (div_bounds _ _ _ _ _ _ HD Hpos Hq Hp HA1 HA2 HB1 HB2)
    as [Hlo Hhi].
  destruct (Qle_bool (pow2 (ln - ld)) (n # d)) eqn:E.
  - apply Qle_bool_iff in E. split; [done|]. by rewrite pow2_succ.
  - assert (Hlt : n # d < pow2 (ln - ld)).
    { apply Qnot_le_lt. intros H. apply Qle_bool_iff in H. congruence. }
    replace (ln - ld - 1 + 1)%Z with (ln - ld)%Z by lia.
    split; [|done]. pose proof (pow2_pred (ln - ld)). lra.
Qed.

Lemma ilog2_unique (x : Q) (k : Z) :
  pow2 k <= x -> x < pow2 (k + 1) -> ilog2 x = k.
Proof.
  intros H1 H2.
  assert (Hx : 0 < x) by (pose proof (pow2_pos k); lra).
  destruct (ilog2_spec x Hx) as [H3 H4].
  assert (ilog2 x < k + 1)%Z by (apply pow2_lt_inv; lra).
  assert (k < ilog2 x + 1)%Z by (apply pow2_lt_inv; lra).
  lia.
Qed.

Lemma ilog2_mono (x y : Q) : 0 < x -> x <= y -> (ilog2 x <= ilog2 y)%Z.
Proof.
  intros Hx Hxy.
  destruct (ilog2_spec x Hx) as [H1 _].
  destruct (ilog2_spec y) as [_ H2]; [lra|].
  assert (ilog2 x < ilog2 y + 1)%Z by (apply pow2_lt_inv; lra). lia.
Qed.

(** ** Rounding to the nearest integer, ties to even *)

Lemma rne_floor (s : Q) : (Qfloor s <= rne s <= Qfloor s + 1)%Z.
Proof.
  unfold rne. destruct (Qcompare _ _); [destruct (Z.even _)| |]; lia.
Qed.

Lemma rne_bounds (s : Q) :
  s - (1 # 2) <= inject_Z (rne s) /\ inject_Z (rne s) <= s + (1 # 2).
Proof.
  unfold rne. pose proof (Qfloor_le s) as H1. pose proof (Qlt_floor s) as H2.
  rewrite inject_Z_plus in H2. change (inject_Z 1) with 1 in H2.
  destruct (Qcompare_spec (s - inject_Z (Qfloor s)) (1 # 2)) as [E|E|E].
  - destruct (Z.even _); rewrite ?inject_Z_plus; change (inject_Z 1) with 1; lra.
  - lra.
  - rewrite inject_Z_plus. change (inject_Z 1) with 1. lra.
Qed.

Lemma rne_int (s : Q) (z : Z) : s == inject_Z z -> rne s = z.
Proof.
  intros Hs. unfold rne.
  assert (Hf : Qfloor s = z) by (rewrite Hs; apply Qfloor_Z).
  rewrite Hf.
  destruct (Qcompare_spec (s - inject_Z z) (1 # 2)) as [E|E|E]; [lra|done|lra].
Qed.

Lemma rne_mono (s t : Q) : s <= t -> (rne s <= rne t)%Z.
Proof.
  intros Hst. pose proof (Qfloor_resp_le s t Hst) as Hf.
  pose proof (rne_floor s). pose proof (rne_floor t).
  destruct (Z.eq_dec (Qfloor s) (Qfloor t)) as [E|E]; [|lia].
  unfold rne. rewrite E.
  destruct (Qcompare_spec (s - inject_Z (Qfloor t)) (1 # 2));
    destruct (Qcompare_spec (t - inject_Z (Qfloor t)) (1 # 2));
    try destruct (Z.even _); try lia; lra.
Qed.

(** ** Rounding a positive rational to binary64 *)

Lemma exponent_cases (x : Q) :
  (exponent x = ilog2 x - 52 /\ -1074 <= ilog2 x - 52)%Z
  \/ (exponent x = -1074 /\ ilog2 x - 52 <= -1074)%Z.
Proof. unfold exponent. lia. Qed.

Lemma round_pos_value (x : Q) :
  round_pos x == inject_Z (rne (x / pow2 (exponent x))) * pow2 (exponent x).
Proof. unfold round_pos. apply Qred_correct. Qed.

Lemma scaled_value (x : Q) (e : Z) : x / pow2 e * pow2 e == x.
Proof. field. pose proof (pow2_pos e). lra. Qed.

(** The scaled value lies below 2^53, and at or above 2^52 for a value in
    the normal range. *)
Lemma scaled_upper (x : Q) :
  0 < x -> x / pow2 (exponent x) < pow2 53.
Proof.
  intros Hx. destruct (ilog2_spec x Hx) as [_ Hhi].
  apply Qlt_shift_div_r; [apply pow2_pos|].
  rewrite <- pow2_plus.
  eapply Qlt_le_trans; [exact Hhi|]. apply pow2_le.
  destruct (exponent_cases x); lia.
Qed.

Lemma scaled_lower (x : Q) :
  0 < x -> exponent x = (ilog2 x - 52)%Z ->
  pow2 52 <= x / pow2 (exponent x).
Proof.
  intros Hx He. destruct (ilog2_spec x Hx) as [Hlo _].
  apply Qle_shift_div_l; [apply pow2_pos|].
  rewrite <- pow2_plus. rewrite He.
  by replace (52 + (ilog2 x - 52))%Z with (ilog2 x) by lia.
Qed.

Lemma rne_nonneg (s : Q) : 0 <= s -> (0 <= rne s)%Z.
Proof.
  intros Hs. pose proof (rne_floor s).
  assert (0 <= Qfloor s)%Z; [|lia].
  change 0%Z with (Qfloor 0). by apply Qfloor_resp_le.
Qed.

Lemma round_pos_nonneg (x : Q) : 0 < x -> 0 <= round_pos x.
Proof.
  intros Hx. rewrite round_pos_value.
  apply Qmult_le_0_compat; [|pose proof (pow2_pos (exponent x)); lra].
  change 0 with (inject_Z 0). rewrite <- Zle_Qle. apply rne_nonneg.
  apply Qle_shift_div_l; [apply pow2_pos|]. lra.
Qed.

(** The error is at most half a unit in the last place. *)
Lemma round_pos_error (x : Q) :
  0 < x ->
  2 * (round_pos x - x) <= pow2 (exponent x)
  /\ 2 * (x - round_pos x) <= pow2 (exponent x).
Proof.
  intros Hx. rewrite round_pos_value.
  set (e := exponent x). set (s := x / pow2 e).
  pose proof (scaled_value x e) as Hs. fold s in Hs.
  destruct (rne_bounds s) as [H1 H2]. pose proof (pow2_pos e) as He.
  assert (Ha : (inject_Z (rne s) - s) * pow2 e <= (1 # 2) * pow2 e)
    by (apply Qmult_le_compat_r; lra).
  assert (Hb : (s - inject_Z (rne s)) * pow2 e <= (1 # 2) * pow2 e)
    by (apply Qmult_le_compat_r; lra).
  split; lra.
Qed.

Lemma round_pos_grid (x : Q) : 0 < x -> grid (round_pos x).
Proof.
  intros Hx. exists (rne (x / pow2 (exponent x)) * 2 ^ (exponent x + 1074))%Z.
  rewrite round_pos_value, inject_Z_mult.
  assert (He : (0 <= exponent x + 1074)%Z) by (unfold exponent; lia).
  rewrite <- (pow2_Z _ He).
  replace (exponent x) with ((exponent x + 1074) + -1074)%Z at 2 by lia.
  rewrite pow2_plus. ring.
Qed.

(** On the grid rounding is exact in the subnormal range, so the error is
    relative everywhere. *)
Lemma round_pos_relative (x : Q) :
  0 < x -> grid x ->
  x - unit_roundoff * x <= round_pos x /\ round_pos x <= x + unit_roundoff * x.
Proof.
  intros Hx [z Hz]. destruct (exponent_cases x) as [[He Hn]|[He Hs]].
  - destruct (round_pos_error x Hx) as [H1 H2].
    destruct (ilog2_spec x Hx) as [Hlo _].
    assert (Hu : pow2 (exponent x) == 2 * (unit_roundoff * pow2 (ilog2 x))).
    { rewrite He. unfold unit_roundoff. rewrite <- pow2_plus, <- pow2_succ.
      by replace (-53 + ilog2 x + 1)%Z with (ilog2 x - 52)%Z by lia. }
    assert (Hm : unit_roundoff * pow2 (ilog2 x) <= unit_roundoff * x)
      by (apply Qmult_le_l; [apply pow2_pos | done]).
    split; lra.
  - assert (Hr : round_pos x == x).
    { rewrite round_pos_value, He.
      rewrite (rne_int _ z); [by rewrite Hz|].
      rewrite Hz. field. pose proof (pow2_pos (-1074)). lra. }
    assert (0 <= unit_roundoff * x).
    { apply Qmult_le_0_compat; [|lra]. pose proof (pow2_pos (-53)).
      unfold unit_roundoff. lra. }
    split; lra.
Qed.

(** Off the grid the error in the subnormal range is at most 2^-1075. *)
Lemma round_pos_absolute (x : Q) :
  0 < x ->
  x - unit_roundoff * x - underflow_unit <= round_pos x /\ round_pos x <= x + unit_roundoff * x + underflow_unit.
Proof.
  intros Hx. destruct (round_pos_error x Hx) as [H1 H2].
  assert (Hux : 0 <= unit_roundoff * x).
  { apply Qmult_le_0_compat; [|lra]. pose proof (pow2_pos (-53)).
    unfold unit_roundoff. lra. }
  destruct (exponent_cases x) as [[He Hn]|[He Hs]].
  - destruct (ilog2_spec x Hx) as [Hlo _].
    assert (Hu : pow2 (exponent x) == 2 * (unit_roundoff * pow2 (ilog2 x))).
    { rewrite He. unfold unit_roundoff. rewrite <- pow2_plus, <- pow2_succ.
      by replace (-53 + ilog2 x + 1)%Z with (ilog2 x - 52)%Z by lia. }
    assert (Hm : unit_roundoff * pow2 (ilog2 x) <= unit_roundoff * x)
      by (apply Qmult_le_l; [apply pow2_pos | done]).
    pose proof (pow2_pos (-1075)). unfold underflow_unit. split; lra.
  - assert (Hu : pow2 (exponent x) == 2 * underflow_unit).
    { rewrite He. unfold underflow_unit. by rewrite <- pow2_succ. }
    split; lra.
Qed.

(** Rounding is monotone. *)
Lemma round_pos_mono (x y : Q) :
  0 < x -> x <= y -> round_pos x <= round_pos y.
Proof.
  intros Hx Hxy. assert (Hy : 0 < y) by lra.
  rewrite !round_pos_value.
  pose proof (ilog2_mono x y Hx Hxy) as Hlog.
  assert (Hexp : (exponent x <= exponent y)%Z) by (unfold exponent; lia).
  destruct (Z.eq_dec (exponent x) (exponent y)) as [E|E].
  - rewrite E. apply Qmult_le_compat_r; [|pose proof (pow2_pos (exponent y)); lra].
    rewrite <- Zle_Qle. apply rne_mono.
    apply Qmult_le_compat_r; [done|].
    apply Qlt_le_weak, Qinv_lt_0_compat, pow2_pos.
  - assert (Hey : exponent y = (ilog2 y - 52)%Z) by (unfold exponent in *; lia).
    assert (Hmx : inject_Z (rne (x / pow2 (exponent x))) <= pow2 53).
    { rewrite (pow2_Z 53) by lia. rewrite <- Zle_Qle.
      rewrite <- (rne_int (inject_Z (2 ^ 53)) (2 ^ 53)) by done.
      apply rne_mono. rewrite <- (pow2_Z 53) by lia.
      apply Qlt_le_weak. by apply scaled_upper. }
    assert (Hmy : pow2 52 <= inject_Z (rne (y / pow2 (exponent y)))).
    { rewrite (pow2_Z 52) by lia. rewrite <- Zle_Qle.
      rewrite <- (rne_int (inject_Z (2 ^ 52)) (2 ^ 52)) at 1 by done.
      apply rne_mono. rewrite <- (pow2_Z 52) by lia.
      by apply scaled_lower. }
    pose proof (pow2_pos (exponent x)) as Hpx.
    pose proof (pow2_pos (exponent y)) as Hpy.
    apply Qle_trans with (pow2 53 * pow2 (exponent x));
      [apply Qmult_le_compat_r; lra|].
    apply Qle_trans with (pow2 52 * pow2 (exponent y));
      [|apply Qmult_le_compat_r; lra].
    rewrite <- !pow2_plus. apply pow2_le. lia.
Qed.

(** A rounded value that is zero is the literal zero. *)
Lemma round_pos_zero (x : Q) : round_pos x == 0 -> round_pos x = 0.
Proof.
  unfold round_pos. intros H. rewrite Qred_correct in H.
  by apply Qred_complete in H.
Qed.

Lemma grid_0 : grid 0.
Proof. exists 0%Z. ring. Qed.

Lemma grid_plus (a b : Q) : grid a -> grid b -> grid (a + b).
Proof.
  intros [x Hx] [y Hy]. exists (x + y)%Z. rewrite inject_Z_plus, Hx, Hy. ring.
Qed.

Lemma grid_eq (a b : Q) : a == b -> grid a -> grid b.
Proof. intros Hab [x Hx]. exists x. by rewrite <- Hab. Qed.

(** ** The operations on finite values that are not negative *)

Lemma unit_roundoff_value : unit_roundoff == 1 # 9007199254740992.
Proof. reflexivity. Qed.

Lemma moderate_value : moderate == 1152921504606846976.
Proof. reflexivity. Qed.

Lemma underflow_unit_small : 0 < underflow_unit /\ underflow_unit <= 1 # 1152921504606846976.
Proof.
  split; [apply pow2_pos|].
  change (1 # 1152921504606846976) with (pow2 (-60)). by apply pow2_le.
Qed.

Lemma moderate_not_huge : 4 * moderate <= huge.
Proof.
  unfold moderate, huge. change 4 with (pow2 2).
  rewrite <- pow2_plus. by apply pow2_le.
Qed.

Lemma unit_roundoff_mult (s : Q) : 0 <= s -> 0 <= unit_roundoff * s /\ unit_roundoff * s <= s.
Proof.
  intros Hs. pose proof unit_roundoff_value as Hu.
  assert (H1 : 0 * s <= unit_roundoff * s) by (apply Qmult_le_compat_r; lra).
  assert (H2 : unit_roundoff * s <= 1 * s) by (apply Qmult_le_compat_r; lra).
  lra.
Qed.

Lemma of_Q_pos (x : Q) :
  0 < x -> round_pos x < huge -> of_Q x = Finite (round_pos x).
Proof.
  intros Hx Hr. unfold of_Q.
  assert (E : Qcompare x 0 = Gt) by (by apply Qgt_alt).
  rewrite E. cbv zeta.
  destruct (Qle_bool huge (round_pos x)) eqn:Hb; [|done].
  apply Qle_bool_iff in Hb. lra.
Qed.

Lemma add_nonneg (x y : float) (a b : Q) :
  nonneg_value x a -> nonneg_value y b -> a + b <= moderate ->
  exists c,
    nonneg_value (add x y) c
    /\ (a + b) - unit_roundoff * (a + b) <= c
    /\ c <= (a + b) + unit_roundoff * (a + b)
    /\ (forall B, 0 < B -> a + b <= B -> c <= round_pos B).
Proof.
  intros (-> & Ha & Ga & _) (-> & Hb & Gb & _) Hsum. cbn [add].
  pose proof unit_roundoff_value as Hu. pose proof moderate_value as Hm.
  pose proof moderate_not_huge as Hh.
  destruct (Qeq_bool (a + b) 0) eqn:E.
  - apply Qeq_bool_iff in E. exists 0.
    split; [split; [done|split; [lra|split; [apply grid_0|done]]]|].
    split; [nra|]. split; [nra|].
    intros B HB0 HB. by apply round_pos_nonneg.
  - assert (Hpos : 0 < a + b).
    { apply Qeq_bool_neq in E. destruct (Qlt_le_dec 0 (a + b)); [done|].
      exfalso. apply E. lra. }
    destruct (round_pos_relative (a + b) Hpos (grid_plus a b Ga Gb)) as [H1 H2].
    destruct (unit_roundoff_mult (a + b)) as [_ Hux]; [lra|].
    rewrite of_Q_pos; [|done|lra].
    exists (round_pos (a + b)).
    split; [split; [done|split; [by apply round_pos_nonneg
                                |split; [by apply round_pos_grid
                                        |apply round_pos_zero]]]|].
    split; [done|]. split; [done|].
    intros B _ HB. by apply round_pos_mono.
Qed.

Lemma div_nonneg (x y : float) (a t : Q) :
  nonneg_value x a -> nonneg_value y t -> 0 < t -> a <= 2 * t ->
  exists s r,
    div x y = Some (Finite s)
    /\ nonneg_value (Finite s) s
    /\ r * t == a
    /\ 0 <= r
    /\ r - unit_roundoff * r - underflow_unit <= s
    /\ s <= r + unit_roundoff * r + underflow_unit.
Proof.
  intros (-> & Ha & Ga & _) (-> & Ht & Gt & _) Htpos Hratio. unfold div.
  pose proof unit_roundoff_value as Hu. pose proof moderate_value as Hm.
  pose proof moderate_not_huge as Hh. pose proof underflow_unit_small as [He1 He2].
  assert (Ez : is_zero (Finite t) = false).
  { cbn. destruct (Qeq_bool t 0) eqn:E; [|done].
    apply Qeq_bool_iff in E. lra. }
  rewrite Ez.
  destruct (Qeq_bool a 0) eqn:E.
  - apply Qeq_bool_iff in E. exists 0, 0.
    assert (En : negative (Finite t) = false).
    { cbn. unfold Qltb. apply negb_false_iff, Qle_bool_iff. lra. }
    rewrite En. cbn [signed_zero].
    split; [done|].
    split; [split; [done|split; [lra|split; [apply grid_0|done]]]|].
    split; [lra|]. split; [lra|]. split; lra.
  - assert (Hpos : 0 < a).
    { apply Qeq_bool_neq in E. destruct (Qlt_le_dec 0 a); [done|].
      exfalso. apply E. lra. }
    assert (Hr : a / t * t == a) by (field; lra).
    assert (Hr0 : 0 < a / t) by (by apply Qlt_shift_div_l; lra).
    assert (Hrm : a / t <= moderate).
    { apply Qle_shift_div_r; [done|].
      assert (2 * t <= moderate * t) by (apply Qmult_le_compat_r; lra). lra. }
    destruct (round_pos_absolute (a / t) Hr0) as [H1 H2].
    revert Hr Hr0 Hrm H1 H2. generalize (a / t) as r. intros r Hr Hr0 Hrm H1 H2.
    destruct (unit_roundoff_mult r) as [_ Hux]; [lra|].
    rewrite of_Q_pos; [|done|lra].
    exists (round_pos r), r.
    split; [done|].
    split; [split; [done|split; [by apply round_pos_nonneg
                                |split; [by apply round_pos_grid
                                        |apply round_pos_zero]]]|].
    split; [done|]. split; [lra|]. done.
Qed.

Lemma ltb_nonneg (x y : float) (a b : Q) :
  nonneg_value x a -> nonneg_value y b ->
  (ltb x y = true <-> a < b) /\ (ltb x y = false <-> b <= a).
Proof.
  intros (-> & _) (-> & _). cbn [ltb]. unfold Qltb.
  rewrite negb_true_iff, negb_false_iff, <- not_true_iff_false, Qle_bool_iff.
  split; [|done]. split; [apply Qnot_le_lt | apply Qlt_not_le].
Qed.

End RoundingFacts.

(* ===================================================================== *)
(** * The local classifier in binary64 *)
(* ===================================================================== *)

Section Classifier64Facts.

Import PyFloat EmotionDetector64.
#[local] Open Scope Q_scope.

Lemma accumulate_dist64 (h n c f s : float) (p : prediction) :
  accumulate (dist64 h n c f s) p =
  Ret (dist64 (bump64 p (lit "Happy") h) (bump64 p (lit "Neutral") n)
              (bump64 p (lit "Confused") c) (bump64 p (lit "Frustrated") f)
              (bump64 p (lit "Sad") s)).
Proof.
  unfold accumulate, bump64. cbv zeta. fold (target_of (pred_label p)).
  destruct (target_of_cases (pred_label p)) as [-> | [-> | [-> | [-> | ->]]]];
    reflexivity.
Qed.

Lemma accumulate_all64 (ps : list prediction) :
  forall h n c f s : float,
    for_each accumulate ps (dist64 h n c f s)
    = Ret (dist64
             (fold_left (fun acc p => bump64 p (lit "Happy") acc) ps h)
             (fold_left (fun acc p => bump64 p (lit "Neutral") acc) ps n)
             (fold_left (fun acc p => bump64 p (lit "Confused") acc) ps c)
             (fold_left (fun acc p => bump64 p (lit "Frustrated") acc) ps f)
             (fold_left (fun acc p => bump64 p (lit "Sad") acc) ps s)).
Proof.
  induction ps as [|p ps IH]; intros h n c f s; [done|].
  cbn [for_each fold_left]. rewrite accumulate_dist64. cbn [obind].
  apply IH.
Qed.

Lemma probability_nonneg (x : float) :
  probability x -> exists q, nonneg_value x q /\ q <= 1.
Proof.
  intros (q & -> & Hq & H0 & H1). exists q. split; [|done].
  split; [done|]. split; [done|].
  unfold of_Q in Hq. destruct (Qcompare_spec q 0) as [E|E|E].
  - injection Hq as <-. split; [apply grid_0 | done].
  - lra.
  - cbv zeta in Hq. destruct (Qle_bool huge (round_pos q)); [done|].
    injection Hq as Hq. split; [|intros Hz; lra].
    rewrite <- Hq. by apply round_pos_grid.
Qed.

Lemma round_pos_saturates :
  round_pos 9007199254740993 = 9007199254740992.
Proof. by vm_compute. Qed.

Lemma bump64_invariant (p : prediction) (target : str) (x : float) (a : Q) :
  probability (pred_score p) ->
  nonneg_value x a -> a <= 9007199254740992 ->
  exists a', nonneg_value (bump64 p target x) a' /\ a' <= 9007199254740992.
Proof.
  intros Hp Hx Ha. unfold bump64.
  destruct (PyStr.eqb (target_of (pred_label p)) target); [|by exists a].
  destruct (probability_nonneg _ Hp) as (q & Hq & Hq1).
  pose proof moderate_value as Hm.
  destruct (add_nonneg x (pred_score p) a q Hx Hq) as (c & Hc & _ & _ & Hmono);
    [lra|].
  exists c. split; [done|].
  rewrite <- round_pos_saturates. apply Hmono; [reflexivity | lra].
Qed.

Lemma raw_score64_invariant (ps : list prediction) (target : str) :
  Forall (fun p => probability (pred_score p)) ps ->
  forall (x : float) (a : Q),
    nonneg_value x a -> a <= 9007199254740992 ->
    exists a',
      nonneg_value (fold_left (fun acc p => bump64 p target acc) ps x) a'
      /\ a' <= 9007199254740992.
Proof.
  induction 1 as [|p ps Hp _ IH]; intros x a Hx Ha; [by exists a|].
  cbn [fold_left].
  destruct (bump64_invariant p target x a Hp Hx Ha) as (a' & Hx' & Ha').
  by apply (IH _ a').
Qed.

Lemma nonneg_value_0 : nonneg_value (Finite 0) 0.
Proof. split; [done|]. split; [lra|]. split; [apply grid_0 | done]. Qed.

(** One addition, with the unit roundoff written out. *)
Lemma add_nonneg_bounds (x y : float) (a b : Q) :
  nonneg_value x a -> nonneg_value y b -> a + b <= 1152921504606846976 ->
  exists c,
    nonneg_value (add x y) c
    /\ (9007199254740991 # 9007199254740992) * (a + b) <= c
    /\ c <= (9007199254740993 # 9007199254740992) * (a + b).
Proof.
  intros Hx Hy Hab. pose proof moderate_value as Hm.
  destruct (add_nonneg x y a b Hx Hy) as (c & Hc & H1 & H2 & _); [lra|].
  exists c. split; [done|]. rewrite unit_roundoff_value in H1, H2. split; lra.
Qed.

(** The sum of five such floats, as [sum] computes it. *)
Lemma py_sum_five (x1 x2 x3 x4 x5 : float) (a1 a2 a3 a4 a5 : Q) :
  nonneg_value x1 a1 -> nonneg_value x2 a2 -> nonneg_value x3 a3 ->
  nonneg_value x4 a4 -> nonneg_value x5 a5 ->
  a1 <= 9007199254740992 -> a2 <= 9007199254740992 ->
  a3 <= 9007199254740992 -> a4 <= 9007199254740992 ->
  a5 <= 9007199254740992 ->
  exists t,
    nonneg_value (py_sum [x1; x2; x3; x4; x5]) t
    /\ (999999999999999 # 1000000000000000) * (a1 + a2 + a3 + a4 + a5) <= t
    /\ t <= (1000000000000001 # 1000000000000000) * (a1 + a2 + a3 + a4 + a5).
Proof.
  intros H1 H2 H3 H4 H5 B1 B2 B3 B4 B5. unfold py_sum. cbn [fold_left].
  pose proof H1 as (_ & P1 & _ & _). pose proof H2 as (_ & P2 & _ & _).
  pose proof H3 as (_ & P3 & _ & _). pose proof H4 as (_ & P4 & _ & _).
  pose proof H5 as (_ & P5 & _ & _).
  destruct (add_nonneg_bounds _ _ 0 a1 nonneg_value_0 H1) as (t1 & T1 & L1 & U1);
    [lra|].
  destruct (add_nonneg_bounds _ _ t1 a2 T1 H2) as (t2 & T2 & L2 & U2); [lra|].
  destruct (add_nonneg_bounds _ _ t2 a3 T2 H3) as (t3 & T3 & L3 & U3); [lra|].
  destruct (add_nonneg_bounds _ _ t3 a4 T3 H4) as (t4 & T4 & L4 & U4); [lra|].
  destruct (add_nonneg_bounds _ _ t4 a5 T4 H5) as (t5 & T5 & L5 & U5); [lra|].
  exists t5. split; [done|]. split; lra.
Qed.

(** One division, with the unit roundoff written out. *)
Lemma div_nonneg_bounds (x y : float) (a t : Q) :
  nonneg_value x a -> nonneg_value y t -> 0 < t -> a <= 2 * t ->
  exists s r,
    div x y = Some (Finite s)
    /\ nonneg_value (Finite s) s
    /\ r * t == a
    /\ 0 <= r
    /\ (9007199254740991 # 9007199254740992) * r
       - (1 # 1152921504606846976) <= s
    /\ s <= (9007199254740993 # 9007199254740992) * r
            + (1 # 1152921504606846976).
Proof.
  intros Hx Hy Ht Hat.
  destruct (div_nonneg x y a t Hx Hy Ht Hat)
    as (s & r & Hd & Hs & Hr & Hr0 & H1 & H2).
  exists s, r. split; [done|]. split; [done|]. split; [done|]. split; [done|].
  rewrite unit_roundoff_value in H1, H2.
  pose proof underflow_unit_small as [He1 He2]. split; lra.
Qed.

(** Cancelling a positive factor. *)
Lemma Qmult_le_cancel (a b t : Q) : 0 < t -> a * t <= b * t -> a <= b.
Proof. intros Ht H. by apply Qmult_le_r in H. Qed.

(** The five quotients by the float total sum to 1 within the tolerance,
    as an exact sum and as [sum] computes it. *)
Lemma normalized_five (x1 x2 x3 x4 x5 : float) (a1 a2 a3 a4 a5 : Q) :
  nonneg_value x1 a1 -> nonneg_value x2 a2 -> nonneg_value x3 a3 ->
  nonneg_value x4 a4 -> nonneg_value x5 a5 ->
  a1 <= 9007199254740992 -> a2 <= 9007199254740992 ->
  a3 <= 9007199254740992 -> a4 <= 9007199254740992 ->
  a5 <= 9007199254740992 ->
  ltb (Finite 0) (py_sum [x1; x2; x3; x4; x5]) = true ->
  exists s1 s2 s3 s4 s5 s : Q,
    div x1 (py_sum [x1; x2; x3; x4; x5]) = Some (Finite s1)
    /\ div x2 (py_sum [x1; x2; x3; x4; x5]) = Some (Finite s2)
    /\ div x3 (py_sum [x1; x2; x3; x4; x5]) = Some (Finite s3)
    /\ div x4 (py_sum [x1; x2; x3; x4; x5]) = Some (Finite s4)
    /\ div x5 (py_sum [x1; x2; x3; x4; x5]) = Some (Finite s5)
    /\ (0 <= s1 /\ 0 <= s2 /\ 0 <= s3 /\ 0 <= s4 /\ 0 <= s5)
    /\ 1 - tolerance <= s1 + s2 + s3 + s4 + s5
    /\ s1 + s2 + s3 + s4 + s5 <= 1 + tolerance
    /\ py_sum [Finite s1; Finite s2; Finite s3; Finite s4; Finite s5]
       = Finite s
    /\ 1 - tolerance <= s /\ s <= 1 + tolerance.
Proof.
  intros H1 H2 H3 H4 H5 B1 B2 B3 B4 B5 Hpos.
  destruct (py_sum_five _ _ _ _ _ _ _ _ _ _ H1 H2 H3 H4 H5 B1 B2 B3 B4 B5)
    as (t & Ht & Lt & Ut).
  set (total := py_sum [x1; x2; x3; x4; x5]) in *.
  pose proof H1 as (_ & P1 & _ & _). pose proof H2 as (_ & P2 & _ & _).
  pose proof H3 as (_ & P3 & _ & _). pose proof H4 as (_ & P4 & _ & _).
  pose proof H5 as (_ & P5 & _ & _).
  assert (Htpos : 0 < t).
  { apply (ltb_nonneg (Finite 0) total 0 t nonneg_value_0 Ht). exact Hpos. }
  destruct (div_nonneg_bounds x1 total a1 t H1 Ht Htpos)
    as (s1 & r1 & D1 & N1 & R1 & Z1 & L1 & U1); [lra|].
  destruct (div_nonneg_bounds x2 total a2 t H2 Ht Htpos)
    as (s2 & r2 & D2 & N2 & R2 & Z2 & L2 & U2); [lra|].
  destruct (div_nonneg_bounds x3 total a3 t H3 Ht Htpos)
    as (s3 & r3 & D3 & N3 & R3 & Z3 & L3 & U3); [lra|].
  destruct (div_nonneg_bounds x4 total a4 t H4 Ht Htpos)
    as (s4 & r4 & D4 & N4 & R4 & Z4 & L4 & U4); [lra|].
  destruct (div_nonneg_bounds x5 total a5 t H5 Ht Htpos)
    as (s5 & r5 & D5 & N5 & R5 & Z5 & L5 & U5); [lra|].
  assert (HX : (r1 + r2 + r3 + r4 + r5) * t == a1 + a2 + a3 + a4 + a5)
    by (rewrite <- R1, <- R2, <- R3, <- R4, <- R5; ring).
  assert (HXlo : 1 <= (1000000000000001 # 1000000000000000)
                      * (r1 + r2 + r3 + r4 + r5)).
  { apply (Qmult_le_cancel _ _ t Htpos).
    rewrite <- Qmult_assoc, HX. lra. }
  assert (HXhi : (999999999999999 # 1000000000000000)
                 * (r1 + r2 + r3 + r4 + r5) <= 1).
  { apply (Qmult_le_cancel _ _ t Htpos).
    rewrite <- Qmult_assoc, HX. lra. }
  pose proof N1 as (_ & Q1 & _ & _). pose proof N2 as (_ & Q2 & _ & _).
  pose proof N3 as (_ & Q3 & _ & _). pose proof N4 as (_ & Q4 & _ & _).
  pose proof N5 as (_ & Q5 & _ & _).
  unfold tolerance.
  destruct (py_sum_five _ _ _ _ _ s1 s2 s3 s4 s5 N1 N2 N3 N4 N5)
    as (s & Hs & Ls & Us); try lra.
  destruct Hs as (Hs & _).
  exists s1, s2, s3, s4, s5, s.
  repeat (split; [first [done | lra]|]). lra.
Qed.

(** [max_from] on finite floats: what is left of the result is strictly
    smaller and what is right of it is not larger. *)
Lemma ltb_finite (a b : Q) :
  (ltb (Finite a) (Finite b) = true <-> a < b)
  /\ (ltb (Finite a) (Finite b) = false <-> b <= a).
Proof.
  cbn [ltb]. unfold Qltb.
  rewrite negb_true_iff, negb_false_iff, <- not_true_iff_false, Qle_bool_iff.
  split; [|done]. split; [apply Qnot_le_lt | apply Qlt_not_le].
Qed.

Lemma max_from_split64 {K} (xs : list (K * float)) :
  forall (seen_lt seen_le : list (K * float)) (best : K * float),
    Forall (fun y => is_finite (snd y)) xs ->
    is_finite (snd best) ->
    Forall (fun y => ltb (snd y) (snd best) = true) seen_lt ->
    Forall (fun y => is_finite (snd y)) seen_lt ->
    Forall (fun y => ltb (snd best) (snd y) = false) seen_le ->
    Forall (fun y => is_finite (snd y)) seen_le ->
    exists before after,
      seen_lt ++ best :: seen_le ++ xs = before ++ max_from best xs :: after
      /\ Forall (fun y => ltb (snd y) (snd (max_from best xs)) = true) before
      /\ Forall (fun y => ltb (snd (max_from best xs)) (snd y) = false) after.
Proof.
  induction xs as [|x xs IH];
    intros seen_lt seen_le best Hxs Hbest Hlt Flt Hle Fle; cbn [max_from].
  - exists seen_lt, seen_le. by rewrite app_nil_r.
  - inversion Hxs as [|? ? Hx Hxs']; subst.
    destruct Hbest as [b Eb]. destruct Hx as [v Ev].
    destruct (ltb (snd best) (snd x)) eqn:Hcmp.
    + rewrite Eb, Ev in Hcmp. apply ltb_finite in Hcmp.
      assert (H1 : Forall (fun y => ltb (snd y) (snd x) = true)
                     (seen_lt ++ best :: seen_le)).
      { apply Forall_app. split; [|constructor].
        - apply List.Forall_forall. intros y Hy.
          pose proof (proj1 (List.Forall_forall _ _) Hlt y Hy) as Hyb.
          destruct (proj1 (List.Forall_forall _ _) Flt y Hy) as [w Ew].
          cbn beta in Hyb. rewrite Ew, Eb in Hyb. rewrite Ew, Ev.
          apply ltb_finite in Hyb. apply ltb_finite. lra.
        - rewrite Eb, Ev. by apply ltb_finite.
        - apply List.Forall_forall. intros y Hy.
          pose proof (proj1 (List.Forall_forall _ _) Hle y Hy) as Hyb.
          destruct (proj1 (List.Forall_forall _ _) Fle y Hy) as [w Ew].
          cbn beta in Hyb. rewrite Ew, Eb in Hyb. rewrite Ew, Ev.
          apply ltb_finite in Hyb. apply ltb_finite. lra. }
      assert (H2 : Forall (fun y => is_finite (snd y))
                     (seen_lt ++ best :: seen_le)).
      { apply Forall_app. split; [done|]. constructor; [by exists b|done]. }
      assert (Hx : is_finite (snd x)) by (by exists v).
      destruct (IH (seen_lt ++ best :: seen_le) [] x Hxs' Hx H1 H2
                   (List.Forall_nil _) (List.Forall_nil _))
        as (bf & af & Heq & Hb & Ha).
      exists bf, af. split; [|done]. rewrite <- Heq. cbn [app].
      by rewrite <- app_assoc.
    + assert (H1 : Forall (fun y => ltb (snd best) (snd y) = false)
                     (seen_le ++ [x])).
      { apply Forall_app. split; [done|]. by constructor. }
      assert (H2 : Forall (fun y => is_finite (snd y)) (seen_le ++ [x])).
      { apply Forall_app. split; [done|]. constructor; [by exists v|done]. }
      assert (Hb' : is_finite (snd best)) by (by exists b).
      destruct (IH seen_lt (seen_le ++ [x]) best Hxs' Hb' Hlt Flt H1 H2)
        as (bf & af & Heq & Hb & Ha).
      exists bf, af. split; [|done]. rewrite <- Heq.
      by rewrite <- (app_assoc seen_le [x] xs).
Qed.

Lemma py_max_by_value_first64 {K} (x : K * float) (xs : list (K * float)) :
  Forall (fun y => is_finite (snd y)) (x :: xs) ->
  exists m before after,
    py_max_by_value (x :: xs) = Ret m
    /\ x :: xs = before ++ m :: after
    /\ Forall (fun y => ltb (snd y) (snd m) = true) before
    /\ Forall (fun y => ltb (snd m) (snd y) = false) after.
Proof.
  intros Hfin. inversion Hfin as [|? ? Hx Hxs]; subst.
  destruct (max_from_split64 xs [] [] x Hxs Hx (List.Forall_nil _) (List.Forall_nil _)
              (List.Forall_nil _) (List.Forall_nil _))
    as (b & a & Heq & Hb & Ha).
  exists (max_from x xs), b, a. by cbn in *.
Qed.

End Classifier64Facts.

Section Classifier64Theorem.

Import PyFloat EmotionDetector64.
#[local] Open Scope Q_scope.

Lemma get_dist64 (t : str) (v h n c f s : float) :
  PyDict.get t (dist64 h n c f s) = Some v ->
  (t = lit "Happy" /\ v = h) \/ (t = lit "Neutral" /\ v = n) \/
  (t = lit "Confused" /\ v = c) \/ (t = lit "Frustrated" /\ v = f) \/
  (t = lit "Sad" /\ v = s).
Proof.
  unfold dist64. simpl PyDict.get.
  repeat match goal with
         | |- context [if PyStr.eqb t ?k then _ else _] =>
             let E := fresh "E" in
             destruct (PyStr.eqb t k) eqn:E; [apply eqb_true in E|]
         end; intros [=]; subst; auto 10.
Qed.

Lemma normalize_dist64 (total x1 x2 x3 x4 x5 y1 y2 y3 y4 y5 : float) :
  div x1 total = Some y1 -> div x2 total = Some y2 ->
  div x3 total = Some y3 -> div x4 total = Some y4 ->
  div x5 total = Some y5 ->
  for_each (normalize_entry total) (dist64 x1 x2 x3 x4 x5) []
  = Ret (dist64 y1 y2 y3 y4 y5).
Proof.
  intros D1 D2 D3 D4 D5. unfold dist64. cbn [for_each].
  unfold normalize_entry, truediv. cbn [fst snd].
  rewrite D1. cbn [obind mbind outcome_bind mret outcome_ret].
  change (Ret ?x ≫= ?k) with (k x). cbv beta.
  rewrite D2. change (Ret ?x ≫= ?k) with (k x). cbv beta.
  rewrite D3. change (Ret ?x ≫= ?k) with (k x). cbv beta.
  rewrite D4. change (Ret ?x ≫= ?k) with (k x). cbv beta.
  rewrite D5. change (Ret ?x ≫= ?k) with (k x). cbv beta.
  reflexivity.
Qed.

(** What [remap_and_normalize] computes from scores between 0 and 1. *)
Lemma remap_and_normalize64_shape (predictions : list prediction) :
  Forall (fun p => probability (pred_score p)) predictions ->
  exists y1 y2 y3 y4 y5 m before after,
    remap_and_normalize predictions
    = Ret {| label := fst m; confidence := snd m;
             scores := dist64 y1 y2 y3 y4 y5 |}
    /\ dist64 y1 y2 y3 y4 y5 = before ++ m :: after
    /\ Forall (fun y => ltb (snd y) (snd m) = true) before
    /\ Forall (fun y => ltb (snd m) (snd y) = false) after
    /\ Forall (fun kv => exists q, snd kv = Finite q /\ 0 <= q)
              (dist64 y1 y2 y3 y4 y5)
    /\ (ltb (Finite 0) (raw_total64 predictions) = true ->
        truediv (raw_score64 predictions (lit "Happy"))
                (raw_total64 predictions) = Ret y1
        /\ truediv (raw_score64 predictions (lit "Neutral"))
                   (raw_total64 predictions) = Ret y2
        /\ truediv (raw_score64 predictions (lit "Confused"))
                   (raw_total64 predictions) = Ret y3
        /\ truediv (raw_score64 predictions (lit "Frustrated"))
                   (raw_total64 predictions) = Ret y4
        /\ truediv (raw_score64 predictions (lit "Sad"))
                   (raw_total64 predictions) = Ret y5
        /\ 1 - tolerance <= exact_sum [y1; y2; y3; y4; y5]
        /\ exact_sum [y1; y2; y3; y4; y5] <= 1 + tolerance
        /\ exists s, py_sum [y1; y2; y3; y4; y5] = Finite s
                     /\ 1 - tolerance <= s /\ s <= 1 + tolerance)
    /\ (ltb (Finite 0) (raw_total64 predictions) = false ->
        raw_total64 predictions = Finite 0
        /\ y1 = Finite 0 /\ y2 = Finite 0 /\ y3 = Finite 0
        /\ y4 = Finite 0 /\ y5 = Finite 0
        /\ forall target, raw_score64 predictions target = Finite 0
                           \/ ~ In target EmotionDetector.TARGET_EMOTIONS).
Proof.
  intros Hprob.
  unfold remap_and_normalize. cbv zeta.
  change (List.map (fun e => (e, Finite 0)) EmotionDetector.TARGET_EMOTIONS)
    with (dist64 (Finite 0) (Finite 0) (Finite 0) (Finite 0) (Finite 0)).
  rewrite accumulate_all64.
  change (Ret ?x ≫= ?k) with (k x). cbv beta.
  fold (raw_score64 predictions (lit "Happy")).
  fold (raw_score64 predictions (lit "Neutral")).
  fold (raw_score64 predictions (lit "Confused")).
  fold (raw_score64 predictions (lit "Frustrated")).
  fold (raw_score64 predictions (lit "Sad")).
  set (x1 := raw_score64 predictions (lit "Happy")).
  set (x2 := raw_score64 predictions (lit "Neutral")).
  set (x3 := raw_score64 predictions (lit "Confused")).
  set (x4 := raw_score64 predictions (lit "Frustrated")).
  set (x5 := raw_score64 predictions (lit "Sad")).
  change (PyDict.values (dist64 x1 x2 x3 x4 x5)) with [x1; x2; x3; x4; x5].
  change (raw_total64 predictions) with (py_sum [x1; x2; x3; x4; x5]).
  set (total := py_sum [x1; x2; x3; x4; x5]).
  assert (Hinv : forall target, exists a,
             nonneg_value (raw_score64 predictions target) a
             /\ a <= 9007199254740992).
  { intros target.
    apply (raw_score64_invariant predictions target Hprob (Finite 0) 0);
      [apply nonneg_value_0 | lra]. }
  destruct (Hinv (lit "Happy")) as (a1 & H1 & B1). fold x1 in H1.
  destruct (Hinv (lit "Neutral")) as (a2 & H2 & B2). fold x2 in H2.
  destruct (Hinv (lit "Confused")) as (a3 & H3 & B3). fold x3 in H3.
  destruct (Hinv (lit "Frustrated")) as (a4 & H4 & B4). fold x4 in H4.
  destruct (Hinv (lit "Sad")) as (a5 & H5 & B5). fold x5 in H5.
  destruct (ltb (Finite 0) total) eqn:Hpos.
  - destruct (normalized_five x1 x2 x3 x4 x5 a1 a2 a3 a4 a5
                H1 H2 H3 H4 H5 B1 B2 B3 B4 B5 Hpos)
      as (s1 & s2 & s3 & s4 & s5 & s & D1 & D2 & D3 & D4 & D5
          & (P1 & P2 & P3 & P4 & P5) & Lo & Hi & Hs & Los & His).
    fold total in D1, D2, D3, D4, D5.
    rewrite (normalize_dist64 total _ _ _ _ _ _ _ _ _ _ D1 D2 D3 D4 D5).
    change (Ret ?x ≫= ?k) with (k x). cbv beta.
    destruct (py_max_by_value_first64
                (lit "Happy", Finite s1)
                [(lit "Neutral", Finite s2); (lit "Confused", Finite s3);
                 (lit "Frustrated", Finite s4); (lit "Sad", Finite s5)])
      as (m & before & after & Hm & Hsplit & Hb & Ha).
    { repeat constructor; by eexists. }
    change [(lit "Happy", Finite s1); (lit "Neutral", Finite s2);
            (lit "Confused", Finite s3); (lit "Frustrated", Finite s4);
            (lit "Sad", Finite s5)]
      with (dist64 (Finite s1) (Finite s2) (Finite s3) (Finite s4) (Finite s5))
      in Hm, Hsplit.
    exists (Finite s1), (Finite s2), (Finite s3), (Finite s4), (Finite s5),
           m, before, after.
    rewrite Hm.
    change (Ret ?x ≫= ?k) with (k x). cbv beta.
    split; [done|]. split; [exact Hsplit|]. split; [done|]. split; [done|].
    split; [repeat constructor; by eexists|].
    split; [|done].
    intros _. unfold truediv. rewrite D1, D2, D3, D4, D5.
    repeat (split; [done|]).
    unfold exact_sum. cbn [List.map fold_right float_value].
    split; [lra|]. split; [lra|]. by exists s.
  - change (Ret ?x ≫= ?k) with (k x). cbv beta.
    destruct (py_sum_five _ _ _ _ _ _ _ _ _ _ H1 H2 H3 H4 H5 B1 B2 B3 B4 B5)
      as (t & Ht & Lt & Ut).
    fold total in Ht.
    assert (Htz : t <= 0).
    { apply (ltb_nonneg (Finite 0) total 0 t nonneg_value_0 Ht). exact Hpos. }
    pose proof H1 as (E1 & P1 & _ & Z1). pose proof H2 as (E2 & P2 & _ & Z2).
    pose proof H3 as (E3 & P3 & _ & Z3). pose proof H4 as (E4 & P4 & _ & Z4).
    pose proof H5 as (E5 & P5 & _ & Z5).
    pose proof Ht as (Et & Pt & _ & Zt).
    assert (a1 = 0) as -> by (apply Z1; lra).
    assert (a2 = 0) as -> by (apply Z2; lra).
    assert (a3 = 0) as -> by (apply Z3; lra).
    assert (a4 = 0) as -> by (apply Z4; lra).
    assert (a5 = 0) as -> by (apply Z5; lra).
    assert (t = 0) as -> by (apply Zt; lra).
    destruct (py_max_by_value_first64
                (lit "Happy", x1)
                [(lit "Neutral", x2); (lit "Confused", x3);
                 (lit "Frustrated", x4); (lit "Sad", x5)])
      as (m & before & after & Hm & Hsplit & Hb & Ha).
    { rewrite E1, E2, E3, E4, E5. repeat constructor; by eexists. }
    change [(lit "Happy", x1); (lit "Neutral", x2); (lit "Confused", x3);
            (lit "Frustrated", x4); (lit "Sad", x5)]
      with (dist64 x1 x2 x3 x4 x5) in Hm, Hsplit.
    exists x1, x2, x3, x4, x5, m, before, after.
    rewrite Hm.
    change (Ret ?x ≫= ?k) with (k x). cbv beta.
    split; [done|]. split; [exact Hsplit|]. split; [done|]. split; [done|].
    split.
    { rewrite E1, E2, E3, E4, E5. repeat constructor; eexists; split; done. }
    split; [done|].
    intros _. repeat (split; [done|]).
    intros target.
    destruct (bool_decide (In target EmotionDetector.TARGET_EMOTIONS)) eqn:E;
      [|right; by apply bool_decide_eq_false in E].
    apply bool_decide_eq_true in E. left.
    cbn in E.
    destruct E as [<- | [<- | [<- | [<- | [<- | []]]]]]; done.
Qed.

(** C2. For predictions whose scores are binary64 values between 0 and 1,
    the classifier, computed in binary64 arithmetic as Python does,
    - maps the seven native labels by the fixed table,
    - gives each of the five labels, in the order Happy, Neutral, Confused,
      Frustrated, Sad, the float sum of the scores mapped to it, divided by
      the float total when that is positive; the five values are then
      finite and not negative, and they sum to 1 within 1e-6, both exactly
      and as [sum] adds them,
    - leaves all five at 0.0 when the total is not positive, which is when
      each of the five sums is 0.0,
    - returns as [(label, confidence)] the first entry, in that order, whose
      float_value no other entry exceeds. *)
Theorem classify_remaps_normalizes_first_max
    (pipeline : str -> outcome (list (list prediction))) (text : str)
    (predictions : list prediction) (others : list (list prediction)) :
  pipeline text = Ret (predictions :: others) ->
  Forall (fun p => probability (pred_score p)) predictions ->
  List.map target_of
    [lit "joy"; lit "neutral"; lit "surprise"; lit "anger"; lit "sadness";
     lit "fear"; lit "disgust"]
  = [lit "Happy"; lit "Neutral"; lit "Confused"; lit "Frustrated"; lit "Sad";
     lit "Confused"; lit "Frustrated"]
  /\ exists r : EmotionResult,
       fst (_detect_with_hf_model pipeline text) = Ret r
       /\ PyDict.keys (scores r) = EmotionDetector.TARGET_EMOTIONS
       /\ Forall (fun kv => exists q, snd kv = Finite q /\ 0 <= q) (scores r)
       /\ (ltb (Finite 0) (raw_total64 predictions) = true ->
           (forall t v, PyDict.get t (scores r) = Some v ->
              truediv (raw_score64 predictions t) (raw_total64 predictions)
              = Ret v)
           /\ 1 - tolerance <= exact_sum (PyDict.values (scores r))
           /\ exact_sum (PyDict.values (scores r)) <= 1 + tolerance
           /\ exists s, py_sum (PyDict.values (scores r)) = Finite s
                        /\ 1 - tolerance <= s /\ s <= 1 + tolerance)
       /\ (ltb (Finite 0) (raw_total64 predictions) = false ->
           raw_total64 predictions = Finite 0
           /\ (forall t, In t EmotionDetector.TARGET_EMOTIONS ->
                 raw_score64 predictions t = Finite 0)
           /\ scores r = List.map (fun e => (e, Finite 0))
                                  EmotionDetector.TARGET_EMOTIONS)
       /\ exists before after : list (str * float),
            scores r = before ++ (label r, confidence r) :: after
            /\ Forall (fun kv => ltb (snd kv) (confidence r) = true) before
            /\ Forall (fun kv => ltb (confidence r) (snd kv) = false) after.
Proof.
  intros Hpipe Hprob. split; [reflexivity|].
  unfold _detect_with_hf_model. cbn [fst]. rewrite Hpipe.
  change (out ← Ret (predictions :: others); index out 0%nat)
    with (Ret (A:=list prediction) predictions).
  change (predictions0 ← Ret predictions; remap_and_normalize predictions0)
    with (remap_and_normalize predictions).
  destruct (remap_and_normalize64_shape predictions Hprob)
    as (y1 & y2 & y3 & y4 & y5 & [l q] & before & after
        & Hr & Hsplit & Hb & Ha & Hfin & Hpos & Hzero).
  rewrite Hr. eexists. split; [reflexivity|].
  cbn [label confidence scores fst snd] in *.
  split; [reflexivity|]. split; [exact Hfin|].
  split; [|split].
  - intros Ht. destruct (Hpos Ht) as (D1 & D2 & D3 & D4 & D5 & Lo & Hi & Hs).
    split; [|done].
    intros t v Hget. apply get_dist64 in Hget.
    destruct Hget as [[-> ->] | [[-> ->] | [[-> ->] | [[-> ->] | [-> ->]]]]];
      done.
  - intros Ht.
    destruct (Hzero Ht) as (Htot & -> & -> & -> & -> & -> & Hall).
    split; [done|]. split; [|done].
    intros t Hin. by destruct (Hall t).
  - by exists before, after.
Qed.

End Classifier64Theorem.

(* ===================================================================== *)
(** * The line protocol of the two reply parsers *)
(* ===================================================================== *)

Section ProtocolFacts.

(** A line that begins with a marker has a second part after the first
    colon, so [line.split(':', 1)[1]] does not raise. *)
Lemma marker_split (word line : str) :
  Forall (fun c => c <> colon) word ->
  startswith (word ++ [colon]) line = true ->
  index (split1 colon line) 1 = Ret (drop (length (word ++ [colon])) line).
Proof.
  intros Hword Hsw. apply startswith_inv in Hsw.
  set (rest := drop (length (word ++ [colon])) line) in *.
  rewrite Hsw, <- app_assoc. simpl.
  by rewrite (split1_prefix colon word rest Hword).
Qed.

Lemma emotion_split (line : str) :
  startswith EMOTION_ line = true ->
  index (split1 colon line) 1 = Ret (drop (length EMOTION_) line).
Proof.
  apply (marker_split (lit "EMOTION")). repeat constructor; done.
Qed.

Lemma confidence_split (line : str) :
  startswith CONFIDENCE_ line = true ->
  index (split1 colon line) 1 = Ret (drop (length CONFIDENCE_) line).
Proof.
  apply (marker_split (lit "CONFIDENCE")). repeat constructor; done.
Qed.

Lemma response_split (line : str) :
  startswith RESPONSE_ line = true ->
  index (split1 colon line) 1 = Ret (drop (length RESPONSE_) line).
Proof.
  apply (marker_split (lit "RESPONSE")). repeat constructor; done.
Qed.

(** Two markers with different first letters never both match. *)
Lemma startswith_exclusive (a b : N) (p q line : str) :
  a <> b ->
  startswith (a :: p) line = true -> startswith (b :: q) line = false.
Proof.
  intros Hab. destruct line as [|c line]; simpl; [done|].
  intros [Hac _]%andb_prop. apply N.eqb_eq in Hac. subst c.
  apply N.eqb_neq in Hab. rewrite N.eqb_sym in Hab. by rewrite Hab.
Qed.

Lemma emotion_not_confidence (line : str) :
  startswith EMOTION_ line = true -> startswith CONFIDENCE_ line = false.
Proof. exact (startswith_exclusive 69 67 _ _ line ltac:(done)). Qed.

Lemma confidence_not_emotion (line : str) :
  startswith CONFIDENCE_ line = true -> startswith EMOTION_ line = false.
Proof. exact (startswith_exclusive 67 69 _ _ line ltac:(done)). Qed.

Lemma response_not_emotion (line : str) :
  startswith RESPONSE_ line = true -> startswith EMOTION_ line = false.
Proof. exact (startswith_exclusive 82 69 _ _ line ltac:(done)). Qed.

Lemma response_not_confidence (line : str) :
  startswith RESPONSE_ line = true -> startswith CONFIDENCE_ line = false.
Proof. exact (startswith_exclusive 82 67 _ _ line ltac:(done)). Qed.


End ProtocolFacts.

(* ===================================================================== *)
(** * The remote fallback *)
(* ===================================================================== *)

Section RemoteFacts.

Import EmotionDetector.
#[local] Open Scope Q_scope.
Context `{Builtins}.

Lemma parse_line_emotion (l0 : str) (c0 : Q) (line : str) :
  startswith EMOTION_ line = true ->
  parse_line (l0, c0) line = Ret (field_after EMOTION_ line, c0).
Proof.
  intros Hsw. unfold parse_line. fold EMOTION_. rewrite Hsw.
  by rewrite (emotion_split line Hsw).
Qed.

Lemma parse_line_confidence (l0 : str) (c0 : Q) (line : str) :
  startswith CONFIDENCE_ line = true ->
  parse_line (l0, c0) line =
  Ret (l0, match py_float (field_after CONFIDENCE_ line) with
           | Some q => q
           | None => 0.5
           end).
Proof.
  intros Hsw. unfold parse_line. fold EMOTION_ CONFIDENCE_.
  rewrite (confidence_not_emotion line Hsw), Hsw.
  rewrite (confidence_split line Hsw). unfold float_of, field_after. simpl.
  by destruct (py_float _).
Qed.

Lemma parse_line_other (st : str * Q) (line : str) :
  startswith EMOTION_ line = false ->
  startswith CONFIDENCE_ line = false ->
  parse_line st line = Ret st.
Proof.
  intros He Hc. unfold parse_line. fold EMOTION_ CONFIDENCE_.
  destruct st. by rewrite He, Hc.
Qed.

(** The loop over the reply lines never raises; it ends with the reported
    label and confidence. *)
Lemma parse_lines_result (lines : list str) :
  forall (l0 : str) (c0 : Q),
    for_each parse_line lines (l0, c0) =
    Ret (reported_label l0 lines, reported_confidence c0 lines).
Proof.
  unfold reported_label, reported_confidence, last_field.
  induction lines as [|line lines IH]; intros l0 c0; [done|].
  cbn [for_each last_line option_map].
  destruct (startswith EMOTION_ line) eqn:He.
  - rewrite (parse_line_emotion _ _ _ He). simpl obind. rewrite IH.
    rewrite (emotion_not_confidence line He).
    destruct (last_line EMOTION_ lines), (last_line CONFIDENCE_ lines); done.
  - destruct (startswith CONFIDENCE_ line) eqn:Hc.
    + rewrite (parse_line_confidence _ _ _ Hc). simpl obind. rewrite IH.
      destruct (last_line EMOTION_ lines), (last_line CONFIDENCE_ lines); done.
    + rewrite (parse_line_other _ _ He Hc). simpl obind. rewrite IH.
      destruct (last_line EMOTION_ lines), (last_line CONFIDENCE_ lines); done.
Qed.

Lemma is_target_In (x : str) : is_target x = true <-> In x TARGET_EMOTIONS.
Proof.
  unfold is_target. rewrite existsb_exists. split.
  - intros (y & Hy & Heq). apply eqb_true in Heq. by subst.
  - intros Hx. exists x. split; [done | apply eqb_refl].
Qed.



Lemma validated_is_target (l : str) : is_target (validated l) = true.
Proof. unfold validated. destruct (is_target l) eqn:E; [exact E | reflexivity]. Qed.

(** The parse of a reply never raises, and this is its result. *)
Lemma parse_gemini_reply_result (reply : str) :
  parse_gemini_reply reply =
  Ret {| label := validated (reported_label (lit "Neutral")
                                            (split nl (strip reply)));
         confidence := reported_confidence 0.5 (split nl (strip reply));
         scores :=
           PyDict.set
             (validated (reported_label (lit "Neutral")
                                        (split nl (strip reply))))
             (reported_confidence 0.5 (split nl (strip reply)))
             (List.map
                (fun e => (e, (1 - reported_confidence 0.5
                                      (split nl (strip reply))) / 4))
                TARGET_EMOTIONS) |}.
Proof.
  unfold parse_gemini_reply. cbv zeta. by rewrite parse_lines_result.
Qed.


End RemoteFacts.

(* ===================================================================== *)
(** * The orchestrator [detect_emotion] *)
(* ===================================================================== *)

Section OrchestratorFacts.

Import EmotionDetector.
#[local] Open Scope Q_scope.
Context `{Builtins}.

Lemma _detect_with_gemini_Some (self : t) (text : str) (r : EmotionResult) :
  fst (_detect_with_gemini self text) = Some r ->
  exists generate reply,
    gemini_model self = Some generate
    /\ generate (gemini_prompt text) = Ret reply
    /\ parse_gemini_reply reply = Ret r.
Proof.
  unfold _detect_with_gemini.
  destruct (gemini_model self) as [generate|]; [|done].
  cbn [fst]. destruct (generate (gemini_prompt text)) as [reply|] eqn:Hg;
    [|done].
  change (Ret reply ≫= ?k) with (k reply). cbv beta.
  destruct (parse_gemini_reply reply) as [r'|] eqn:Hr; [|done].
  cbn. intros [= <-]. by exists generate, reply.
Qed.

Lemma _detect_with_hf_model_Ret
    (pipeline : str -> outcome (list (list prediction))) (text : str)
    (r : EmotionResult) :
  fst (_detect_with_hf_model pipeline text) = Ret r ->
  exists predictions others,
    pipeline text = Ret (predictions :: others)
    /\ remap_and_normalize predictions = Ret r.
Proof.
  unfold _detect_with_hf_model. cbn [fst].
  destruct (pipeline text) as [[|predictions others]|]; [done| |done].
  intros Hr. by exists predictions, others.
Qed.

(** Where a result of [detect_emotion] comes from. *)
Lemma detect_emotion_sources (self : t) (text : str) (r : EmotionResult) :
  fst (detect_emotion self text) = Some r ->
  r = _default_emotion
  \/ (exists pipeline predictions others,
        emotion_pipeline self = Some pipeline
        /\ pipeline text = Ret (predictions :: others)
        /\ remap_and_normalize predictions = Ret r)
  \/ (exists generate reply,
        gemini_model self = Some generate
        /\ generate (gemini_prompt text) = Ret reply
        /\ parse_gemini_reply reply = Ret r).
Proof.
  unfold detect_emotion.
  destruct (PyStr.eqb text [] || PyStr.eqb (strip text) []);
    [cbn; intros [= <-]; by left|].
  assert (Honly : forall log,
    fst (if use_gemini_fallback self
            && bool_decide (is_Some (gemini_model self))
         then let '(r0, log') := _detect_with_gemini self text in
              (r0, log ++ log')
         else (Some _default_emotion, log)) = Some r ->
    r = _default_emotion
    \/ (exists generate reply,
          gemini_model self = Some generate
          /\ generate (gemini_prompt text) = Ret reply
          /\ parse_gemini_reply reply = Ret r)).
  { intros log.
    destruct (use_gemini_fallback self
              && bool_decide (is_Some (gemini_model self))).
    - destruct (_detect_with_gemini self text) as [r0 log'] eqn:Hg.
      cbn. intros ->. right. apply _detect_with_gemini_Some. by rewrite Hg.
    - cbn. intros [= <-]. by left. }
  destruct (emotion_pipeline self) as [pipeline|].
  - destruct (_detect_with_hf_model pipeline text) as [[result|e] log] eqn:Hhf.
    + assert (Hlocal : exists predictions others,
                 pipeline text = Ret (predictions :: others)
                 /\ remap_and_normalize predictions = Ret result).
      { apply _detect_with_hf_model_Ret. by rewrite Hhf. }
      destruct Hlocal as (ps & os & Hp & Hr).
      destruct (Qltb (confidence result) (confidence_threshold self)
                && use_gemini_fallback self).
      * destruct (_detect_with_gemini self text) as [[g|] log'] eqn:Hg.
        -- cbn. intros [= <-]. right. right.
           apply _detect_with_gemini_Some. by rewrite Hg.
        -- cbn. intros [= <-]. right. left. by exists pipeline, ps, os.
      * cbn. intros [= <-]. right. left. by exists pipeline, ps, os.
    + intros Hr. destruct (Honly log Hr) as [-> | Hg]; auto.
  - intros Hr. destruct (Honly [] Hr) as [-> | Hg]; auto.
Qed.

(** Whenever [detect_emotion] returns a result, its label is one of the
    five. *)
Lemma detect_emotion_label_target (self : t) (text : str) (r : EmotionResult) :
  fst (detect_emotion self text) = Some r -> is_target (label r) = true.
Proof.
  intros Hr.
  destruct (detect_emotion_sources self text r Hr)
    as [-> | [(p & ps & os & _ & _ & Hl) | (g & reply & _ & _ & Hg)]].
  - reflexivity.
  - destruct (remap_and_normalize_target ps) as (r' & Hr' & Ht).
    rewrite Hl in Hr'. by injection Hr' as ->.
  - rewrite parse_gemini_reply_result in Hg. injection Hg as <-.
    apply validated_is_target.
Qed.


End OrchestratorFacts.

Section OrchestratorTheorems.

Import EmotionDetector.
#[local] Open Scope Q_scope.


(** C9 (as amended). For every empty or whitespace-only message,
    [detect_emotion] returns the default result and calls no model; the
    default result has label Neutral, confidence 1, and scores 1 for
    Neutral and 0 for each of the other four labels.  The classifier
    [_detect_with_hf_model] has no such guard: on the same message it calls
    the pipeline, once, and returns what the predictions give. *)
Theorem blank_input_returns_default `{Builtins} (self : t) (user_message : str) :
  forallb isspace user_message = true ->
  detect_emotion self user_message = (Some _default_emotion, [])
  /\ label _default_emotion = lit "Neutral"
  /\ confidence _default_emotion == 1
  /\ PyDict.keys (scores _default_emotion) = TARGET_EMOTIONS
  /\ (forall e v, PyDict.get e (scores _default_emotion) = Some v ->
        v == (if PyStr.eqb e (lit "Neutral") then 1 else 0))
  /\ (forall pipeline,
        snd (_detect_with_hf_model pipeline user_message)
        = [PipelineCall user_message])
  /\ (forall pipeline predictions others,
        pipeline user_message = Ret (predictions :: others) ->
        fst (_detect_with_hf_model pipeline user_message)
        = remap_and_normalize predictions)
  /\ (forall pipeline e,
        pipeline user_message = Raise e ->
        fst (_detect_with_hf_model pipeline user_message) = Raise e).
Proof.
  intros Hblank.
  split; [|split; [done|split; [done|split; [done|split; [|split; [done|]]]]]].
  - unfold detect_emotion. rewrite (strip_all_space _ Hblank).
    by rewrite eqb_refl, orb_true_r.
  - intros e v. change (scores _default_emotion) with (dist 0.0 1.0 0.0 0.0 0.0).
    intros Hget. apply get_dist in Hget.
    destruct Hget as [[-> ->] | [[-> ->] | [[-> ->] | [[-> ->] | [-> ->]]]]];
      reflexivity.
  - split.
    + intros pipeline predictions others Hp.
      unfold _detect_with_hf_model. cbn [fst]. by rewrite Hp.
    + intros pipeline e Hp.
      unfold _detect_with_hf_model. cbn [fst]. by rewrite Hp.
Qed.

(** C1 (the code departs from it). When the local model is unavailable and
    the remote model is configured but its call fails, [detect_emotion]
    makes the one remote call and returns [None] instead of the default
    Neutral result. *)
Theorem detect_emotion_none_when_remote_fails `{Builtins} (e1 e2 : exn)
    (user_message : str) :
  strip user_message <> [] ->
  detect_emotion (detector_without_models e1 e2) user_message
  = (None, [GenerateCall (gemini_prompt user_message)]).
Proof.
  intros Hne. unfold detect_emotion.
  assert (Hne' : user_message <> []) by (intros ->; by apply Hne).
  apply eqb_false in Hne, Hne'. rewrite Hne, Hne'. reflexivity.
Qed.


End OrchestratorTheorems.

(* ===================================================================== *)
(** * The combined reply parser of [generate] *)
(* ===================================================================== *)

Section CombinedParserFacts.

Import ResponseGenerator.
#[local] Open Scope Q_scope.
Context `{Builtins}.

Lemma rg_parse_line_step (st : parse_state) (line : str) :
  parse_line st line =
  Ret {| emotion_label :=
           if startswith EMOTION_ line
           then mapped (field_after EMOTION_ line)
           else emotion_label st;
         emotion_confidence :=
           if startswith CONFIDENCE_ line
           then match py_float (field_after CONFIDENCE_ line) with
                | Some q => q
                | None => 0.5
                end
           else emotion_confidence st;
         response_text := next_response (response_text st) line |}.
Proof.
  unfold parse_line, next_response. fold EMOTION_ CONFIDENCE_ RESPONSE_.
  destruct (startswith EMOTION_ line) eqn:He.
  - rewrite (emotion_split line He), (emotion_not_confidence line He). done.
  - destruct (startswith CONFIDENCE_ line) eqn:Hc.
    + rewrite (confidence_split line Hc). unfold float_of, field_after.
      cbn [orb obind mbind outcome_bind]. unfold mbind, outcome_bind. simpl obind.
      by destruct (py_float _).
    + destruct (startswith RESPONSE_ line) eqn:Hr.
      * by rewrite (response_split line Hr).
      * cbn [orb]. destruct st as [l c r]. cbn.
        by destruct (PyStr.eqb r []).
Qed.

(** The loop never raises; this is the state it ends in. *)
Lemma rg_parse_lines_result (lines : list str) :
  forall st : parse_state,
    for_each parse_line lines st =
    Ret {| emotion_label :=
             default (emotion_label st)
                     (option_map mapped (last_field EMOTION_ lines));
           emotion_confidence :=
             reported_confidence (emotion_confidence st) lines;
           response_text := collect (response_text st) lines |}.
Proof.
  unfold reported_confidence, last_field, collect.
  induction lines as [|line lines IH]; intros st; [by destruct st|].
  cbn [for_each last_line option_map fold_left].
  rewrite rg_parse_line_step. cbn [obind]. rewrite IH.
  cbn [emotion_label emotion_confidence response_text].
  destruct (last_line EMOTION_ lines), (last_line CONFIDENCE_ lines);
    cbn [option_map default]; try done;
    destruct (startswith EMOTION_ line) eqn:He;
    destruct (startswith CONFIDENCE_ line) eqn:Hc; try done;
    by rewrite (emotion_not_confidence line He) in Hc.
Qed.

(** What [parse_reply] returns. *)
Lemma parse_reply_result (language : str) (should_request_rating : bool)
    (text : str) :
  parse_reply language should_request_rating text =
  Ret (strip ((if PyStr.eqb (collect [] (split nl (strip text))) []
               then strip text
               else collect [] (split nl (strip text)))
              ++ rating_suffix language should_request_rating),
       default (lit "Neutral")
               (option_map mapped (last_field EMOTION_ (split nl (strip text)))),
       reported_confidence 0.0 (split nl (strip text)),
       should_request_rating).
Proof.
  unfold parse_reply. cbv zeta. rewrite rg_parse_lines_result.
  change (Ret ?x ≫= ?k) with (k x). cbv beta.
  cbn [emotion_label emotion_confidence response_text initial_state].
  unfold rating_suffix.
  destruct should_request_rating; [|by rewrite app_nil_r].
  by destruct (PyStr.eqb language (lit "ar")).
Qed.

End CombinedParserFacts.

Section ResponseAccumulation.

Import ResponseGenerator.

Lemma next_response_marker_free (line : str) :
  startswith RESPONSE_ line = false -> next_response [] line = [].
Proof.
  intros Hr. unfold next_response. rewrite Hr.
  by destruct (startswith EMOTION_ line || startswith CONFIDENCE_ line).
Qed.

(** Without a [RESPONSE:] line nothing is ever gathered. *)
Lemma collect_no_response (lines : list str) :
  Forall (fun l => startswith RESPONSE_ l = false) lines ->
  collect [] lines = [].
Proof.
  unfold collect. induction 1 as [|l ls Hl Hls IH]; [done|].
  cbn [fold_left]. by rewrite (next_response_marker_free l Hl).
Qed.

(** After a non-empty start, every plain line is appended after a newline. *)
Lemma collect_plain (post : list str) :
  forall acc : str,
    acc <> [] -> Forall plain_line post ->
    collect acc post = acc ++ concat (List.map (cons nl) post).
Proof.
  unfold collect. induction post as [|l post IH]; intros acc Hacc Hpost.
  - by rewrite app_nil_r.
  - inversion Hpost as [|? ? (He & Hc & Hr) Hpost']; subst.
    cbn [fold_left List.map concat]. unfold next_response at 2.
    rewrite He, Hc, Hr. cbn [orb].
    apply eqb_false in Hacc. rewrite Hacc.
    rewrite IH; [|by destruct acc|done].
    by rewrite <- app_assoc.
Qed.

(** After a non-empty start, a line that begins with [EMOTION:] or
    [CONFIDENCE:] is passed over and every other line is appended. *)
Lemma collect_appended (post : list str) :
  forall acc : str,
    acc <> [] ->
    Forall (fun l => startswith RESPONSE_ l = false) post ->
    collect acc post = acc ++ concat (List.map (cons nl) (appended_lines post)).
Proof.
  unfold collect, appended_lines, label_or_confidence_line.
  induction post as [|l post IH]; intros acc Hacc Hpost.
  - by rewrite app_nil_r.
  - inversion Hpost as [|? ? Hr Hpost']; subst.
    cbn [fold_left List.filter]. unfold next_response at 2. rewrite Hr.
    destruct (startswith EMOTION_ l || startswith CONFIDENCE_ l);
      cbn [negb]; [by apply IH|].
    apply eqb_false in Hacc. rewrite Hacc.
    rewrite IH; [|by destruct acc|done].
    cbn [List.map concat]. by rewrite <- app_assoc.
Qed.

Lemma appended_lines_plain (post : list str) :
  Forall plain_line post -> appended_lines post = post.
Proof.
  unfold appended_lines, label_or_confidence_line.
  induction 1 as [|l post (He & Hc & _) _ IH]; [done|].
  cbn [List.filter]. rewrite He, Hc. cbn [orb negb]. by rewrite IH.
Qed.

Lemma collect_response_line (acc : str) (pre post : list str) (r : str) :
  startswith RESPONSE_ r = true ->
  collect acc (pre ++ r :: post) = collect (field_after RESPONSE_ r) post.
Proof.
  intros Hr. unfold collect. rewrite fold_left_app. cbn [fold_left].
  unfold next_response at 2.
  by rewrite (response_not_emotion r Hr), (response_not_confidence r Hr), Hr.
Qed.

(** The gathered text never begins with whitespace. *)
Lemma next_response_clean_head (acc line : str) :
  clean_head acc -> clean_head (next_response acc line).
Proof.
  intros Hacc. unfold next_response.
  destruct (startswith EMOTION_ line || startswith CONFIDENCE_ line); [done|].
  destruct (startswith RESPONSE_ line); [apply strip_clean_head|].
  destruct (PyStr.eqb acc []) eqn:E; [done|].
  apply eqb_false in E. by destruct acc.
Qed.

Lemma collect_clean_head (lines : list str) :
  forall acc : str, clean_head acc -> clean_head (collect acc lines).
Proof.
  unfold collect. induction lines as [|l ls IH]; intros acc Hacc; [done|].
  cbn [fold_left]. by apply IH, next_response_clean_head.
Qed.

Lemma strip_app_nonempty (body suffix : str) :
  body <> [] -> clean_head body -> strip (body ++ suffix) <> [].
Proof.
  destruct body as [|c body]; [done|]. intros _ Hc. by apply strip_nonempty.
Qed.

End ResponseAccumulation.

Section CombinedParserTheorems.

Import ResponseGenerator.
#[local] Open Scope Q_scope.

(** C3 (as amended). The reply is stripped and cut into lines.  When no
    line begins with [RESPONSE:], the response is the whole stripped reply.
    Otherwise the last line that begins with [RESPONSE:] decides, and what
    was gathered before it is dropped.  When that line has text after the
    marker, the response is that text followed, each after a newline, by
    the later lines that begin with neither [EMOTION:] nor [CONFIDENCE:]:
    a later line that begins with one of these is read as that marker and
    is not appended.  When that line has no text after the marker, nothing
    is gathered and the response is the whole stripped reply.  In every
    case the rating request, if any, is appended and the result is
    stripped.  The response is not empty when the reply has a character
    that is not whitespace.  The well-formed reply
    [EMOTION: Sad / CONFIDENCE: 0.7 / RESPONSE: line1 / line2] gives the
    response [line1\nline2], the label Sad and the confidence that
    [float("0.7")] returns. *)
Theorem response_extraction `{Builtins} (language : str)
    (should_request_rating : bool) (text : str) :
  (exists resp label conf,
     parse_reply language should_request_rating text
       = Ret (resp, label, conf, should_request_rating)
     /\ (Forall (fun l => startswith RESPONSE_ l = false)
                (split nl (strip text)) ->
         resp = strip (strip text
                       ++ rating_suffix language should_request_rating)
         /\ (should_request_rating = false -> resp = strip text))
     /\ (forall pre r post,
           split nl (strip text) = pre ++ r :: post ->
           startswith RESPONSE_ r = true ->
           Forall (fun l => startswith RESPONSE_ l = false) post ->
           (field_after RESPONSE_ r <> [] ->
            resp = strip ((field_after RESPONSE_ r
                           ++ concat (List.map (cons nl) (appended_lines post)))
                          ++ rating_suffix language should_request_rating))
           /\ (field_after RESPONSE_ r = [] ->
               resp = strip (strip text
                             ++ rating_suffix language should_request_rating))
           /\ (Forall plain_line post -> appended_lines post = post)
           /\ (forall l, In l post -> label_or_confidence_line l = true ->
                 ~ In l (appended_lines post)))
     /\ (strip text <> [] -> resp <> []))
  /\ rating_suffix language false = []
  /\ (forall q, py_float (lit "0.7") = Some q ->
        parse_reply language false well_formed_reply
        = Ret (unlines [lit "line1"; lit "line2"], lit "Sad", q, false)).
Proof.
  split; [|split; [done|]].
  - rewrite parse_reply_result. eexists _, _, _. split; [reflexivity|].
    set (lines := split nl (strip text)).
    split; [|split].
    + intros Hnone. rewrite (collect_no_response lines Hnone), eqb_refl.
      split; [done|]. intros ->. cbn [rating_suffix].
      by rewrite app_nil_r, strip_idempotent.
    + intros pre r post Hlines Hr Hpost. rewrite Hlines.
      rewrite (collect_response_line [] pre post r Hr).
      split; [|split; [|split]].
      * intros Hfield. rewrite (collect_appended post _ Hfield Hpost).
        assert (Hne : field_after RESPONSE_ r
                      ++ concat (List.map (cons nl) (appended_lines post))
                      <> []).
        { intros Heq. apply app_eq_nil in Heq. by destruct Heq. }
        apply eqb_false in Hne. by rewrite Hne.
      * intros ->. by rewrite (collect_no_response post Hpost), eqb_refl.
      * apply appended_lines_plain.
      * intros l _ Hl Hin. unfold appended_lines in Hin.
        apply List.filter_In in Hin as [_ Hin]. by rewrite Hl in Hin.
    + intros Htext. apply strip_app_nonempty.
      * destruct (PyStr.eqb (collect [] lines) []) eqn:E; [done|].
        by apply eqb_false in E.
      * destruct (PyStr.eqb (collect [] lines) []);
          [apply strip_clean_head | by apply collect_clean_head].
  - intros q Hq. rewrite parse_reply_result.
    assert (Hlines : split nl (strip well_formed_reply)
                     = [lit "EMOTION: Sad"; lit "CONFIDENCE: 0.7";
                        lit "RESPONSE: line1"; lit "line2"])
      by reflexivity.
    rewrite Hlines. unfold reported_confidence.
    assert (Hc : last_field CONFIDENCE_
                   [lit "EMOTION: Sad"; lit "CONFIDENCE: 0.7";
                    lit "RESPONSE: line1"; lit "line2"] = Some (lit "0.7"))
      by reflexivity.
    rewrite Hc, Hq. reflexivity.
Qed.

(** C4 (as amended). The label is Neutral when no line begins with
    [EMOTION:]; otherwise it is the stripped text of the last such line,
    replaced by the English label when it is one of the five Arabic names
    and kept as written when it is not (it is not checked against the five
    labels).  The confidence is 0.0 when no line begins with
    [CONFIDENCE:], the float on the last such line when it parses, and 0.5
    when it does not.  A reply without markers, [just some text], gives
    [(just some text, Neutral, 0.0)]. *)
Theorem label_and_confidence_extraction `{Builtins} (language : str)
    (should_request_rating : bool) (text : str) :
  (exists resp label conf,
     parse_reply language should_request_rating text
       = Ret (resp, label, conf, should_request_rating)
     /\ (last_field EMOTION_ (split nl (strip text)) = None ->
         label = lit "Neutral")
     /\ (forall l en,
           last_field EMOTION_ (split nl (strip text)) = Some l ->
           PyDict.get l emotion_map = Some en ->
           label = en /\ EmotionDetector.is_target en = true)
     /\ (forall l,
           last_field EMOTION_ (split nl (strip text)) = Some l ->
           PyDict.get l emotion_map = None -> label = l)
     /\ (last_field CONFIDENCE_ (split nl (strip text)) = None ->
         conf = 0.0)
     /\ (forall s q,
           last_field CONFIDENCE_ (split nl (strip text)) = Some s ->
           py_float s = Some q -> conf = q)
     /\ (forall s,
           last_field CONFIDENCE_ (split nl (strip text)) = Some s ->
           py_float s = None -> conf = 0.5))
  /\ parse_reply language false (lit "just some text")
     = Ret (lit "just some text", lit "Neutral", 0.0, false).
Proof.
  split; [|by rewrite parse_reply_result].
  rewrite parse_reply_result. eexists _, _, _. split; [reflexivity|].
  set (lines := split nl (strip text)).
  unfold reported_confidence, mapped, PyDict.get_default.
  split; [by intros ->|].
  split.
  { intros l en -> Hmap. cbn [option_map default]. rewrite Hmap.
    split; [done|]. revert Hmap. unfold emotion_map. cbn [PyDict.get].
    repeat match goal with
           | |- context [if PyStr.eqb l ?k then _ else _] =>
               destruct (PyStr.eqb l k)
           end; by intros [= <-]. }
  split.
  { intros l -> Hmap. cbn [option_map default]. by rewrite Hmap. }
  split; [by intros ->|].
  split; [by intros s q -> ->|].
  by intros s -> ->.
Qed.

End CombinedParserTheorems.

(* ===================================================================== *)
(** * The tone adapter *)
(* ===================================================================== *)

Section AdapterFacts.

Import EmotionResponseAdapter.
Context `{Builtins}.

Lemma session_truthy (ctx : context) (sid : str) :
  session_of ctx = Some sid -> truthy ctx = true /\ sid <> [].
Proof.
  unfold session_of, truthy. destruct ctx as [[|kv d]|]; try done.
  destruct (PyDict.get _ _) as [[|c s]|]; try done. by intros [= <-].
Qed.

Lemma session_None_falsy (ctx : context) :
  truthy ctx = false -> session_of ctx = None.
Proof. by destruct ctx as [[|kv d]|]. Qed.

Lemma _get_emotion_prompt_tracker (tracker : gmap str Z) (emotion : str)
    (ctx : context) :
  snd (_get_emotion_prompt tracker emotion ctx)
  = count_frustration tracker emotion ctx.
Proof.
  unfold _get_emotion_prompt, count_frustration. fold Frustrated.
  destruct (PyStr.eqb emotion Frustrated); [|done].
  destruct (truthy ctx) eqn:Ht; cbn [andb].
  - by destruct (session_of ctx).
  - by rewrite (session_None_falsy ctx Ht).
Qed.

(** Building the prompt never raises: the dictionary has the keys it is
    asked for. *)
Lemma _get_emotion_prompt_total (tracker : gmap str Z) (emotion : str)
    (ctx : context) :
  exists p, fst (_get_emotion_prompt tracker emotion ctx) = Ret p.
Proof.
  unfold _get_emotion_prompt.
  destruct (PyStr.eqb emotion (lit "Frustrated") && truthy ctx);
    [|by eexists].
  destruct (session_of ctx) as [sid|]; [|by eexists].
  destruct (2 <=? default 0 (tracker !! sid) + 1)%Z; by eexists.
Qed.

Lemma adjust_state (self : t) (emotion base user : str) (ctx : context) :
  snd (adjust_response_based_on_emotion self emotion base user ctx)
  = match gemini_model self with
    | None => self
    | Some _ =>
        {| gemini_model := gemini_model self;
           frustration_tracker :=
             count_frustration (frustration_tracker self) emotion ctx |}
    end.
Proof.
  unfold adjust_response_based_on_emotion.
  destruct (gemini_model self) as [g|]; [|done].
  rewrite <- _get_emotion_prompt_tracker.
  by destruct (_get_emotion_prompt _ _ _).
Qed.

Lemma level_count_frustration (tracker : gmap str Z) (emotion : str)
    (ctx : context) (sid : str) :
  default 0%Z (count_frustration tracker emotion ctx !! sid)
  = if PyStr.eqb emotion Frustrated && bool_decide (session_of ctx = Some sid)
    then (default 0 (tracker !! sid) + 1)%Z
    else default 0%Z (tracker !! sid).
Proof.
  unfold count_frustration.
  destruct (PyStr.eqb emotion Frustrated); [|done]. cbn [andb].
  destruct (session_of ctx) as [sid'|].
  - case_bool_decide as E.
    + injection E as ->. by rewrite lookup_insert_eq.
    + rewrite lookup_insert_ne; [done|]. intros ->. by apply E.
  - by case_bool_decide.
Qed.

End AdapterFacts.

Section AdapterTheorems.

Import EmotionResponseAdapter.
#[local] Open Scope Z_scope.

(** The enhancement step for a Frustrated user. *)
Lemma enhancements_frustrated `{Builtins} (tracker : gmap str Z)
    (answer user : str) (ctx : context) (sid : str) :
  session_of ctx = Some sid ->
  2 <= default 0 (tracker !! sid) ->
  contains (lit "contact") (py_lower answer) = false ->
  contains (lit "representative") (py_lower answer) = false ->
  _add_emotion_enhancements tracker answer Frustrated user ctx
  = Ret (answer ++ escalation_offer).
Proof.
  intros Hs Hlevel Hc Hr. unfold _add_emotion_enhancements.
  change (PyStr.eqb Frustrated (lit "Confused")) with false.
  change (PyStr.eqb Frustrated (lit "Frustrated")) with true.
  change (PyStr.eqb Frustrated (lit "Sad")) with false.
  cbn [andb]. change (Ret answer ≫= ?k) with (k answer). cbv beta.
  destruct (session_truthy ctx sid Hs) as [-> _]. rewrite Hs.
  apply Z.leb_le in Hlevel. rewrite Hlevel, Hc, Hr. done.
Qed.

(** C7. For a session whose counter reaches 2 or more in this call (it was
    at least 1 before), a Frustrated adaptation whose rewritten text
    mentions neither "contact" nor "representative" in any letter case
    returns the rewritten text followed by the escalation offer, and the
    returned text contains "contact". *)
Theorem repeated_frustration_gets_escalation_offer `{Builtins} (self : t)
    (generate : str -> outcome str) (base user : str) (ctx : context)
    (sid prompt reply : str) :
  gemini_model self = Some generate ->
  session_of ctx = Some sid ->
  1 <= get_frustration_level self sid ->
  fst (_get_emotion_prompt (frustration_tracker self) Frustrated ctx)
    = Ret prompt ->
  generate (full_prompt prompt user Frustrated base) = Ret reply ->
  contains (lit "contact") (py_lower (strip reply)) = false ->
  contains (lit "representative") (py_lower (strip reply)) = false ->
  fst (adjust_response_based_on_emotion self Frustrated base user ctx)
    = strip reply ++ escalation_offer
  /\ contains (lit "contact")
       (fst (adjust_response_based_on_emotion self Frustrated base user ctx))
     = true
  /\ 2 <= get_frustration_level
            (snd (adjust_response_based_on_emotion self Frustrated base user
                                                   ctx)) sid.
Proof.
  intros Hmodel Hs Hlevel Hprompt Hreply Hc Hr.
  assert (Hlevel' : 2 <= default 0
            (count_frustration (frustration_tracker self) Frustrated ctx
               !! sid)).
  { rewrite level_count_frustration. rewrite eqb_refl.
    rewrite bool_decide_eq_true_2 by done. cbn [andb].
    unfold get_frustration_level in Hlevel. lia. }
  assert (Htext :
    fst (adjust_response_based_on_emotion self Frustrated base user ctx)
    = strip reply ++ escalation_offer).
  { unfold adjust_response_based_on_emotion. rewrite Hmodel.
    pose proof (_get_emotion_prompt_tracker (frustration_tracker self)
                  Frustrated ctx) as Htr.
    destruct (_get_emotion_prompt (frustration_tracker self) Frustrated ctx)
      as [p tracker]. cbn [fst snd] in *. subst p tracker.
    change (Ret prompt ≫= ?k) with (k prompt). cbv beta. rewrite Hreply.
    change (Ret reply ≫= ?k) with (k reply). cbv beta.
    by rewrite (enhancements_frustrated _ _ _ _ sid Hs Hlevel' Hc Hr). }
  split; [exact Htext|]. split.
  - rewrite Htext. by apply contains_app_r.
  - rewrite adjust_state, Hmodel. exact Hlevel'.
Qed.

(** C6 (as amended). An adaptation never lowers a counter.  When a remote
    model is configured and the context carries a non-empty session id, a
    Frustrated adaptation raises that session's counter by exactly 1 (two
    in a row raise it by 2) and leaves every other session's counter
    alone.  An adaptation with any other emotion, Happy included, leaves
    the adapter unchanged. *)
Theorem frustration_counter_steps `{Builtins} (self : t)
    (emotion base user base' user' : str) (ctx : context) (sid : str) :
  get_frustration_level self sid
    <= get_frustration_level
         (snd (adjust_response_based_on_emotion self emotion base user ctx))
         sid
  /\ (is_Some (gemini_model self) -> session_of ctx = Some sid ->
      get_frustration_level
        (snd (adjust_response_based_on_emotion self Frustrated base user ctx))
        sid
      = get_frustration_level self sid + 1
      /\ get_frustration_level
           (snd (adjust_response_based_on_emotion
                   (snd (adjust_response_based_on_emotion self Frustrated base
                                                          user ctx))
                   Frustrated base' user' ctx))
           sid
         = get_frustration_level self sid + 2
      /\ forall other, other <> sid ->
           get_frustration_level
             (snd (adjust_response_based_on_emotion self Frustrated base user
                                                    ctx))
             other
           = get_frustration_level self other)
  /\ (emotion <> Frustrated ->
      snd (adjust_response_based_on_emotion self emotion base user ctx) = self)
  /\ snd (adjust_response_based_on_emotion self (lit "Happy") base user ctx)
     = self.
Proof.
  assert (Hother : forall e b u, e <> Frustrated ->
            snd (adjust_response_based_on_emotion self e b u ctx) = self).
  { intros e b u He. rewrite adjust_state.
    destruct self as [[g|] tracker]; cbn; [|done].
    unfold count_frustration. apply eqb_false in He. by rewrite He. }
  split; [|split; [|split; [apply Hother | by apply Hother]]].
  - rewrite adjust_state. destruct (gemini_model self); [|done].
    unfold get_frustration_level. cbn [frustration_tracker].
    rewrite level_count_frustration.
    destruct (_ && _); lia.
  - intros [g Hg] Hs. rewrite !adjust_state, Hg. cbn [gemini_model].
    unfold get_frustration_level. cbn [frustration_tracker].
    rewrite !level_count_frustration, eqb_refl.
    rewrite bool_decide_eq_true_2 by done. cbn [andb].
    split; [done|]. split; [lia|].
    intros other Hne. rewrite level_count_frustration.
    rewrite bool_decide_eq_false_2; [by rewrite andb_false_r|].
    rewrite Hs. intros [= ->]. by apply Hne.
Qed.

(** [reset_frustration_tracker] followed by [get_frustration_level] gives
    0. *)
Lemma reset_then_level (self : t) (sid : str) :
  get_frustration_level (reset_frustration_tracker self sid) sid = 0.
Proof.
  unfold get_frustration_level, reset_frustration_tracker.
  cbn [frustration_tracker]. by rewrite lookup_delete_eq.
Qed.

(** C10. Without a remote model the adapter returns the base answer as it
    is, for every emotion, and the adapter (so every session's counter) is
    unchanged. *)
Theorem unconfigured_adapter_returns_base_answer `{Builtins}
    (tracker : gmap str Z) (emotion base user : str) (ctx : context) :
  adjust_response_based_on_emotion
    {| gemini_model := None; frustration_tracker := tracker |}
    emotion base user ctx
  = (base, {| gemini_model := None; frustration_tracker := tracker |})
  /\ forall sid,
       get_frustration_level
         (snd (adjust_response_based_on_emotion
                 {| gemini_model := None; frustration_tracker := tracker |}
                 emotion base user ctx)) sid
       = default 0 (tracker !! sid).
Proof. done. Qed.

End AdapterTheorems.

(* ===================================================================== *)
(** * The theorems at concrete inputs *)
(* ===================================================================== *)

Lemma sample_predictions64_are_probabilities :
  Forall (fun p => probability (EmotionDetector64.pred_score p))
         sample_predictions64.
Proof.
  repeat constructor;
    (eexists; split; [vm_compute; reflexivity|];
     split; [vm_compute; reflexivity|]; split; by vm_compute).
Defined.

Lemma classify_witness :
  Forall (fun p => probability (EmotionDetector64.pred_score p))
         sample_predictions64
  /\ exists r,
       fst (EmotionDetector64._detect_with_hf_model
              sample_pipeline64 (lit "hello")) = Ret r
       /\ EmotionDetector64.label r = lit "Frustrated"
       /\ (1 - tolerance
           <= exact_sum (PyDict.values (EmotionDetector64.scores r)))%Q
       /\ (exact_sum (PyDict.values (EmotionDetector64.scores r))
           <= 1 + tolerance)%Q.
Proof.
  split; [exact sample_predictions64_are_probabilities|].
  destruct (classify_remaps_normalizes_first_max
              sample_pipeline64 (lit "hello")
              sample_predictions64 [] eq_refl
              sample_predictions64_are_probabilities)
    as (_ & r & Hr & _ & _ & Hpos & _).
  exists r. split; [exact Hr|]. split.
  - vm_compute in Hr. by injection Hr as <-.
  - destruct Hpos as (_ & Hlo & Hhi & _); [vm_compute; reflexivity|].
    exact (conj Hlo Hhi).
Defined.

(** Rounding can make a tie that the exact sums do not have: the mass of
    Confused, 0.5 + 2^-54, rounds to 0.5, and the first of the two equal
    entries wins. *)
Lemma rounding_makes_a_tie :
  fst (EmotionDetector64._detect_with_hf_model
         (fun _ => Ret [tie_predictions]) (lit "hello"))
  = Ret {| EmotionDetector64.label := lit "Happy";
           EmotionDetector64.confidence := PyFloat.Finite (1 # 2);
           EmotionDetector64.scores :=
             dist64 (PyFloat.Finite (1 # 2)) (PyFloat.Finite 0)
                    (PyFloat.Finite (1 # 2)) (PyFloat.Finite 0)
                    (PyFloat.Finite 0) |}.
Proof. vm_compute. reflexivity. Qed.

(** The normalized values need not sum to 1: here [sum] gives 1 + 2^-52,
    which Python prints as 1.0000000000000002. *)
Lemma float_sum_above_one :
  match fst (EmotionDetector64._detect_with_hf_model
               (fun _ => Ret [uneven_predictions]) (lit "hello")) with
  | Ret r =>
      EmotionDetector64.py_sum (PyDict.values (EmotionDetector64.scores r))
      = PyFloat.Finite (4503599627370497 # 4503599627370496)
  | Raise _ => False
  end.
Proof. vm_compute. reflexivity. Qed.

(** The operations agree with those of the Standard Library's [SpecFloat]
    (precision 53, maximal exponent 1024) on 0.1 and 0.2. *)
Lemma operations_agree_with_SpecFloat :
  PyFloat.of_spec spec_tenth = PyFloat.of_Q 0.1
  /\ PyFloat.of_spec spec_fifth = PyFloat.of_Q 0.2
  /\ PyFloat.of_spec (SFadd 53 1024 spec_tenth spec_fifth)
     = PyFloat.add (PyFloat.of_Q 0.1) (PyFloat.of_Q 0.2)
  /\ Some (PyFloat.of_spec (SFdiv 53 1024 spec_tenth spec_fifth))
     = PyFloat.div (PyFloat.of_Q 0.1) (PyFloat.of_Q 0.2)
  /\ Some (PyFloat.of_spec (SFdiv 53 1024 spec_fifth spec_tenth))
     = PyFloat.div (PyFloat.of_Q 0.2) (PyFloat.of_Q 0.1)
  /\ PyFloat.ltb (PyFloat.of_Q 0.1) (PyFloat.of_Q 0.2)
     = SFltb spec_tenth spec_fifth.
Proof. repeat split; vm_compute; reflexivity. Qed.


(** On a blank message the classifier calls the pipeline and returns the
    label its predictions give, not the default result. *)
Lemma classifier_does_not_guard_blank_input :
  forallb isspace blank_message = true
  /\ exists r,
       EmotionDetector._detect_with_hf_model sample_pipeline blank_message
       = (Ret r, [EmotionDetector.PipelineCall blank_message])
       /\ EmotionDetector.label r = lit "Frustrated"
       /\ r <> EmotionDetector._default_emotion.
Proof.
  split; [reflexivity|]. eexists. split; [vm_compute; reflexivity|].
  split; [reflexivity|]. discriminate.
Qed.

Lemma blank_input_witness :
  forallb isspace blank_message = true
  /\ EmotionDetector.detect_emotion (H:=ascii_builtins) sample_detector
       blank_message
     = (Some EmotionDetector._default_emotion, [])
  /\ snd (EmotionDetector._detect_with_hf_model sample_pipeline blank_message)
     = [EmotionDetector.PipelineCall blank_message].
Proof.
  split; [reflexivity|].
  destruct (@blank_input_returns_default ascii_builtins sample_detector
              blank_message eq_refl)
    as (Hdefault & _ & _ & _ & _ & Hcall & _).
  split; [exact Hdefault | apply Hcall].
Defined.

Lemma detect_emotion_none_witness :
  strip (lit "I need help") <> []
  /\ fst (EmotionDetector.detect_emotion (H:=ascii_builtins)
            (detector_without_models ExternalError ExternalError)
            (lit "I need help")) = None.
Proof.
  assert (Hne : strip (lit "I need help") <> []) by (vm_compute; discriminate).
  split; [exact Hne|].
  by rewrite (@detect_emotion_none_when_remote_fails ascii_builtins
                ExternalError ExternalError (lit "I need help") Hne).
Defined.



(** A line that begins with [EMOTION:] after the response has started is
    read as a marker and is not part of the response; and a reply of one
    space, which is not empty, gives an empty response. *)
Lemma late_marker_line_is_not_appended :
  (exists label conf,
     ResponseGenerator.parse_reply (H:=ascii_builtins) (lit "en") false
       reply_with_late_marker
     = Ret (unlines [lit "a"; lit "b"], label, conf, false)
     /\ claimed_response reply_with_late_marker
        = unlines [lit "a"; lit "EMOTION: Sad"; lit "b"]
     /\ unlines [lit "a"; lit "b"] <> claimed_response reply_with_late_marker)
  /\ lit " " <> []
  /\ exists label conf,
       ResponseGenerator.parse_reply (H:=ascii_builtins) (lit "en") false
         (lit " ")
       = Ret ([], label, conf, false).
Proof.
  split; [|split; [done|]].
  - eexists _, _. split; [vm_compute; reflexivity|].
    split; [reflexivity|]. vm_compute. discriminate.
  - eexists _, _. vm_compute. reflexivity.
Qed.

Lemma response_extraction_witness :
  py_float (Builtins:=ascii_builtins) (lit "0.7") = Some (7 # 10)%Q
  /\ ResponseGenerator.parse_reply (H:=ascii_builtins) (lit "en") false
       well_formed_reply
     = Ret (unlines [lit "line1"; lit "line2"], lit "Sad", (7 # 10)%Q, false)
  /\ exists resp label conf,
       ResponseGenerator.parse_reply (H:=ascii_builtins) (lit "en") false
         reply_with_late_marker
       = Ret (resp, label, conf, false)
       /\ resp = strip ((lit "a"
                         ++ concat (List.map (cons nl)
                                      (appended_lines
                                         [lit "EMOTION: Sad"; lit "b"])))
                        ++ [])
       /\ appended_lines [lit "EMOTION: Sad"; lit "b"] = [lit "b"]
       /\ resp <> [].
Proof.
  destruct (@response_extraction ascii_builtins (lit "en") false
              well_formed_reply)
    as (_ & _ & Hexample).
  destruct (@response_extraction ascii_builtins (lit "en") false
              reply_with_late_marker)
    as ((resp & label & conf & Hp & _ & Hgather & Hne) & _ & _).
  split; [reflexivity|]. split; [by apply Hexample|].
  exists resp, label, conf. split; [exact Hp|]. split; [|split].
  - apply (Hgather [] (lit "RESPONSE: a") [lit "EMOTION: Sad"; lit "b"]).
    + reflexivity.
    + reflexivity.
    + repeat constructor.
    + vm_compute. discriminate.
  - reflexivity.
  - apply Hne. vm_compute. discriminate.
Defined.

(** A reply without markers has confidence 0.0, not 0.5, and an unknown
    label is returned as it was written. *)
Lemma markerless_reply_has_confidence_zero :
  ResponseGenerator.parse_reply (H:=ascii_builtins) (lit "en") false
    (lit "just some text")
  = Ret (lit "just some text", lit "Neutral", 0.0%Q, false)
  /\ ~ (0.0 == 0.5)%Q
  /\ ResponseGenerator.parse_reply (H:=ascii_builtins) (lit "en") false
       reply_with_unknown_label
     = Ret (lit "ok", lit "Excited", 0.0%Q, false)
  /\ EmotionDetector.is_target (lit "Excited") = false.
Proof.
  split; [vm_compute; reflexivity|]. split; [by vm_compute|].
  split; [vm_compute; reflexivity | reflexivity].
Qed.

Lemma label_and_confidence_witness :
  exists resp label conf,
    ResponseGenerator.parse_reply (H:=ascii_builtins) (lit "en") false
      reply_with_unknown_label
    = Ret (resp, label, conf, false)
    /\ label = lit "Excited"
    /\ conf = 0.0%Q.
Proof.
  destruct (@label_and_confidence_extraction ascii_builtins (lit "en") false
              reply_with_unknown_label)
    as ((resp & label & conf & Hp & _ & _ & Hkeep & Hnone & _) & _).
  exists resp, label, conf. split; [exact Hp|]. split.
  - apply Hkeep; reflexivity.
  - apply Hnone. reflexivity.
Defined.

(** Without a remote model a Frustrated adaptation does not count. *)
Lemma unconfigured_adapter_does_not_count :
  EmotionResponseAdapter.get_frustration_level
    (snd (EmotionResponseAdapter.adjust_response_based_on_emotion
            (H:=ascii_builtins) (EmotionResponseAdapter.init None)
            Frustrated (lit "The fee is BD 3.300.")
            (lit "Why is this so expensive?") session_context))
    test_session
  <> (EmotionResponseAdapter.get_frustration_level
        (EmotionResponseAdapter.init None) test_session + 1)%Z.
Proof. vm_compute. discriminate. Qed.

Lemma frustration_counter_witness :
  is_Some (EmotionResponseAdapter.gemini_model
             (EmotionResponseAdapter.init (Some terse_model)))
  /\ EmotionResponseAdapter.session_of session_context = Some test_session
  /\ EmotionResponseAdapter.get_frustration_level
       (snd (EmotionResponseAdapter.adjust_response_based_on_emotion
               (H:=ascii_builtins)
               (snd (EmotionResponseAdapter.adjust_response_based_on_emotion
                       (H:=ascii_builtins)
                       (EmotionResponseAdapter.init (Some terse_model))
                       Frustrated (lit "The fee is BD 3.300.")
                       (lit "Why is this so expensive?") session_context))
               Frustrated (lit "It is per card.") (lit "Still too much!")
               session_context))
       test_session
     = (EmotionResponseAdapter.get_frustration_level
          (EmotionResponseAdapter.init (Some terse_model)) test_session + 2)%Z.
Proof.
  assert (Hmodel : is_Some (EmotionResponseAdapter.gemini_model
                              (EmotionResponseAdapter.init (Some terse_model))))
    by (by eexists).
  split; [exact Hmodel|]. split; [reflexivity|].
  exact (proj1 (proj2 (proj1 (proj2
           (@frustration_counter_steps ascii_builtins
              (EmotionResponseAdapter.init (Some terse_model))
              (lit "Happy") (lit "The fee is BD 3.300.")
              (lit "Why is this so expensive?") (lit "It is per card.")
              (lit "Still too much!") session_context test_session))
           Hmodel eq_refl))).
Defined.

Lemma escalation_offer_witness :
  (1 <= EmotionResponseAdapter.get_frustration_level once_frustrated
          test_session)%Z
  /\ fst (EmotionResponseAdapter.adjust_response_based_on_emotion
            (H:=ascii_builtins) once_frustrated Frustrated
            (lit "The fee is BD 3.300.") (lit "Why is this so expensive?")
            session_context)
     = lit "I understand. The fee is BD 3.300."
       ++ EmotionResponseAdapter.escalation_offer.
Proof.
  split; [by vm_compute|].
  refine (proj1 (@repeated_frustration_gets_escalation_offer ascii_builtins
            once_frustrated terse_model (lit "The fee is BD 3.300.")
            (lit "Why is this so expensive?") session_context test_session
            (EmotionResponseAdapter.prompt_Frustrated
               ++ EmotionResponseAdapter.escalation_directive)
            (lit " I understand. The fee is BD 3.300. ")
            eq_refl eq_refl _ _ eq_refl _ _)).
  - by vm_compute.
  - vm_compute. reflexivity.
  - vm_compute. reflexivity.
  - vm_compute. reflexivity.
Defined.

(* ===================================================================== *)
(** * Further properties of the detector *)
(* ===================================================================== *)

Section DetectorFurther.

Import EmotionDetector.
#[local] Open Scope Q_scope.
Context `{Builtins}.

Lemma nonblank_test (msg : str) :
  strip msg <> [] -> PyStr.eqb msg [] || PyStr.eqb (strip msg) [] = false.
Proof.
  intros Hne. assert (Hne' : msg <> []) by (intros ->; by apply Hne).
  apply eqb_false in Hne, Hne'. by rewrite Hne, Hne'.
Qed.

Lemma blank_test (msg : str) :
  strip msg = [] -> PyStr.eqb msg [] || PyStr.eqb (strip msg) [] = true.
Proof. intros ->. by rewrite eqb_refl, orb_true_r. Qed.

Lemma _detect_with_hf_model_run
    (pipeline : str -> outcome (list (list prediction))) (msg : str)
    (predictions : list prediction) (others : list (list prediction)) :
  pipeline msg = Ret (predictions :: others) ->
  _detect_with_hf_model pipeline msg
  = (remap_and_normalize predictions, [PipelineCall msg]).
Proof. intros Hp. unfold _detect_with_hf_model. by rewrite Hp. Qed.

Lemma _detect_with_gemini_run (self : t) (generate : str -> outcome str)
    (msg reply : str) :
  gemini_model self = Some generate ->
  generate (gemini_prompt msg) = Ret reply ->
  exists r, parse_gemini_reply reply = Ret r
            /\ _detect_with_gemini self msg
               = (Some r, [GenerateCall (gemini_prompt msg)]).
Proof.
  intros Hg Hreply. unfold _detect_with_gemini. rewrite Hg. cbv zeta.
  rewrite Hreply. change (Ret reply ≫= ?k) with (k reply). cbv beta.
  rewrite parse_gemini_reply_result. by eexists.
Qed.

Lemma _detect_with_gemini_fail (self : t) (msg : str) :
  gemini_model self = None
  \/ (exists generate e, gemini_model self = Some generate
                         /\ generate (gemini_prompt msg) = Raise e) ->
  fst (_detect_with_gemini self msg) = None.
Proof.
  unfold _detect_with_gemini. intros [-> | (g & e & -> & Hg)]; [done|].
  cbv zeta. by rewrite Hg.
Qed.

(** In a dictionary over the five labels every entry is found under its
    key. *)
Lemma get_of_In_dist (k : str) (v h n c f s : Q) :
  In (k, v) (dist h n c f s) -> PyDict.get k (dist h n c f s) = Some v.
Proof.
  intros Hin. apply In_dist in Hin.
  destruct Hin as [[-> ->] | [[-> ->] | [[-> ->] | [[-> ->] | [-> ->]]]]];
    reflexivity.
Qed.

Lemma get_of_In_normalized (k : str) (v h n c f s : Q) :
  In (k, v) (normalized h n c f s) ->
  PyDict.get k (normalized h n c f s) = Some v.
Proof.
  unfold normalized. cbv zeta. destruct (Qltb _ _); apply get_of_In_dist.
Qed.

(** X1. Every result that [detect_emotion] returns is well formed: its
    label is one of the five, its scores have exactly the five labels as
    keys, in order, and the score stored under the label is the
    confidence. *)
Theorem detected_result_is_well_formed (self : t) (msg : str)
    (r : EmotionResult) :
  fst (detect_emotion self msg) = Some r ->
  In (label r) TARGET_EMOTIONS
  /\ PyDict.keys (scores r) = TARGET_EMOTIONS
  /\ PyDict.get (label r) (scores r) = Some (confidence r).
Proof.
  intros Hr.
  destruct (detect_emotion_sources self msg r Hr)
    as [-> | [(p & ps & os & _ & _ & Hl) | (g & reply & _ & _ & Hg)]].
  - split; [|split]; [simpl; auto | reflexivity | reflexivity].
  - destruct (remap_and_normalize_shape ps)
      as (h & n & c & f & s & _ & _ & _ & _ & _ & [l q] & before & after
          & Hr' & Hsplit & _ & _).
    rewrite Hl in Hr'. injection Hr' as ->. cbn [label confidence scores fst snd].
    assert (Hin : In (l, q) (normalized h n c f s)).
    { rewrite Hsplit. apply in_or_app. right. by left. }
    split; [|split; [apply keys_normalized | by apply get_of_In_normalized]].
    rewrite <- (keys_normalized h n c f s).
    unfold PyDict.keys. by apply (in_map fst) in Hin.
  - rewrite parse_gemini_reply_result in Hg.
    match type of Hg with
    | Ret ?x = Ret _ => assert (Heq : r = x) by congruence
    end.
    clear Hr Hg. subst r. cbn [label confidence scores].
    pose proof (validated_is_target
                  (reported_label (lit "Neutral") (split nl (strip reply))))
      as Ht.
    apply is_target_In in Ht.
    split; [exact Ht|]. split; [|apply get_set_eq].
    by rewrite keys_set_present; rewrite keys_tabulate.
Qed.

(** X2. When the local classifier answers with a confidence that is not
    below the threshold, or when the remote fallback is switched off,
    [detect_emotion] returns the local result and its only model call is
    the one to the local pipeline. *)
Theorem confident_local_result_is_final (self : t) (msg : str)
    (pipeline : str -> outcome (list (list prediction)))
    (predictions : list prediction) (others : list (list prediction))
    (r : EmotionResult) :
  strip msg <> [] ->
  emotion_pipeline self = Some pipeline ->
  pipeline msg = Ret (predictions :: others) ->
  remap_and_normalize predictions = Ret r ->
  confidence_threshold self <= confidence r
  \/ use_gemini_fallback self = false ->
  detect_emotion self msg = (Some r, [PipelineCall msg]).
Proof.
  intros Hne Hpipe Hp Hr Hgate. unfold detect_emotion.
  rewrite (nonblank_test msg Hne), Hpipe.
  rewrite (_detect_with_hf_model_run pipeline msg _ _ Hp), Hr.
  assert (Hcond : Qltb (confidence r) (confidence_threshold self)
                  && use_gemini_fallback self = false).
  { destruct Hgate as [Hle | ->]; [|apply andb_false_r].
    apply Qltb_ge in Hle. by rewrite Hle. }
  by rewrite Hcond.
Qed.

(** X3. When the local confidence is below the threshold, the fallback is
    enabled and the remote model replies, whatever the reply says, the
    remote result replaces the local one; the pipeline was called first,
    then the remote model, once each. *)
Theorem unsure_local_result_is_replaced (self : t) (msg : str)
    (pipeline : str -> outcome (list (list prediction)))
    (predictions : list prediction) (others : list (list prediction))
    (r : EmotionResult) (generate : str -> outcome str) (reply : str) :
  strip msg <> [] ->
  emotion_pipeline self = Some pipeline ->
  pipeline msg = Ret (predictions :: others) ->
  remap_and_normalize predictions = Ret r ->
  confidence r < confidence_threshold self ->
  use_gemini_fallback self = true ->
  gemini_model self = Some generate ->
  generate (gemini_prompt msg) = Ret reply ->
  exists r',
    parse_gemini_reply reply = Ret r'
    /\ detect_emotion self msg
       = (Some r', [PipelineCall msg; GenerateCall (gemini_prompt msg)]).
Proof.
  intros Hne Hpipe Hp Hr Hlow Hfb Hg Hreply.
  destruct (_detect_with_gemini_run self generate msg reply Hg Hreply)
    as (r' & Hparse & Hrun).
  exists r'. split; [exact Hparse|]. unfold detect_emotion.
  rewrite (nonblank_test msg Hne), Hpipe.
  rewrite (_detect_with_hf_model_run pipeline msg _ _ Hp), Hr.
  apply Qltb_lt in Hlow. rewrite Hlow, Hfb. cbn [andb]. by rewrite Hrun.
Qed.

(** X4. When the local confidence is below the threshold and the remote
    model is missing or its call raises, the low-confidence local result
    is returned unchanged. *)
Theorem unsure_local_result_survives_remote_failure (self : t) (msg : str)
    (pipeline : str -> outcome (list (list prediction)))
    (predictions : list prediction) (others : list (list prediction))
    (r : EmotionResult) :
  strip msg <> [] ->
  emotion_pipeline self = Some pipeline ->
  pipeline msg = Ret (predictions :: others) ->
  remap_and_normalize predictions = Ret r ->
  confidence r < confidence_threshold self ->
  gemini_model self = None
  \/ (exists generate e, gemini_model self = Some generate
                         /\ generate (gemini_prompt msg) = Raise e) ->
  fst (detect_emotion self msg) = Some r.
Proof.
  intros Hne Hpipe Hp Hr Hlow Hfail.
  pose proof (_detect_with_gemini_fail self msg Hfail) as Hnone.
  unfold detect_emotion.
  rewrite (nonblank_test msg Hne), Hpipe.
  rewrite (_detect_with_hf_model_run pipeline msg _ _ Hp), Hr.
  destruct (Qltb (confidence r) (confidence_threshold self)
            && use_gemini_fallback self); [|done].
  destruct (_detect_with_gemini self msg) as [g log']. cbn [fst] in Hnone.
  by subst g.
Qed.

Lemma _detect_with_gemini_None (self : t) (msg : str) :
  fst (_detect_with_gemini self msg) = None ->
  gemini_model self = None
  \/ (exists generate e, gemini_model self = Some generate
                         /\ generate (gemini_prompt msg) = Raise e).
Proof.
  unfold _detect_with_gemini.
  destruct (gemini_model self) as [g|] eqn:Hg; [|by left].
  cbv zeta. cbn [fst].
  destruct (g (gemini_prompt msg)) as [reply|e] eqn:Hreply.
  - change (Ret reply ≫= ?k) with (k reply). cbv beta.
    by rewrite parse_gemini_reply_result.
  - intros _. right. by exists g, e.
Qed.

Lemma _detect_with_gemini_log (self : t) (msg : str) :
  snd (_detect_with_gemini self msg)
  = if bool_decide (is_Some (gemini_model self))
    then [GenerateCall (gemini_prompt msg)] else [].
Proof.
  unfold _detect_with_gemini. destruct (gemini_model self) as [g|].
  - by rewrite bool_decide_eq_true_2.
  - rewrite bool_decide_eq_false_2; [done|]. by intros [x Hx].
Qed.

(** X5. [detect_emotion] calls each model at most once, the local pipeline
    before the remote model, the pipeline with the message and the remote
    model with the prompt built from it.  The pipeline is called exactly
    when the message is not blank and a pipeline is loaded; the remote
    model is called only when the fallback is enabled and a remote model
    is configured. *)
Theorem each_model_is_called_at_most_once (self : t) (msg : str) :
  exists local remote : bool,
    snd (detect_emotion self msg)
    = (if local then [PipelineCall msg] else [])
      ++ (if remote then [GenerateCall (gemini_prompt msg)] else [])
    /\ (local = true <->
        strip msg <> [] /\ is_Some (emotion_pipeline self))
    /\ (remote = true ->
        strip msg <> [] /\ use_gemini_fallback self = true
        /\ is_Some (gemini_model self)).
Proof.
  unfold detect_emotion.
  destruct (decide (strip msg = [])) as [Hblank | Hne].
  { rewrite (blank_test msg Hblank). exists false, false.
    split; [done|]. split; [|done]. split; [done|]. by intros [? _]. }
  rewrite (nonblank_test msg Hne).
  pose proof (_detect_with_gemini_log self msg) as Hlog.
  destruct (_detect_with_gemini self msg) as [g glog]. cbn [snd] in Hlog.
  assert (Honly : forall (log : list call) (local : bool),
    (local = true <-> strip msg <> [] /\ is_Some (emotion_pipeline self)) ->
    log = (if local then [PipelineCall msg] else []) ->
    exists local' remote : bool,
      snd (if use_gemini_fallback self
              && bool_decide (is_Some (gemini_model self))
           then (g, log ++ glog)
           else (Some _default_emotion, log))
      = (if local' then [PipelineCall msg] else [])
        ++ (if remote then [GenerateCall (gemini_prompt msg)] else [])
      /\ (local' = true <->
          strip msg <> [] /\ is_Some (emotion_pipeline self))
      /\ (remote = true ->
          strip msg <> [] /\ use_gemini_fallback self = true
          /\ is_Some (gemini_model self))).
  { intros log local Hlocal ->.
    destruct (use_gemini_fallback self) eqn:Hfb; cbn [andb].
    - subst glog. case_bool_decide as Hm; cbn [snd].
      + by exists local, true.
      + exists local, false. split; [by rewrite app_nil_r|]. by split.
    - exists local, false. cbn [snd]. split; [by rewrite app_nil_r|].
      by split. }
  destruct (emotion_pipeline self) as [pipeline|] eqn:Hpipe.
  - assert (Hyes : true = true <-> strip msg <> [] /\ is_Some (Some pipeline))
      by (split; [intros _; split; [done | by eexists] | done]).
    unfold _detect_with_hf_model.
    destruct (_ ≫= _) as [result|e].
    + destruct (Qltb (confidence result) (confidence_threshold self)
                && use_gemini_fallback self) eqn:Hcond.
      * apply andb_prop in Hcond as [_ Hfb].
        assert (Hshape : snd (match g with
                              | Some r => (Some r, [PipelineCall msg] ++ glog)
                              | None => (Some result, [PipelineCall msg] ++ glog)
                              end) = [PipelineCall msg] ++ glog)
          by (by destruct g).
        rewrite Hshape. subst glog. case_bool_decide as Hm.
        -- by exists true, true.
        -- exists true, false. by split.
      * exists true, false. by split.
    + apply (Honly [PipelineCall msg] true); done.
  - apply (Honly [] false); [|done].
    split; [done|]. intros [_ [x Hx]]. done.
Qed.

(** X6. [detect_emotion] returns [None] only when the fallback is enabled,
    a remote model is configured and its call raised, and the local
    pipeline was missing or raised; in particular it never returns [None]
    when the fallback is switched off. *)
Theorem none_only_when_remote_call_raises (self : t) (msg : str) :
  fst (detect_emotion self msg) = None ->
  use_gemini_fallback self = true
  /\ (exists generate e, gemini_model self = Some generate
                         /\ generate (gemini_prompt msg) = Raise e)
  /\ (emotion_pipeline self = None
      \/ exists pipeline e,
           emotion_pipeline self = Some pipeline
           /\ fst (_detect_with_hf_model pipeline msg) = Raise e).
Proof.
  unfold detect_emotion.
  destruct (PyStr.eqb msg [] || PyStr.eqb (strip msg) []); [done|].
  pose proof (_detect_with_gemini_None self msg) as Hnone.
  destruct (_detect_with_gemini self msg) as [g glog]. cbn [fst] in Hnone.
  assert (Honly : forall log,
    fst (if use_gemini_fallback self
            && bool_decide (is_Some (gemini_model self))
         then (g, log ++ glog)
         else (Some _default_emotion, log)) = None ->
    use_gemini_fallback self = true
    /\ (exists generate e, gemini_model self = Some generate
                           /\ generate (gemini_prompt msg) = Raise e)).
  { intros log.
    destruct (use_gemini_fallback self); cbn [andb]; [|done].
    case_bool_decide as Hm; [|done]. cbn [fst]. intros Hg.
    split; [done|]. destruct (Hnone Hg) as [Hno | Hraise]; [|done].
    rewrite Hno in Hm. by destruct Hm. }
  destruct (emotion_pipeline self) as [pipeline|] eqn:Hpipe.
  - destruct (_detect_with_hf_model pipeline msg) as [[result|e] log] eqn:Hhf.
    + destruct (Qltb (confidence result) (confidence_threshold self)
                && use_gemini_fallback self); [by destruct g | done].
    + intros Hr. destruct (Honly log Hr) as [Hfb Hg].
      split; [done|]. split; [done|]. right. exists pipeline, e.
      by rewrite Hhf.
  - intros Hr. destruct (Honly [] Hr) as [Hfb Hg]. auto.
Qed.

(** X7. The remote fallback returns [None] exactly when no remote model is
    configured or the call to it raises: every reply text, however
    malformed, yields a result. *)
Theorem remote_fallback_absent_iff_no_reply (self : t) (msg : str) :
  fst (_detect_with_gemini self msg) = None
  <-> gemini_model self = None
      \/ (exists generate e, gemini_model self = Some generate
                             /\ generate (gemini_prompt msg) = Raise e).
Proof.
  split; [apply _detect_with_gemini_None | apply _detect_with_gemini_fail].
Qed.


End DetectorFurther.

(* ===================================================================== *)
(** * Further properties of the tone adapter *)
(* ===================================================================== *)

Section AdapterFurther.

Import EmotionResponseAdapter.
#[local] Open Scope Z_scope.
Context `{Builtins}.

Lemma clarifying_question_in_range (user : str) :
  exists q, index clarifying_questions
              (length user mod length clarifying_questions)%nat = Ret q
            /\ In q clarifying_questions
            /\ contains (lit "?") q = true.
Proof.
  assert (Hlt : (length user mod length clarifying_questions < 3)%nat)
    by (apply Nat.mod_upper_bound; done).
  destruct (length user mod length clarifying_questions)%nat
    as [|[|[|k]]] eqn:E; try lia.
  - eexists. split; [reflexivity|]. split; [simpl; auto | reflexivity].
  - eexists. split; [reflexivity|]. split; [simpl; auto | reflexivity].
  - eexists. split; [reflexivity|]. split; [simpl; auto | reflexivity].
Qed.

Lemma eqb_sym (a b : str) : PyStr.eqb a b = PyStr.eqb b a.
Proof.
  destruct (PyStr.eqb a b) eqn:E.
  - apply eqb_true in E. subst. symmetry. apply eqb_refl.
  - apply eqb_false in E. symmetry. apply eqb_false. congruence.
Qed.

(** X10. [reset_frustration_tracker] puts the session's level back to 0,
    leaves every other session's level alone, and does nothing the second
    time; the next Frustrated adaptation of that session (with a remote
    model and the session in the context) counts 1. *)
Theorem reset_clears_one_session (self : t) (sid other base user : str)
    (ctx : context) :
  get_frustration_level (reset_frustration_tracker self sid) sid = 0
  /\ (other <> sid ->
      get_frustration_level (reset_frustration_tracker self sid) other
      = get_frustration_level self other)
  /\ reset_frustration_tracker (reset_frustration_tracker self sid) sid
     = reset_frustration_tracker self sid
  /\ (is_Some (gemini_model self) -> session_of ctx = Some sid ->
      get_frustration_level
        (snd (adjust_response_based_on_emotion
                (reset_frustration_tracker self sid) Frustrated base user ctx))
        sid = 1).
Proof.
  unfold get_frustration_level, reset_frustration_tracker.
  cbn [frustration_tracker gemini_model].
  split; [by rewrite lookup_delete_eq|].
  split; [intros Hne; by rewrite lookup_delete_ne|].
  split; [by rewrite delete_delete_eq|].
  intros [g Hg] Hs. rewrite adjust_state. cbn [gemini_model].
  rewrite Hg. cbn [frustration_tracker].
  rewrite level_count_frustration, eqb_refl.
  rewrite bool_decide_eq_true_2 by done. cbn [andb].
  by rewrite lookup_delete_eq.
Qed.

(** X11. The enhancement step never raises and never alters the rewritten
    answer: it returns the answer followed by nothing, by one clarifying
    question, by the escalation offer or by the encouragement; for an
    emotion other than Confused, Frustrated and Sad it returns the answer
    as it is. *)
Theorem enhancements_only_append (tracker : gmap str Z)
    (answer emotion user : str) (ctx : context) :
  exists suffix,
    _add_emotion_enhancements tracker answer emotion user ctx
    = Ret (answer ++ suffix)
    /\ In suffix ([] :: clarifying_questions
                     ++ [escalation_offer; encouragement])
    /\ (emotion <> lit "Confused" -> emotion <> lit "Frustrated" ->
        emotion <> lit "Sad" -> suffix = []).
Proof.
  unfold _add_emotion_enhancements.
  destruct (PyStr.eqb emotion (lit "Confused")) eqn:Ec.
  - apply eqb_true in Ec. subst emotion.
    change (PyStr.eqb (lit "Confused") (lit "Frustrated")) with false.
    change (PyStr.eqb (lit "Confused") (lit "Sad")) with false.
    cbn [andb].
    destruct (negb (contains (lit "?") answer)).
    + destruct (clarifying_question_in_range user) as (q & -> & Hq & _).
      exists q. split; [done|]. split; [|done].
      right. apply in_or_app. by left.
    + exists []. rewrite app_nil_r. split; [done|]. split; [by left | done].
  - cbn [andb]. change (Ret answer ≫= ?k) with (k answer). cbv beta.
    destruct (PyStr.eqb emotion (lit "Frustrated")) eqn:Ef.
    + apply eqb_true in Ef. subst emotion.
      change (PyStr.eqb (lit "Frustrated") (lit "Sad")) with false.
      cbn [andb].
      assert (Hcase : forall x : str,
                x = answer \/ x = answer ++ escalation_offer ->
                exists suffix,
                  Ret x = Ret (answer ++ suffix)
                  /\ In suffix ([] :: clarifying_questions
                                   ++ [escalation_offer; encouragement])
                  /\ (lit "Frustrated" <> lit "Confused" ->
                      lit "Frustrated" <> lit "Frustrated" ->
                      lit "Frustrated" <> lit "Sad" -> suffix = [])).
      { intros x [-> | ->].
        - exists []. rewrite app_nil_r. split; [done|].
          split; [by left | done].
        - exists escalation_offer. split; [done|]. split; [|done].
          right. apply in_or_app. right. by left. }
      apply Hcase.
      destruct (truthy ctx); [|by left].
      destruct (session_of ctx) as [sid|]; [|by left].
      destruct (2 <=? default 0 (tracker !! sid)); [|by left].
      destruct (_ && _); auto.
    + cbn [andb].
      destruct (PyStr.eqb emotion (lit "Sad") && (20 <? count_words answer)%nat)
        eqn:Es.
      * destruct (negb _).
        -- exists encouragement. split; [done|]. split.
           ++ right. apply in_or_app. right. right. by left.
           ++ intros _ _ Hsad. apply andb_prop in Es as [Es _].
              by apply eqb_true in Es.
        -- exists []. rewrite app_nil_r. split; [done|].
           split; [by left | done].
      * exists []. rewrite app_nil_r. split; [done|].
        split; [by left | done].
Qed.

(** X12. For a Confused user the enhanced answer always contains a
    question mark: an answer that has one is returned as it is, and an
    answer that has none gets the clarifying question whose index is the
    length of the user's message modulo 3.  Enhancing the result again
    changes nothing. *)
Theorem confused_answer_gets_a_question (tracker : gmap str Z)
    (answer user : str) (ctx : context) :
  exists r,
    _add_emotion_enhancements tracker answer (lit "Confused") user ctx = Ret r
    /\ contains (lit "?") r = true
    /\ (contains (lit "?") answer = true -> r = answer)
    /\ (contains (lit "?") answer = false ->
        r = answer ++ nth (length user mod 3) clarifying_questions [])
    /\ _add_emotion_enhancements tracker r (lit "Confused") user ctx = Ret r.
Proof.
  assert (Hhas : forall x : str,
            contains (lit "?") x = true ->
            _add_emotion_enhancements tracker x (lit "Confused") user ctx
            = Ret x).
  { intros x Hx. unfold _add_emotion_enhancements.
    change (PyStr.eqb (lit "Confused") (lit "Confused")) with true.
    change (PyStr.eqb (lit "Confused") (lit "Frustrated")) with false.
    change (PyStr.eqb (lit "Confused") (lit "Sad")) with false.
    by rewrite Hx. }
  destruct (contains (lit "?") answer) eqn:Hq.
  - exists answer. rewrite (Hhas answer Hq). by repeat split.
  - destruct (clarifying_question_in_range user) as (q & Hidx & Hin & Hqq).
    assert (Hnth : q = nth (length user mod 3) clarifying_questions []).
    { change (length clarifying_questions) with 3%nat in Hidx.
      unfold index in Hidx.
      destruct (nth_error clarifying_questions (length user mod 3)) as [x|]
        eqn:E; [|done].
      injection Hidx as <-. symmetry. by apply nth_error_nth. }
    exists (answer ++ q).
    assert (Hres : contains (lit "?") (answer ++ q) = true)
      by (by apply contains_app_r).
    split.
    + unfold _add_emotion_enhancements.
      change (PyStr.eqb (lit "Confused") (lit "Confused")) with true.
      change (PyStr.eqb (lit "Confused") (lit "Frustrated")) with false.
      change (PyStr.eqb (lit "Confused") (lit "Sad")) with false.
      rewrite Hq. cbn [andb negb]. by rewrite Hidx.
    + split; [exact Hres|]. split; [done|].
      split; [intros _; by rewrite Hnth | by apply Hhas].
Qed.

(** X13. When the call to the remote model raises, the adapter returns the
    emotion's fixed prefix followed by the base answer (the base answer
    alone for Neutral and for a label that is not one of the five), and a
    Frustrated turn has still been counted. *)
Theorem remote_failure_gives_prefixed_base_answer (self : t)
    (generate : str -> outcome str) (emotion base user : str) (ctx : context)
    (prompt : str) (e : exn) :
  gemini_model self = Some generate ->
  fst (_get_emotion_prompt (frustration_tracker self) emotion ctx)
    = Ret prompt ->
  generate (full_prompt prompt user emotion base) = Raise e ->
  fst (adjust_response_based_on_emotion self emotion base user ctx)
    = _simple_emotion_prefix emotion ++ base
  /\ (emotion = lit "Neutral" \/ ~ In emotion EmotionDetector.TARGET_EMOTIONS ->
      fst (adjust_response_based_on_emotion self emotion base user ctx) = base)
  /\ (forall sid, emotion = Frustrated -> session_of ctx = Some sid ->
        get_frustration_level
          (snd (adjust_response_based_on_emotion self emotion base user ctx))
          sid
        = get_frustration_level self sid + 1).
Proof.
  intros Hmodel Hprompt Hraise.
  assert (Htext :
    fst (adjust_response_based_on_emotion self emotion base user ctx)
    = _simple_emotion_prefix emotion ++ base).
  { unfold adjust_response_based_on_emotion. rewrite Hmodel.
    destruct (_get_emotion_prompt (frustration_tracker self) emotion ctx)
      as [p tracker]. cbn [fst] in *. subst p.
    change (Ret prompt ≫= ?k) with (k prompt). cbv beta.
    by rewrite Hraise. }
  split; [exact Htext|]. split.
  - intros Hcase. rewrite Htext.
    assert (Hpre : _simple_emotion_prefix emotion = []).
    { destruct Hcase as [-> | Hnot]; [reflexivity|].
      unfold _simple_emotion_prefix, PyDict.get_default. cbn [PyDict.get].
      repeat match goal with
             | |- context [if PyStr.eqb emotion ?k then _ else _] =>
                 let E := fresh "E" in
                 destruct (PyStr.eqb emotion k) eqn:E;
                 [apply eqb_true in E; subst emotion; exfalso; apply Hnot;
                  simpl; auto 6 |]
             end.
      reflexivity. }
    by rewrite Hpre.
  - intros sid -> Hs. rewrite adjust_state, Hmodel.
    unfold get_frustration_level. cbn [frustration_tracker].
    rewrite level_count_frustration, eqb_refl.
    by rewrite bool_decide_eq_true_2.
Qed.

(** X14. The prompt for a Frustrated user carries the directive to offer a
    human representative exactly when the session had already been
    counted at least once before this call; without a session in the
    context it never does.  A label that is not one of the five gets the
    Neutral prompt. *)
Theorem frustrated_prompt_escalates_on_repeat (tracker : gmap str Z)
    (emotion : str) (ctx : context) :
  (forall sid, session_of ctx = Some sid ->
     fst (_get_emotion_prompt tracker Frustrated ctx)
     = Ret (if 1 <=? default 0 (tracker !! sid)
            then prompt_Frustrated ++ escalation_directive
            else prompt_Frustrated))
  /\ (session_of ctx = None ->
      fst (_get_emotion_prompt tracker Frustrated ctx) = Ret prompt_Frustrated)
  /\ (~ In emotion EmotionDetector.TARGET_EMOTIONS ->
      fst (_get_emotion_prompt tracker emotion ctx) = Ret prompt_Neutral).
Proof.
  split; [|split].
  - intros sid Hs. unfold _get_emotion_prompt.
    change (PyStr.eqb Frustrated (lit "Frustrated")) with true.
    destruct (session_truthy ctx sid Hs) as [-> _]. rewrite Hs. cbn [andb].
    destruct (1 <=? default 0 (tracker !! sid)) eqn:E.
    + apply Z.leb_le in E.
      assert (E' : (2 <=? default 0 (tracker !! sid) + 1) = true)
        by (apply Z.leb_le; lia).
      rewrite E'. reflexivity.
    + apply Z.leb_gt in E.
      assert (E' : (2 <=? default 0 (tracker !! sid) + 1) = false)
        by (apply Z.leb_gt; lia).
      rewrite E'. reflexivity.
  - intros Hs. unfold _get_emotion_prompt. rewrite Hs.
    by destruct (_ && _).
  - intros Hnot. unfold _get_emotion_prompt.
    assert (Hf : PyStr.eqb emotion (lit "Frustrated") = false).
    { apply eqb_false. intros ->. apply Hnot. simpl. auto 6. }
    rewrite Hf. cbn [andb fst].
    change (Ret prompts ≫= ?k) with (k prompts). cbv beta.
    change (PyDict.getitem (lit "Neutral") prompts) with (Ret prompt_Neutral).
    change (Ret prompt_Neutral ≫= ?k) with (k prompt_Neutral). cbv beta.
    unfold PyDict.get_default, prompts. cbn [PyDict.get].
    repeat match goal with
           | |- context [if PyStr.eqb emotion ?k then _ else _] =>
               let E := fresh "E" in
               destruct (PyStr.eqb emotion k) eqn:E;
               [apply eqb_true in E; subst emotion; exfalso; apply Hnot;
                simpl; auto 6 |]
           end.
    reflexivity.
Qed.

(** X15. An adaptation whose context has no usable session id (no context,
    an empty one, no or an empty [session_id]) is never counted and never
    gets the escalation offer, whatever the tracker holds. *)
Theorem anonymous_turns_are_not_tracked (self : t) (tracker : gmap str Z)
    (emotion base user answer : str) (ctx : context) :
  session_of ctx = None ->
  snd (adjust_response_based_on_emotion self emotion base user ctx) = self
  /\ _add_emotion_enhancements tracker answer Frustrated user ctx = Ret answer.
Proof.
  intros Hs. split.
  - rewrite adjust_state. destruct self as [[g|] tr]; cbn; [|done].
    unfold count_frustration. rewrite Hs. by destruct (PyStr.eqb _ _).
  - unfold _add_emotion_enhancements.
    change (PyStr.eqb Frustrated (lit "Confused")) with false.
    change (PyStr.eqb Frustrated (lit "Frustrated")) with true.
    change (PyStr.eqb Frustrated (lit "Sad")) with false.
    cbn [andb]. change (Ret answer ≫= ?k) with (k answer). cbv beta.
    rewrite Hs. by destruct (truthy ctx).
Qed.

End AdapterFurther.

(* ===================================================================== *)
(** * Further properties of the reply parser and of [generate] *)
(* ===================================================================== *)

Section GenerateFurther.

Import ResponseGenerator.
#[local] Open Scope Q_scope.
Context `{Builtins} `{CaseTables}.

Lemma clean_head_app (a b : str) : a <> [] -> clean_head a -> clean_head (a ++ b).
Proof. by destruct a. Qed.

(** A text that begins and ends with a character that is not whitespace
    survives [strip] at the end of any other text. *)
Lemma lstrip_keeps_suffix (sentence : str) :
  sentence <> [] -> clean_head sentence ->
  forall x, exists pre, lstrip (x ++ sentence) = pre ++ sentence.
Proof.
  intros Hne Hc x. induction x as [|c x (pre & IH)]; simpl.
  - exists []. by apply lstrip_id.
  - destruct (isspace c); [by exists pre|]. by exists (c :: x).
Qed.

Lemma strip_keeps_suffix (sentence x : str) :
  sentence <> [] -> clean_head sentence -> clean_head (rev sentence) ->
  exists pre, strip (x ++ sentence) = pre ++ sentence.
Proof.
  intros Hne Hc Hr.
  destruct (lstrip_keeps_suffix sentence Hne Hc x) as (pre & Hpre).
  exists pre. unfold strip, rstrip. rewrite Hpre, rev_app_distr.
  rewrite lstrip_id.
  - by rewrite <- rev_app_distr, rev_involutive.
  - apply clean_head_app; [|done]. intros Hnil.
    apply (f_equal (@rev N)) in Hnil. rewrite rev_involutive in Hnil.
    by apply Hne.
Qed.

Lemma strip_of_clean_ends (body tail : str) :
  body <> [] -> clean_head body -> tail <> [] -> clean_head (rev tail) ->
  strip (body ++ tail) = body ++ tail.
Proof.
  intros Hb Hcb Ht Hct. apply strip_id.
  - by apply clean_head_app.
  - rewrite rev_app_distr. apply clean_head_app; [|done].
    intros Hnil. apply (f_equal (@rev N)) in Hnil.
    rewrite rev_involutive in Hnil. by apply Ht.
Qed.

Lemma rating_request_shape (language : str) :
  rating_request language = nl :: nl :: rating_sentence language
  /\ rating_sentence language <> []
  /\ clean_head (rating_sentence language)
  /\ clean_head (rev (rating_sentence language))
  /\ clean_head (rev (rating_request language)).
Proof.
  unfold rating_sentence, rating_request.
  destruct (PyStr.eqb language (lit "ar")); repeat split; try done.
Qed.

(** The text [parse_reply] gathers before it appends the rating request
    and strips. *)
Lemma gathered_text_clean (text : str) :
  strip text <> [] ->
  (if PyStr.eqb (collect [] (split nl (strip text))) []
   then strip text else collect [] (split nl (strip text))) <> []
  /\ clean_head
       (if PyStr.eqb (collect [] (split nl (strip text))) []
        then strip text else collect [] (split nl (strip text))).
Proof.
  intros Hne.
  destruct (PyStr.eqb (collect [] (split nl (strip text))) []) eqn:E.
  - split; [done | apply strip_clean_head].
  - apply eqb_false in E. split; [done | by apply collect_clean_head].
Qed.

(** X16. [parse_reply] never raises, the response it returns has no
    whitespace at either end, and whitespace around the model's reply
    makes no difference to the result. *)
Theorem parsed_response_is_stripped (language : str)
    (should_request_rating : bool) (text : str) :
  exists resp label conf,
    parse_reply language should_request_rating text
      = Ret (resp, label, conf, should_request_rating)
    /\ strip resp = resp
    /\ parse_reply language should_request_rating (strip text)
       = parse_reply language should_request_rating text.
Proof.
  rewrite !parse_reply_result. eexists _, _, _. split; [reflexivity|].
  split; [apply strip_idempotent|]. by rewrite !strip_idempotent.
Qed.

(** X17. For a reply with a character that is not whitespace, asking for a
    rating changes nothing but the response: the rating request of the
    language (the Arabic one exactly for the language "ar") is appended to
    the gathered text, which is otherwise returned stripped. *)
Theorem rating_request_is_appended (language text : str) :
  strip text <> [] ->
  exists body label conf,
    body <> []
    /\ parse_reply language false text = Ret (strip body, label, conf, false)
    /\ parse_reply language true text
       = Ret (body ++ (if PyStr.eqb language (lit "ar")
                       then rating_request_ar else rating_request_en),
              label, conf, true).
Proof.
  intros Hne. rewrite !parse_reply_result.
  destruct (gathered_text_clean text Hne) as [Hbody Hclean].
  set (body := if PyStr.eqb (collect [] (split nl (strip text))) []
               then strip text else collect [] (split nl (strip text))) in *.
  exists body. eexists _, _. split; [exact Hbody|].
  split; [by rewrite app_nil_r|].
  destruct (rating_request_shape language) as (Hshape & _ & _ & _ & Hlast).
  change (rating_suffix language true) with (rating_request language).
  rewrite strip_of_clean_ends; try done.
  by rewrite Hshape.
Qed.

End GenerateFurther.

Section FallbackFurther.

Import Generate.
#[local] Open Scope Q_scope.
Context `{Builtins} `{CaseTables}.

Lemma ensure_full_stop_prefix (x : str) :
  exists tail, ensure_full_stop x = x ++ tail.
Proof.
  unfold ensure_full_stop. destruct (endswith _ _).
  - exists []. by rewrite app_nil_r.
  - by eexists.
Qed.

Lemma ensure_full_stop_ends (x : str) :
  endswith (lit ".") (ensure_full_stop x) = true.
Proof.
  unfold ensure_full_stop. destruct (endswith (lit ".") x) eqn:E; [done|].
  unfold endswith. by rewrite rev_app_distr.
Qed.

Lemma ensure_full_stop_nonempty (x : str) : ensure_full_stop x <> [].
Proof.
  unfold ensure_full_stop. destruct x as [|c x]; [done|].
  by destruct (endswith _ _).
Qed.

(** The three shapes of a run of [_build_fallback_response] on a
    non-empty list of documents. *)
Lemma _build_fallback_response_one (d0 language : str) :
  _build_fallback_response [d0] language = Ret (ensure_full_stop d0).
Proof. done. Qed.

Lemma _build_fallback_response_empty_second (d0 language : str)
    (rest : list str) :
  _build_fallback_response (d0 :: [] :: rest) language = Raise IndexError.
Proof. done. Qed.

Lemma _build_fallback_response_more (d0 language : str) (c : N) (s : str)
    (rest : list str) :
  exists second tail,
    _build_fallback_response (d0 :: ((c :: s) : str) :: rest) language
    = Ret (ensure_full_stop
             (ensure_full_stop d0
              ++ (if PyStr.eqb language (lit "ar")
                  then additionally_ar else additionally_en)
              ++ second) ++ tail)
    /\ (rest = [] -> tail = []).
Proof.
  unfold _build_fallback_response.
  change (index (c :: s) 0) with (Ret (A:=N) c).
  change (Ret c ≫= ?k) with (k c). cbv beta zeta.
  set (second := if py_isupper [c] then py_lower [c] ++ drop 1 (c :: s)
                 else c :: s).
  exists second.
  destruct (PyStr.eqb language (lit "ar")).
  - change (Ret ?x ≫= ?k) with (k x). cbv beta.
    destruct rest as [|third rest].
    + exists []. by rewrite app_nil_r.
    + by eexists.
  - change (Ret ?x ≫= ?k) with (k x). cbv beta.
    destruct rest as [|third rest].
    + exists []. by rewrite app_nil_r.
    + by eexists.
Qed.

Lemma _build_fallback_response_raises
    (documents : list str) (language : str) (e : exn) :
  _build_fallback_response documents language = Raise e ->
  e = IndexError /\ exists d0 rest, documents = d0 :: [] :: rest.
Proof.
  destruct documents as [|d0 [|[|c s] rest]].
  - unfold _build_fallback_response. by destruct (PyStr.eqb _ _).
  - by rewrite _build_fallback_response_one.
  - rewrite _build_fallback_response_empty_second. intros [= <-].
    split; [done|]. by exists d0, rest.
  - by destruct (_build_fallback_response_more d0 language c s rest)
      as (second & tail & -> & _).
Qed.

(** X18. [_build_fallback_response] raises exactly when there are at least
    two documents and the second one is the empty string, and then it
    raises [IndexError]. *)
Theorem fallback_response_raises_on_empty_second_document
    (documents : list str) (language : str) (e : exn) :
  _build_fallback_response documents language = Raise e
  <-> e = IndexError /\ exists d0 rest, documents = d0 :: [] :: rest.
Proof.
  split; [apply _build_fallback_response_raises|].
  intros [-> (d0 & rest & ->)]. apply _build_fallback_response_empty_second.
Qed.

(** X19. Whenever [_build_fallback_response] returns, its text is not
    empty; with documents it begins with the first document, and with one
    or two documents it ends with a full stop. *)
Theorem fallback_response_starts_with_first_document
    (documents : list str) (language r : str) :
  _build_fallback_response documents language = Ret r ->
  r <> []
  /\ (forall d0 rest, documents = d0 :: rest -> exists tail, r = d0 ++ tail)
  /\ ((0 < length documents <= 2)%nat -> endswith (lit ".") r = true).
Proof.
  destruct documents as [|d0 [|[|c s] rest]].
  - unfold _build_fallback_response.
    destruct (PyStr.eqb language (lit "ar")); intros [= <-];
      (split; [done|]); (split; [done|]); simpl; lia.
  - rewrite _build_fallback_response_one. intros [= <-].
    split; [apply ensure_full_stop_nonempty|]. split.
    + intros d rest [= <- <-]. apply ensure_full_stop_prefix.
    + intros _. apply ensure_full_stop_ends.
  - by rewrite _build_fallback_response_empty_second.
  - destruct (_build_fallback_response_more d0 language c s rest)
      as (second & tail & -> & Htail).
    intros [= <-].
    set (mid := (if PyStr.eqb language (lit "ar")
                 then additionally_ar else additionally_en) ++ second) in *.
    destruct (ensure_full_stop_prefix d0) as (t0 & Ht0).
    destruct (ensure_full_stop_prefix (ensure_full_stop d0 ++ mid))
      as (t1 & Ht1).
    split; [|split].
    + intros Hnil. apply app_eq_nil in Hnil as [Hnil _].
      by apply ensure_full_stop_nonempty in Hnil.
    + intros d rest' [= <- <-]. rewrite Ht1, Ht0.
      exists (t0 ++ mid ++ t1 ++ tail). by rewrite <- !app_assoc.
    + intros Hlen. destruct rest; [|simpl in Hlen; lia].
      rewrite (Htail eq_refl), app_nil_r. apply ensure_full_stop_ends.
Qed.

End FallbackFurther.

Section GenerateTheorems.

Import Generate.
#[local] Open Scope Q_scope.
Context `{Builtins} `{CaseTables}.

(** What [generate] does without a reply of the model. *)
Lemma generate_without_remote (self : t) (query language : str) :
  generate (without_remote self) query language
  = (response_text ←
       (if _is_sadeem_question (query_lower_of query)
           && negb (bool_decide (search self query language = []))
        then _build_fallback_response (search self query language) language
        else if _is_closing_intent (query_lower_of query)
        then Ret (if PyStr.eqb language (lit "ar")
                  then goodbye_ar else goodbye_en)
        else _build_fallback_response [] language);
     Ret (response_text
          ++ rating_suffix language (_is_closing_intent (query_lower_of query)),
          lit "Neutral", 0.0, _is_closing_intent (query_lower_of query))).
Proof.
  unfold generate, without_remote, query_lower_of. cbn [has_gemini search].
  cbv zeta. unfold rating_suffix.
  destruct (_ && _); [|destruct (_is_closing_intent _) eqn:Ec].
  - destruct (_build_fallback_response _ _); [|done].
    change (Ret ?x ≫= ?k) with (k x). cbv beta.
    destruct (_is_closing_intent _); [|by rewrite app_nil_r].
    by destruct (PyStr.eqb language (lit "ar")).
  - change (Ret ?x ≫= ?k) with (k x). cbv beta.
    by destruct (PyStr.eqb language (lit "ar")).
  - destruct (_build_fallback_response _ _); [|done].
    change (Ret ?x ≫= ?k) with (k x). cbv beta. by rewrite app_nil_r.
Qed.

Lemma generate_offline (self : t) (query language : str) :
  no_remote_reply self query language ->
  generate self query language
  = generate (without_remote self) query language.
Proof.
  intros Hno. unfold generate at 1. cbv zeta.
  destruct (has_gemini self) eqn:Hhas; [|done].
  fold (sent_prompt self query language).
  destruct Hno as [Hoff | [Hnone | (g & e & Hg & Hraise)]].
  - congruence.
  - by rewrite Hnone.
  - by rewrite Hg, Hraise.
Qed.

Lemma generate_online (self : t) (query language : str)
    (generate_content : str -> outcome str) (reply : str) :
  has_gemini self = true ->
  gemini_model self = Some generate_content ->
  generate_content (sent_prompt self query language) = Ret reply ->
  generate self query language
  = ResponseGenerator.parse_reply language
      (_is_closing_intent (query_lower_of query)) reply.
Proof.
  intros Hhas Hg Hreply. unfold generate. cbv zeta. rewrite Hhas.
  fold (sent_prompt self query language). rewrite Hg, Hreply.
  change (Ret reply ≫= ?k) with (k reply). cbv beta.
  fold (query_lower_of query). by rewrite parse_reply_result.
Qed.

Lemma remote_reply_or_not (self : t) (query language : str) :
  no_remote_reply self query language
  \/ exists generate_content reply,
       has_gemini self = true
       /\ gemini_model self = Some generate_content
       /\ generate_content (sent_prompt self query language) = Ret reply.
Proof.
  unfold no_remote_reply.
  destruct (has_gemini self); [|by left; left].
  destruct (gemini_model self) as [g|]; [|by left; right; left].
  destruct (g (sent_prompt self query language)) as [reply|e] eqn:E.
  - right. by exists g, reply.
  - left. right. right. by exists g, e.
Qed.

(** X20. A remote model that is switched off, missing or failing makes no
    difference to [generate]: the result is the one of the same generator
    without a remote model, and whenever that is an answer its label is
    Neutral and its confidence 0.0. *)
Theorem answers_without_remote_reply_are_neutral (self : t)
    (query language : str) :
  no_remote_reply self query language ->
  generate self query language
  = generate (without_remote self) query language
  /\ forall resp label conf flag,
       generate self query language = Ret (resp, label, conf, flag) ->
       label = lit "Neutral" /\ conf = 0.0.
Proof.
  intros Hno. split; [by apply generate_offline|].
  intros resp label conf flag.
  rewrite (generate_offline self query language Hno).
  rewrite generate_without_remote.
  destruct (if _ && _ then _ else _) as [response|]; [|done].
  change (Ret ?x ≫= ?k) with (k x). cbv beta. by intros [= _ <- <- _].
Qed.

(** X21. On every path, the rating flag [generate] returns is the closing
    test on the lower-cased, stripped query, and when it is set the
    response ends with the rating sentence of the language. *)
Theorem closing_query_gets_rating_request (self : t)
    (query language resp label : str) (conf : Q) (flag : bool) :
  generate self query language = Ret (resp, label, conf, flag) ->
  flag = _is_closing_intent (query_lower_of query)
  /\ (flag = true -> exists pre, resp = pre ++ rating_sentence language).
Proof.
  destruct (rating_request_shape language)
    as (Hshape & Hne & Hhead & Hlast & _).
  destruct (remote_reply_or_not self query language)
    as [Hno | (g & reply & Hhas & Hg & Hreply)].
  - rewrite (generate_offline self query language Hno).
    rewrite generate_without_remote.
    destruct (if _ && _ then _ else _) as [response|]; [|done].
    change (Ret ?x ≫= ?k) with (k x). cbv beta. intros [= <- _ _ <-].
    split; [done|]. intros ->.
    change (rating_suffix language true) with (rating_request language).
    rewrite Hshape. exists (response ++ [nl; nl]). by rewrite <- app_assoc.
  - rewrite (generate_online self query language g reply Hhas Hg Hreply).
    rewrite parse_reply_result. intros [= <- _ _ <-].
    split; [done|]. intros ->.
    change (rating_suffix language true) with (rating_request language).
    rewrite Hshape.
    set (body := if PyStr.eqb _ [] then _ else _).
    replace (body ++ nl :: nl :: rating_sentence language)
      with ((body ++ [nl; nl]) ++ rating_sentence language)
      by (by rewrite <- app_assoc).
    by apply strip_keeps_suffix.
Qed.

(** X22. [generate] raises exactly when the model gave no reply, the query
    has a Sadeem keyword, and the search returned at least two documents
    of which the second is the empty string; the exception is the
    [IndexError] of [_build_fallback_response]. *)
Theorem generate_raises_only_on_empty_second_document (self : t)
    (query language : str) (e : exn) :
  generate self query language = Raise e
  <-> e = IndexError
      /\ no_remote_reply self query language
      /\ _is_sadeem_question (query_lower_of query) = true
      /\ exists d0 rest, search self query language = d0 :: [] :: rest.
Proof.
  split.
  - destruct (remote_reply_or_not self query language)
      as [Hno | (g & reply & Hhas & Hg & Hreply)].
    + rewrite (generate_offline self query language Hno).
      rewrite generate_without_remote.
      destruct (_is_sadeem_question (query_lower_of query)) eqn:Hq;
        cbn [andb].
      * destruct (bool_decide (search self query language = [])) eqn:Hd;
          cbn [negb].
        -- apply bool_decide_eq_true in Hd.
           destruct (_is_closing_intent _); [done|].
           unfold _build_fallback_response.
           by destruct (PyStr.eqb language (lit "ar")).
        -- destruct (_build_fallback_response _ _) as [r|e'] eqn:Hb; [done|].
           intros [= <-].
           apply _build_fallback_response_raises in Hb
             as [-> Hdocs].
           done.
      * destruct (_is_closing_intent _); [done|].
        unfold _build_fallback_response.
        by destruct (PyStr.eqb language (lit "ar")).
    + rewrite (generate_online self query language g reply Hhas Hg Hreply).
      by rewrite parse_reply_result.
  - intros (-> & Hno & Hq & d0 & rest & Hdocs).
    rewrite (generate_offline self query language Hno).
    rewrite generate_without_remote, Hq, Hdocs.
    rewrite bool_decide_eq_false_2 by done. cbn [andb negb].
    by rewrite _build_fallback_response_empty_second.
Qed.

End GenerateTheorems.

Section SessionTheorems.

Import SessionManager.
Context {Time Message : Type}.
Implicit Types sessions : gmap str (session Time Message).

Lemma add_message_lookup sessions (session_id other : str) (m : Message) :
  get_session (add_message sessions session_id m) other
  = if bool_decide (other = session_id)
    then (fun s => {| created_at := created_at s;
                      messages := messages s ++ [m];
                      rating := rating s |}) <$> get_session sessions session_id
    else get_session sessions other.
Proof.
  unfold add_message, get_session.
  case_bool_decide as E.
  - subst other. destruct (sessions !! session_id) as [s|] eqn:Es.
    + by rewrite lookup_insert_eq.
    + by rewrite Es.
  - destruct (sessions !! session_id) as [s|] eqn:Es; [|done].
    by rewrite lookup_insert_ne.
Qed.

(** X23. Messages added to an existing session are kept in the order of
    the calls, after the ones already there; the creation time and the
    rating of the session, and every other session, stay as they were. *)
Theorem session_messages_kept_in_order sessions (session_id : str)
    (s : session Time Message) (new_messages : list Message) :
  get_session sessions session_id = Some s ->
  get_session (add_messages sessions session_id new_messages) session_id
  = Some {| created_at := created_at s;
            messages := messages s ++ new_messages;
            rating := rating s |}
  /\ forall other, other <> session_id ->
       get_session (add_messages sessions session_id new_messages) other
       = get_session sessions other.
Proof.
  unfold add_messages.
  revert sessions s. induction new_messages as [|m ms IH]; intros sessions s Hs.
  - cbn. rewrite app_nil_r. split; [|done]. rewrite Hs. by destruct s.
  - cbn [fold_left].
    destruct (IH (add_message sessions session_id m)
                 {| created_at := created_at s;
                    messages := messages s ++ [m];
                    rating := rating s |}) as [IH1 IH2].
    { rewrite add_message_lookup, bool_decide_eq_true_2 by done.
      by rewrite Hs. }
    split.
    + rewrite IH1. cbn. by rewrite <- app_assoc.
    + intros other Hne. rewrite IH2 by done.
      rewrite add_message_lookup. by rewrite bool_decide_eq_false_2.
Qed.

(** X24. [add_message] and [add_rating] never create or remove a session:
    the set of session ids is unchanged, so a call for an unknown id has
    no effect at all; for a known id [add_rating] replaces the rating and
    keeps the messages and the creation time. *)
Theorem session_updates_keep_the_session_ids sessions (session_id : str)
    (m : Message) (stars : Z) :
  dom (add_message sessions session_id m) = dom sessions
  /\ dom (add_rating sessions session_id stars) = dom sessions
  /\ (get_session sessions session_id = None ->
      add_message sessions session_id m = sessions
      /\ add_rating sessions session_id stars = sessions)
  /\ get_session (add_rating sessions session_id stars) session_id
     = (fun s => {| created_at := created_at s;
                    messages := messages s;
                    rating := Some stars |})
       <$> get_session sessions session_id.
Proof.
  unfold add_message, add_rating, get_session.
  destruct (sessions !! session_id) as [s|] eqn:Es.
  - split; [|split; [|split]].
    + apply dom_insert_lookup_L. by rewrite Es.
    + apply dom_insert_lookup_L. by rewrite Es.
    + done.
    + by rewrite lookup_insert_eq.
  - rewrite Es. done.
Qed.

End SessionTheorems.

Section TranslationTheorems.

Import Translations.

(** X25. The Arabic label [get_emotion_label] gives for an emotion is
    mapped back to that emotion by the reply parser's [emotion_map] for
    Happy, Neutral and Sad only: the labels of Confused and Frustrated
    differ between the two tables. *)
Theorem arabic_label_maps_back_for_three_emotions (emotion : str) :
  PyDict.get (get_emotion_label emotion (lit "ar"))
             ResponseGenerator.emotion_map = Some emotion
  <-> In emotion [lit "Happy"; lit "Neutral"; lit "Sad"].
Proof.
  unfold get_emotion_label.
  change (PyStr.eqb (lit "ar") (lit "ar")) with true. cbv iota.
  unfold PyDict.get_default, EMOTION_LABELS_AR.
  cbn [PyDict.get].
  split.
  - unfold ResponseGenerator.emotion_map. cbn [PyDict.get].
    repeat match goal with
           | |- context [PyStr.eqb emotion ?k] =>
               let E := fresh "E" in
               destruct (PyStr.eqb emotion k) eqn:E;
               [ apply eqb_true in E; subst emotion; vm_compute;
                 first [ by intuition | discriminate ]
               | ]
           end.
    discriminate.
  - intros [<- | [<- | [<- | []]]]; vm_compute; reflexivity.
Qed.

End TranslationTheorems.

Section SentimentTheorems.

Import SentimentAnalyzer.
Context `{Builtins}.

Lemma startswith_app (p t : str) : startswith p (p ++ t) = true.
Proof.
  induction p as [|a p IH]; [done|]. cbn. by rewrite N.eqb_refl.
Qed.

Lemma contains_inv (sub s : str) :
  contains sub s = true -> exists pre post, s = pre ++ sub ++ post.
Proof.
  induction s as [|c s IH]; cbn [contains].
  - rewrite orb_false_r. intros Hs. apply startswith_inv in Hs.
    by exists [], (drop (length sub) []).
  - intros [Hs | Hc]%orb_true_iff.
    + apply startswith_inv in Hs. by exists [], (drop (length sub) (c :: s)).
    + destruct (IH Hc) as (pre & post & ->). by exists (c :: pre), post.
Qed.

Lemma contains_intro (pre sub post : str) :
  contains sub (pre ++ sub ++ post) = true.
Proof.
  apply contains_app_r.
  pose proof (startswith_app sub post) as Hs.
  destruct (sub ++ post); cbn [contains]; by rewrite Hs.
Qed.

Lemma is_token_contains (word text_lower : str) :
  is_token word text_lower = true -> contains word text_lower = true.
Proof.
  unfold is_token, padded. intros Hc.
  apply contains_inv in Hc as (pre & post & E).
  assert (exists X, text_lower ++ [32%N] = X ++ word ++ 32%N :: post)
    as [X EX].
  { destruct pre as [|c pre]; cbn in E.
    - injection E as E. exists []. by rewrite <- app_assoc in E.
    - injection E as _ E. exists (pre ++ [32%N]).
      rewrite E. rewrite <- !app_assoc. done. }
  destruct post as [|e post _] using rev_ind.
  - replace (X ++ word ++ [32%N]) with ((X ++ word) ++ [32%N]) in EX
      by (by rewrite <- app_assoc).
    apply app_inj_tail in EX as [-> _].
    rewrite <- (app_nil_r word) at 2. apply contains_intro.
  - replace (X ++ word ++ 32%N :: post ++ [e])
      with ((X ++ word ++ 32%N :: post) ++ [e]) in EX
      by (by rewrite <- !app_assoc).
    apply app_inj_tail in EX as [-> _]. apply contains_intro.
Qed.

Lemma count_from_contains (word text_lower : str) :
  word <> [] -> contains word text_lower = true ->
  1 <= count_from word 0 text_lower.
Proof.
  intros Hw. induction text_lower as [|c s IH]; cbn [contains count_from].
  - rewrite orb_false_r. by destruct word.
  - destruct (startswith word (c :: s)); [lia|]. cbn [orb]. apply IH.
Qed.

Lemma count_of_token (word text_lower : str) :
  word <> [] -> is_token word text_lower = true ->
  1 <= count word text_lower.
Proof.
  intros Hw Ht. unfold count. destruct word as [|a w]; [done|].
  apply count_from_contains; [done|]. by apply is_token_contains.
Qed.

Lemma tally_fold_ge (words : list str) (text_lower : str) (acc : nat) :
  acc <= fold_left
           (fun total word =>
              if contains (padded word) (padded text_lower)
              then total + count word text_lower
              else total)
           words acc.
Proof.
  revert acc. induction words as [|w ws IH]; intros acc; cbn [fold_left].
  - lia.
  - destruct (contains _ _); [|apply IH].
    etransitivity; [|apply IH]. lia.
Qed.

Lemma tally_fold_token (words : list str) (text_lower : str) (acc : nat) :
  Forall (fun w => w <> []) words ->
  has_token words text_lower = true ->
  acc < fold_left
          (fun total word =>
             if contains (padded word) (padded text_lower)
             then total + count word text_lower
             else total)
          words acc.
Proof.
  unfold has_token. intros Hne. revert acc.
  induction Hne as [|w ws Hw Hne IH]; intros acc; cbn [existsb fold_left].
  - done.
  - fold (is_token w text_lower).
    destruct (is_token w text_lower) eqn:Ht.
    + intros _. pose proof (count_of_token w text_lower Hw Ht).
      eapply Nat.lt_le_trans; [|apply tally_fold_ge]. lia.
    + cbn [orb]. apply IH.
Qed.

Lemma tally_fold_no_token (words : list str) (text_lower : str) (acc : nat) :
  has_token words text_lower = false ->
  fold_left
    (fun total word =>
       if contains (padded word) (padded text_lower)
       then total + count word text_lower
       else total)
    words acc = acc.
Proof.
  unfold has_token. revert acc.
  induction words as [|w ws IH]; intros acc; cbn [existsb fold_left].
  - done.
  - fold (is_token w text_lower).
    destruct (is_token w text_lower); [done|]. cbn [orb]. apply IH.
Qed.

Lemma tally_positive (words : list str) (text_lower : str) :
  Forall (fun w => w <> []) words ->
  (0 < tally words text_lower <-> has_token words text_lower = true).
Proof.
  intros Hne. split.
  - destruct (has_token words text_lower) eqn:E; [done|].
    unfold tally. rewrite tally_fold_no_token by done. lia.
  - intros Ht. by apply tally_fold_token.
Qed.

Lemma init_words (logger_bound : bool) (self : t) :
  init logger_bound = inr self ->
  Forall (fun w => w <> []) (positive_words self)
  /\ Forall (fun w => w <> []) (negative_words self).
Proof.
  unfold init. destruct logger_bound; [|done]. intros [= <-].
  cbn [positive_words negative_words].
  split; [unfold positive_word_set | unfold negative_word_set];
    repeat constructor; discriminate.
Qed.

(** X26. [analyze] returns only when the name [logger], which the module
    never binds, is bound.  What it returns is positive, negative or
    neutral: positive only for a text in which a positive word occurs as
    a token, and negative only for one in which a negative word does. *)
Theorem sentiment_needs_a_listed_token (built bound : bool) (self : t)
    (text sentiment : str) :
  init built = inr self ->
  analyze bound self text = inr sentiment ->
  bound = true
  /\ In sentiment [lit "positive"; lit "negative"; lit "neutral"]
  /\ (sentiment = lit "positive" ->
      has_token (positive_words self) (text_lower_of text) = true)
  /\ (sentiment = lit "negative" ->
      has_token (negative_words self) (text_lower_of text) = true).
Proof.
  intros Hinit. destruct (init_words built self Hinit) as [Hpw Hnw].
  unfold analyze, text_lower_of. cbv zeta.
  set (t := strip (py_lower text)).
  pose proof (tally_positive (positive_words self) t Hpw) as Hp.
  pose proof (tally_positive (negative_words self) t Hnw) as Hn.
  destruct bound; [|done]. intros [= <-]. split; [done|].
  destruct (Nat.ltb_spec 0 (tally (positive_words self) t)) as [Hp0|Hp0];
    destruct (Nat.ltb_spec 0 (tally (negative_words self) t)) as [Hn0|Hn0];
    destruct (Nat.ltb_spec (tally (negative_words self) t)
                           (tally (positive_words self) t));
    destruct (Nat.ltb_spec (tally (positive_words self) t)
                           (tally (negative_words self) t));
    cbn [andb]; try lia;
    (split; [cbn; tauto|]); (split; [|]); try discriminate;
    intros _; tauto.
Qed.

(** X27. With [logger] bound, a text with a positive word as a token and
    no negative word as a token is positive, one with a negative but no
    positive token is negative, and one with neither is neutral. *)
Theorem one_sided_tokens_decide_the_sentiment (built : bool) (self : t)
    (text : str) :
  init built = inr self ->
  (has_token (positive_words self) (text_lower_of text) = true ->
   has_token (negative_words self) (text_lower_of text) = false ->
   analyze true self text = inr (lit "positive"))
  /\ (has_token (negative_words self) (text_lower_of text) = true ->
      has_token (positive_words self) (text_lower_of text) = false ->
      analyze true self text = inr (lit "negative"))
  /\ (has_token (positive_words self) (text_lower_of text) = false ->
      has_token (negative_words self) (text_lower_of text) = false ->
      analyze true self text = inr (lit "neutral")).
Proof.
  intros Hinit. destruct (init_words built self Hinit) as [Hpw Hnw].
  unfold analyze, text_lower_of. cbv zeta.
  set (t := strip (py_lower text)).
  pose proof (tally_positive (positive_words self) t Hpw) as Hp.
  pose proof (tally_positive (negative_words self) t Hnw) as Hn.
  split; [|split]; intros H1 H2.
  - apply Hp in H1.
    assert (tally (negative_words self) t = 0) as ->
      by (unfold tally; by apply tally_fold_no_token).
    destruct (Nat.ltb_spec 0 (tally (positive_words self) t)); [done|lia].
  - apply Hn in H1.
    assert (tally (positive_words self) t = 0) as ->
      by (unfold tally; by apply tally_fold_no_token).
    change (0 <? 0) with false. cbn [andb].
    destruct (Nat.ltb_spec 0 (tally (negative_words self) t)); [done|lia].
  - assert (tally (positive_words self) t = 0) as ->
      by (unfold tally; by apply tally_fold_no_token).
    assert (tally (negative_words self) t = 0) as ->
      by (unfold tally; by apply tally_fold_no_token).
    done.
Qed.

End SentimentTheorems.

(* ===================================================================== *)
(** * The further theorems at concrete inputs *)
(* ===================================================================== *)

Lemma detected_result_witness :
  exists r,
    fst (EmotionDetector.detect_emotion (H:=ascii_builtins) sample_detector
           (lit "hello")) = Some r
    /\ In (EmotionDetector.label r) EmotionDetector.TARGET_EMOTIONS
    /\ PyDict.keys (EmotionDetector.scores r) = EmotionDetector.TARGET_EMOTIONS
    /\ PyDict.get (EmotionDetector.label r) (EmotionDetector.scores r)
       = Some (EmotionDetector.confidence r).
Proof.
  eexists. split; [vm_compute; reflexivity|].
  apply (@detected_result_is_well_formed ascii_builtins sample_detector
           (lit "hello")).
  vm_compute. reflexivity.
Defined.

Lemma confident_local_result_witness :
  exists r,
    EmotionDetector.remap_and_normalize sample_predictions = Ret r
    /\ EmotionDetector.detect_emotion (H:=ascii_builtins) local_only_detector
         (lit "hello")
       = (Some r, [EmotionDetector.PipelineCall (lit "hello")]).
Proof.
  eexists. split; [vm_compute; reflexivity|].
  apply (@confident_local_result_is_final ascii_builtins local_only_detector
           (lit "hello") sample_pipeline sample_predictions []).
  - vm_compute. discriminate.
  - reflexivity.
  - reflexivity.
  - vm_compute. reflexivity.
  - right. reflexivity.
Defined.

Lemma unsure_local_result_witness :
  exists r,
    fst (EmotionDetector.detect_emotion (H:=ascii_builtins) sample_detector
           (lit "hello")) = Some r
    /\ EmotionDetector.label r = lit "Sad".
Proof.
  destruct (@unsure_local_result_is_replaced ascii_builtins sample_detector
              (lit "hello") sample_pipeline sample_predictions []
              _ _ _
              ltac:(vm_compute; discriminate) eq_refl eq_refl
              ltac:(vm_compute; reflexivity)
              ltac:(vm_compute; reflexivity) eq_refl eq_refl eq_refl)
    as (r' & Hparse & Hdetect).
  exists r'. split; [by rewrite Hdetect|].
  vm_compute in Hparse. by injection Hparse as <-.
Defined.

Lemma unsure_local_result_survives_witness :
  exists r,
    EmotionDetector.remap_and_normalize sample_predictions = Ret r
    /\ fst (EmotionDetector.detect_emotion (H:=ascii_builtins)
              unsure_detector_without_remote (lit "hello")) = Some r.
Proof.
  eexists. split; [vm_compute; reflexivity|].
  apply (@unsure_local_result_survives_remote_failure ascii_builtins
           unsure_detector_without_remote (lit "hello") sample_pipeline
           sample_predictions []).
  - vm_compute. discriminate.
  - reflexivity.
  - reflexivity.
  - vm_compute. reflexivity.
  - vm_compute. reflexivity.
  - right. eexists _, _. split; reflexivity.
Defined.

Lemma none_only_when_remote_call_raises_witness :
  fst (EmotionDetector.detect_emotion (H:=ascii_builtins)
         (detector_without_models ExternalError ExternalError)
         (lit "I need help")) = None
  /\ EmotionDetector.use_gemini_fallback
       (detector_without_models ExternalError ExternalError) = true.
Proof.
  assert (Hnone : fst (EmotionDetector.detect_emotion (H:=ascii_builtins)
                         (detector_without_models ExternalError ExternalError)
                         (lit "I need help")) = None)
    by (vm_compute; reflexivity).
  split; [exact Hnone|].
  exact (proj1 (@none_only_when_remote_call_raises ascii_builtins
                  (detector_without_models ExternalError ExternalError)
                  (lit "I need help") Hnone)).
Defined.


Lemma reset_clears_one_session_witness :
  EmotionResponseAdapter.get_frustration_level once_frustrated test_session
  = 1%Z
  /\ EmotionResponseAdapter.get_frustration_level
       (EmotionResponseAdapter.reset_frustration_tracker once_frustrated
          test_session) test_session = 0%Z
  /\ EmotionResponseAdapter.get_frustration_level
       (snd (EmotionResponseAdapter.adjust_response_based_on_emotion
               (H:=ascii_builtins)
               (EmotionResponseAdapter.reset_frustration_tracker
                  once_frustrated test_session)
               Frustrated (lit "The fee is BD 3.300.")
               (lit "Why is this so expensive?") session_context))
       test_session = 1%Z.
Proof.
  destruct (@reset_clears_one_session ascii_builtins once_frustrated
              test_session test_session (lit "The fee is BD 3.300.")
              (lit "Why is this so expensive?") session_context)
    as (Hzero & _ & _ & Hnext).
  split; [reflexivity|]. split; [exact Hzero|].
  apply Hnext; [by eexists | reflexivity].
Defined.

Lemma remote_failure_witness :
  fst (EmotionResponseAdapter.adjust_response_based_on_emotion
         (H:=ascii_builtins) failing_adapter (lit "Sad")
         (lit "The fee is BD 3.300.") (lit "I lost my card")
         session_context)
  = lit "I'm sorry you're experiencing this. The fee is BD 3.300.".
Proof.
  destruct (@remote_failure_gives_prefixed_base_answer ascii_builtins
              failing_adapter (fun _ => Raise ExternalError) (lit "Sad")
              (lit "The fee is BD 3.300.") (lit "I lost my card")
              session_context _ ExternalError eq_refl eq_refl eq_refl)
    as (Hprefix & _).
  rewrite Hprefix. vm_compute. reflexivity.
Defined.

Lemma anonymous_turns_witness :
  EmotionResponseAdapter.session_of None = None
  /\ snd (EmotionResponseAdapter.adjust_response_based_on_emotion
            (H:=ascii_builtins) once_frustrated Frustrated
            (lit "The fee is BD 3.300.") (lit "Why is this so expensive?")
            None) = once_frustrated
  /\ EmotionResponseAdapter._add_emotion_enhancements (H:=ascii_builtins)
       (EmotionResponseAdapter.frustration_tracker once_frustrated)
       (lit "It is per card.") Frustrated (lit "Still too much!") None
     = Ret (lit "It is per card.").
Proof.
  split; [reflexivity|].
  exact (@anonymous_turns_are_not_tracked ascii_builtins once_frustrated
           (EmotionResponseAdapter.frustration_tracker once_frustrated)
           Frustrated (lit "The fee is BD 3.300.")
           (lit "Why is this so expensive?") (lit "It is per card.") None
           eq_refl).
Defined.

Lemma rating_request_is_appended_witness :
  strip well_formed_reply <> []
  /\ exists body label conf,
       ResponseGenerator.parse_reply (H:=ascii_builtins) (lit "en") true
         well_formed_reply
       = Ret (body ++ ResponseGenerator.rating_request_en, label, conf, true).
Proof.
  assert (Hne : strip well_formed_reply <> []) by (vm_compute; discriminate).
  split; [exact Hne|].
  destruct (@rating_request_is_appended ascii_builtins (lit "en")
              well_formed_reply Hne)
    as (body & label & conf & _ & _ & Hrating).
  by exists body, label, conf.
Defined.

Lemma fallback_response_witness :
  exists r,
    Generate._build_fallback_response (H:=ascii_builtins)
      (H0:=ascii_case_tables) fee_documents (lit "en") = Ret r
    /\ r <> []
    /\ exists tail, r = lit "The issuance fee is BD 3.300" ++ tail.
Proof.
  eexists. split; [vm_compute; reflexivity|].
  destruct (@fallback_response_starts_with_first_document ascii_builtins
              ascii_case_tables fee_documents (lit "en") _
              ltac:(vm_compute; reflexivity))
    as (Hne & Hhead & _).
  split; [exact Hne|]. by apply (Hhead _ (tl fee_documents)).
Defined.

Lemma answers_without_remote_reply_witness :
  no_remote_reply (offline_generator fee_documents)
    (lit "What is the Sadeem fee?") (lit "en")
  /\ exists resp flag,
       Generate.generate (H:=ascii_builtins) (H0:=ascii_case_tables)
         (offline_generator fee_documents) (lit "What is the Sadeem fee?")
         (lit "en")
       = Ret (resp, lit "Neutral", 0.0%Q, flag).
Proof.
  assert (Hno : no_remote_reply (offline_generator fee_documents)
                  (lit "What is the Sadeem fee?") (lit "en"))
    by (by left).
  split; [exact Hno|].
  destruct (@answers_without_remote_reply_are_neutral ascii_builtins
              ascii_case_tables (offline_generator fee_documents)
              (lit "What is the Sadeem fee?") (lit "en") Hno)
    as (_ & Hneutral).
  destruct (Generate.generate (H:=ascii_builtins) (H0:=ascii_case_tables)
              (offline_generator fee_documents)
              (lit "What is the Sadeem fee?") (lit "en"))
    as [[[[resp label] conf] flag]|e] eqn:E.
  - destruct (Hneutral resp label conf flag eq_refl) as [-> ->].
    by exists resp, flag.
  - vm_compute in E. discriminate E.
Defined.

Lemma closing_query_witness :
  exists resp label conf,
    Generate.generate (H:=ascii_builtins) (H0:=ascii_case_tables)
      online_generator (lit "Thanks, bye") (lit "en")
    = Ret (resp, label, conf, true)
    /\ exists pre, resp = pre ++ rating_sentence (lit "en").
Proof.
  assert (E : exists resp label conf,
             Generate.generate (H:=ascii_builtins) (H0:=ascii_case_tables)
               online_generator (lit "Thanks, bye") (lit "en")
             = Ret (resp, label, conf, true))
    by (eexists _, _, _; vm_compute; reflexivity).
  destruct E as (resp & label & conf & E).
  exists resp, label, conf. split; [exact E|].
  exact (proj2 (@closing_query_gets_rating_request ascii_builtins
                  ascii_case_tables online_generator (lit "Thanks, bye")
                  (lit "en") resp label conf true E) eq_refl).
Defined.

Lemma generate_raises_witness :
  Generate.generate (H:=ascii_builtins) (H0:=ascii_case_tables)
    (offline_generator [lit "The fee is BD 3.300"; []])
    (lit "What is the Sadeem fee?") (lit "en")
  = Raise IndexError.
Proof.
  apply (@generate_raises_only_on_empty_second_document ascii_builtins
           ascii_case_tables).
  split; [reflexivity|]. split; [by left|]. split; [vm_compute; reflexivity|].
  by eexists _, _.
Defined.

Lemma session_messages_witness :
  SessionManager.get_session
    (add_messages
       (snd (SessionManager.create_session (Time:=Z) (Message:=str) ∅
               (lit "s1") 0%Z))
       (lit "s1") [lit "hello"; lit "what is the fee?"])
    (lit "s1")
  = Some {| SessionManager.created_at := 0%Z;
            SessionManager.messages := [lit "hello"; lit "what is the fee?"];
            SessionManager.rating := None |}.
Proof.
  refine (proj1 (@session_messages_kept_in_order Z str
                   (snd (SessionManager.create_session ∅ (lit "s1") 0%Z))
                   (lit "s1")
                   {| SessionManager.created_at := 0%Z;
                      SessionManager.messages := [];
                      SessionManager.rating := None |}
                   [lit "hello"; lit "what is the fee?"] _)).
  apply lookup_insert_eq.
Defined.

Lemma sentiment_needs_a_listed_token_witness :
  exists self,
    SentimentAnalyzer.init true = inr self
    /\ SentimentAnalyzer.analyze (H:=ascii_builtins) true self
         (lit "This is GREAT") = inr (lit "positive")
    /\ has_token (SentimentAnalyzer.positive_words self)
         (text_lower_of (H:=ascii_builtins) (lit "This is GREAT"))
       = true.
Proof.
  eexists. split; [reflexivity|].
  assert (E : SentimentAnalyzer.analyze (H:=ascii_builtins) true
                {| SentimentAnalyzer.positive_words :=
                     SentimentAnalyzer.positive_word_set;
                   SentimentAnalyzer.negative_words :=
                     SentimentAnalyzer.negative_word_set;
                   SentimentAnalyzer.has_bert := false |}
                (lit "This is GREAT") = inr (lit "positive"))
    by (vm_compute; reflexivity).
  split; [exact E|].
  destruct (@sentiment_needs_a_listed_token ascii_builtins true true _
              (lit "This is GREAT") (lit "positive") eq_refl E)
    as (_ & _ & Hpos & _).
  by apply Hpos.
Defined.

Lemma one_sided_tokens_witness :
  exists self,
    SentimentAnalyzer.init true = inr self
    /\ SentimentAnalyzer.analyze (H:=ascii_builtins) true self
         (lit "This is a WASTE of time") = inr (lit "negative").
Proof.
  eexists. split; [reflexivity|].
  apply (@one_sided_tokens_decide_the_sentiment ascii_builtins true _
           (lit "This is a WASTE of time") eq_refl);
    vm_compute; reflexivity.
Defined.
